(** * Stablewealth: ledger, daily profit distribution, referral commissions

    A shallow embedding of the balance-affecting code paths of the
    Stablewealth platform, and the properties its specification states
    about them.

    - The relational store is a record of tables, each table a list of
      rows in insertion order.  Free-text columns (description,
      admin_notes, full_name) and audit timestamps (updated_at,
      processed_at, the created_at of ledger rows) are read by none of
      the modelled decisions and are left out of the rows.
    - A numeric column holds a decimal, a rational ([Q]); SQL computes
      on it exactly, and the places where SQL rounds to a declared scale
      are written out.  The tables' definitions are not among the sources:
      a column is taken to hold the decimal it is given, at any scale.  A JavaScript number is a binary64 value: it is
      written here as the decimal its JSON text shows, the form in which
      it reaches the store and leaves it, and every [+], [-], [*] and [/]
      of the TypeScript code reads its operands as doubles and rounds its
      result to the nearest double, ties to even ([Number]).  Magnitudes
      at which binary64 overflows (from 2^1024 on) are outside the model.
    - A [Date] is its millisecond count since the epoch ([Z]); the
      ISO date string [toISOString().split('T')[0]] is the day number since
      the epoch, whose order is the order of the strings.
    - TypeScript code runs in a state-and-exception monad over the store;
      a client call never throws, it answers [{ data, error }].  The store
      serves every well-formed call, so the one error a call answers here is
      the row-count error of [.single()]; where a property is about failures
      of a callee, it is stated for every behaviour of the callee. *)

From Stdlib Require Import ZArith QArith List String Bool Lia DecimalString Floats.
From Stdlib Require Import Lqa Qabs Qround.
Import ListNotations.

Local Open Scope string_scope.
Local Open Scope Z_scope.
Local Open Scope list_scope.

(* ================================================================== *)
(** * The relational store *)
(* ================================================================== *)

Module Db.

Definition uuid := string.

(** Days since 1970-01-01, standing for the string YYYY-MM-DD. *)
Definition date := Z.

Inductive transaction_type :=
| deposit | investment | withdrawal | profit | referral_bonus | ton_purchase.

Inductive transaction_status := pending | completed | failed | cancelled.

Inductive request_status := req_pending | req_approved | req_rejected.

Record Profile := mkProfile {
  id : uuid;
  referral_code : option string;
  sponsor_id : option string;
  main_wallet_balance : Q;
  fund_wallet_balance : Q;
  total_jarvis_tokens : Q;
  is_admin : bool
}.

Record InvestmentPlan := mkPlan {
  plan_id : uuid;
  plan_user_id : uuid;
  plan_type : string;
  investment_amount : Q;
  daily_percentage : Q;
  total_profit_earned : Q;
  is_active : bool;
  plan_created_at : Z
}.

Record Transaction := mkTransaction {
  tx_id : uuid;
  tx_user_id : uuid;
  tx_type : transaction_type;
  tx_amount : Q;
  tx_fee : option Q;
  tx_net_amount : option Q;
  tx_status : transaction_status;
  tx_reference_id : option string;
  tx_plan_id : option uuid
}.

Record ReferralCommission := mkCommission {
  referrer_id : uuid;
  referred_id : uuid;
  commission_amount : Q;
  commission_percentage : Q;
  level : nat
}.

Record ProfitDistribution := mkDistribution {
  pd_plan_id : uuid;
  pd_user_id : uuid;
  profit_amount : Q;
  distribution_date : date
}.

Record WithdrawalRequest := mkWithdrawal {
  wr_id : uuid;
  wr_user_id : uuid;
  wr_amount : Q;
  wr_status : request_status
}.

Record DepositRequest := mkDepositRequest {
  dr_id : uuid;
  dr_user_id : uuid;
  dr_amount : Q;
  dr_tx_hash : option string;
  dr_status : request_status
}.

Record DB := mkDB {
  profiles : list Profile;
  investment_plans : list InvestmentPlan;
  transactions : list Transaction;
  referral_commissions : list ReferralCommission;
  profit_distributions : list ProfitDistribution;
  withdrawal_requests : list WithdrawalRequest;
  deposit_requests : list DepositRequest;
  (** source of the identifiers the store generates for inserted rows *)
  uuid_seq : nat
}.

Definition set_profiles (l : list Profile) (d : DB) : DB :=
  mkDB l (investment_plans d) (transactions d) (referral_commissions d)
       (profit_distributions d) (withdrawal_requests d) (deposit_requests d)
       (uuid_seq d).

Definition set_investment_plans (l : list InvestmentPlan) (d : DB) : DB :=
  mkDB (profiles d) l (transactions d) (referral_commissions d)
       (profit_distributions d) (withdrawal_requests d) (deposit_requests d)
       (uuid_seq d).

Definition set_transactions (l : list Transaction) (d : DB) : DB :=
  mkDB (profiles d) (investment_plans d) l (referral_commissions d)
       (profit_distributions d) (withdrawal_requests d) (deposit_requests d)
       (uuid_seq d).

Definition set_referral_commissions (l : list ReferralCommission) (d : DB) : DB :=
  mkDB (profiles d) (investment_plans d) (transactions d) l
       (profit_distributions d) (withdrawal_requests d) (deposit_requests d)
       (uuid_seq d).

Definition set_profit_distributions (l : list ProfitDistribution) (d : DB) : DB :=
  mkDB (profiles d) (investment_plans d) (transactions d)
       (referral_commissions d) l (withdrawal_requests d) (deposit_requests d)
       (uuid_seq d).

Definition set_withdrawal_requests (l : list WithdrawalRequest) (d : DB) : DB :=
  mkDB (profiles d) (investment_plans d) (transactions d)
       (referral_commissions d) (profit_distributions d) l (deposit_requests d)
       (uuid_seq d).

Definition set_deposit_requests (l : list DepositRequest) (d : DB) : DB :=
  mkDB (profiles d) (investment_plans d) (transactions d)
       (referral_commissions d) (profit_distributions d)
       (withdrawal_requests d) l (uuid_seq d).

Definition set_uuid_seq (n : nat) (d : DB) : DB :=
  mkDB (profiles d) (investment_plans d) (transactions d)
       (referral_commissions d) (profit_distributions d)
       (withdrawal_requests d) (deposit_requests d) n.

Definition empty : DB := mkDB [] [] [] [] [] [] [] 0.

(** The column default [gen_random_uuid()]: a fresh identifier per insert. *)
Definition uuid_of_nat (n : nat) : uuid :=
  String.append "gen-" (NilZero.string_of_uint (Nat.to_uint n)).

Definition set_balance (b : Q) (p : Profile) : Profile :=
  mkProfile (id p) (referral_code p) (sponsor_id p) b
            (fund_wallet_balance p) (total_jarvis_tokens p) (is_admin p).

Definition set_fund_and_tokens (f t : Q) (p : Profile) : Profile :=
  mkProfile (id p) (referral_code p) (sponsor_id p) (main_wallet_balance p)
            f t (is_admin p).

Definition set_fund (f : Q) (p : Profile) : Profile :=
  set_fund_and_tokens f (total_jarvis_tokens p) p.

Definition set_total_profit_earned (t : Q) (p : InvestmentPlan) : InvestmentPlan :=
  mkPlan (plan_id p) (plan_user_id p) (plan_type p) (investment_amount p)
         (daily_percentage p) t (is_active p) (plan_created_at p).

Definition set_tx_status (s : transaction_status) (t : Transaction) : Transaction :=
  mkTransaction (tx_id t) (tx_user_id t) (tx_type t) (tx_amount t) (tx_fee t)
                (tx_net_amount t) s (tx_reference_id t) (tx_plan_id t).

Definition set_wr_status (s : request_status) (r : WithdrawalRequest) : WithdrawalRequest :=
  mkWithdrawal (wr_id r) (wr_user_id r) (wr_amount r) s.

Definition set_dr_status (s : request_status) (r : DepositRequest) : DepositRequest :=
  mkDepositRequest (dr_id r) (dr_user_id r) (dr_amount r) (dr_tx_hash r) s.

Definition transaction_type_eqb (a b : transaction_type) : bool :=
  match a, b with
  | deposit, deposit | investment, investment | withdrawal, withdrawal
  | profit, profit | referral_bonus, referral_bonus
  | ton_purchase, ton_purchase => true
  | _, _ => false
  end.

Definition transaction_status_eqb (a b : transaction_status) : bool :=
  match a, b with
  | pending, pending | completed, completed | failed, failed
  | cancelled, cancelled => true
  | _, _ => false
  end.

Definition request_status_eqb (a b : request_status) : bool :=
  match a, b with
  | req_pending, req_pending | req_approved, req_approved
  | req_rejected, req_rejected => true
  | _, _ => false
  end.

(** SQL and PostgREST equality against a nullable text column: NULL
    matches nothing. *)
Definition text_is (v : string) (col : option string) : bool :=
  match col with
  | Some c => String.eqb c v
  | None => false
  end.

(** [UPDATE t SET ... WHERE cond]: every matching row is rewritten in place. *)
Definition update_rows {A : Type} (cond : A -> bool) (f : A -> A) (l : list A) : list A :=
  map (fun r => if cond r then f r else r) l.

End Db.

(* ================================================================== *)
(** * JavaScript numbers *)
(* ================================================================== *)

Module Number.

Definition pow2 (e : Z) : Q :=
  if 0 <=? e then inject_Z (2 ^ e) else 1 # Z.to_pos (2 ^ (- e)).

Definition pow10 (e : Z) : Q :=
  if 0 <=? e then inject_Z (10 ^ e) else 1 # Z.to_pos (10 ^ (- e)).

(** [n / d] to the nearest integer, ties to the even one, for [0 <= n]
    and [0 < d]. *)
Definition nearest_even (n d : Z) : Z :=
  let q := n / d in
  match 2 * (n mod d) ?= d with
  | Lt => q
  | Gt => q + 1
  | Eq => if Z.even q then q else q + 1
  end.

(** [n / d < 2 ^ l] *)
Definition below_pow2 (n d l : Z) : bool :=
  if 0 <=? l then n <? d * 2 ^ l else n * 2 ^ (- l) <? d.

(** The binary64 value nearest to a rational, ties to even: a multiple
    [m * 2 ^ e] with [m] of at most 53 bits and [e] at least -1074, the
    exponent of the subnormal numbers. *)
Definition binary64 (q : Q) : Q :=
  let n := Z.abs (Qnum q) in
  let d := Zpos (Qden q) in
  if n =? 0 then 0%Q
  else
    let l := Z.log2 n - Z.log2 d in
    let l := if below_pow2 n d l then l - 1 else l in
    let e := Z.max (l - 52) (-1074) in
    let m := if 0 <=? e then nearest_even n (d * 2 ^ e)
             else nearest_even (n * 2 ^ (- e)) d in
    Qred (inject_Z (Z.sgn (Qnum q) * m) * pow2 e).

(** The least [p] from a lower estimate on with [x < 10 ^ p]. *)
Fixpoint magnitude (fuel : nat) (x : Q) (p : Z) : Z :=
  match fuel with
  | O => p
  | S fuel' => if Qle_bool (pow10 p) x then magnitude fuel' x (p + 1) else p
  end.

Definition round_trips (x c : Q) : bool := Qeq_bool (binary64 c) x.

(** The decimal of [k] significant digits that reads back as the double
    [x], the nearer one to [x] when two do. *)
Definition with_digits (x : Q) (p k : Z) : option Q :=
  let scale := pow10 (k - p) in
  let lo := Qfloor (x * scale) in
  let c_lo := (inject_Z lo / scale)%Q in
  let c_hi := (inject_Z (lo + 1) / scale)%Q in
  match round_trips x c_lo, round_trips x c_hi with
  | true, true =>
      match (x - c_lo ?= c_hi - x)%Q with
      | Lt => Some c_lo
      | Gt => Some c_hi
      | Eq => if Z.even lo then Some c_lo else Some c_hi
      end
  | true, false => Some c_lo
  | false, true => Some c_hi
  | false, false => None
  end.

Fixpoint fewest_digits (fuel : nat) (x : Q) (p k : Z) : Q :=
  match fuel with
  | O => x
  | S fuel' =>
      match with_digits x p k with
      | Some c => c
      | None => fewest_digits fuel' x p (k + 1)
      end
  end.

(** [JSON.stringify(x)] and [String(x)] of a double, as the decimal the
    text denotes: the fewest digits that read back as [x] (17 always do). *)
Definition shortest (x : Q) : Q :=
  let a := Qabs x in
  if Qeq_bool a 0 then 0%Q
  else
    let l := Z.log2 (Qnum a) - Z.log2 (Zpos (Qden a)) in
    let p := magnitude 8 a (l * 30103 / 100000 - 2) in
    let c := fewest_digits 17 a p 1 in
    Qred (if Qle_bool 0 x then c else - c).

(** The JavaScript number read from a decimal (a numeric column in a JSON
    answer, a number literal, [parseFloat] of a numeric text), written as
    JSON writes it back. *)
Definition number (q : Q) : Q := shortest (binary64 q).

(** [x + y], [x - y], [x * y], [x / y] on numbers; [y] is never zero where
    the code divides. *)
Definition add (x y : Q) : Q := number (binary64 x + binary64 y).
Definition sub (x y : Q) : Q := number (binary64 x - binary64 y).
Definition mul (x y : Q) : Q := number (binary64 x * binary64 y).
Definition div (x y : Q) : Q := number (binary64 x / binary64 y).

(** [x < y], [x <= y] and [x === y] on numbers. *)
Definition ltb (x y : Q) : bool := negb (Qle_bool (binary64 y) (binary64 x)).
Definition leb (x y : Q) : bool := Qle_bool (binary64 x) (binary64 y).
Definition eqb (x y : Q) : bool := Qeq_bool (binary64 x) (binary64 y).

End Number.

(* ================================================================== *)
(** * TypeScript computations over the store *)
(* ================================================================== *)

Module Js.
Import Db.

Inductive outcome (A : Type) : Type :=
| Ret (a : A)
| Throw (e : string).
Arguments Ret {A} a.
Arguments Throw {A} e.

Definition M (A : Type) : Type := DB -> outcome A * DB.

Definition ret {A} (a : A) : M A := fun d => (Ret a, d).

Definition throw {A} (e : string) : M A := fun d => (Throw e, d).

Definition bind {A B} (m : M A) (k : A -> M B) : M B :=
  fun d =>
    match m d with
    | (Ret a, d') => k a d'
    | (Throw e, d') => (Throw e, d')
    end.

(** [try { m } catch (e) { h e }] *)
Definition try_catch {A} (m : M A) (h : string -> M A) : M A :=
  fun d =>
    match m d with
    | (Ret a, d') => (Ret a, d')
    | (Throw e, d') => h e d'
    end.

Definition get : M DB := fun d => (Ret d, d).

Definition modify (f : DB -> DB) : M unit := fun d => (Ret tt, f d).

Declare Scope js_scope.
Delimit Scope js_scope with js.
Notation "x <- m ;; k" := (bind m (fun x => k))
  (at level 61, m at next level, right associativity) : js_scope.
Notation "m ;;; k" := (bind m (fun _ => k))
  (at level 61, right associativity) : js_scope.

(** [for (const x of xs) { acc = body x acc }] with the loop state threaded. *)
Fixpoint for_of {A S : Type} (xs : list A) (body : A -> S -> M S) (acc : S) : M S :=
  match xs with
  | [] => ret acc
  | x :: rest => bind (body x acc) (fun acc' => for_of rest body acc')
  end.

(** A JavaScript [Map<string, number>]: keys in first-insertion order. *)
Definition JsMap := list (string * Q).

Fixpoint map_get (k : string) (m : JsMap) : option Q :=
  match m with
  | [] => None
  | (k', v) :: rest => if String.eqb k' k then Some v else map_get k rest
  end.

Definition map_has (k : string) (m : JsMap) : bool :=
  match map_get k m with Some _ => true | None => false end.

Fixpoint map_set (k : string) (v : Q) (m : JsMap) : JsMap :=
  match m with
  | [] => [(k, v)]
  | (k', v') :: rest =>
      if String.eqb k' k then (k', v) :: rest else (k', v') :: map_set k v rest
  end.

(** A computation keeps [R] when the store it leaves is related by [R] to
    the store it started from, whether it returns or throws. *)
Definition keeps (R : DB -> DB -> Prop) {A} (m : M A) : Prop :=
  forall d, R d (snd (m d)).

(** [x || 0] on a number. *)
Definition or_zero (x : Q) : Q := if Qeq_bool x 0 then 0%Q else x.

End Js.

(* ================================================================== *)
(** * The PostgREST client (supabase-js) *)
(* ================================================================== *)

Module Postgrest.
Import Db Js.

(** What a client call answers: [{ data, error: null }] or
    [{ data: null, error }]. *)
Inductive reply (A : Type) : Type :=
| Data (a : A)
| Error (msg : string).
Arguments Data {A} a.
Arguments Error {A} msg.

(** [.single()]: the result must be exactly one row; for no row and for
    several rows alike the call answers [data: null] with the error
    PGRST116 (JSON object requested, multiple (or no) rows returned). *)
Definition single {A} (rows : list A) : reply A :=
  match rows with
  | [r] => Data r
  | _ => Error "PGRST116"
  end.

(** [.from(table).select(...).eq(...)...] *)
Definition select {A} (table : DB -> list A) (cond : A -> bool) : M (reply (list A)) :=
  fun d => (Ret (Data (filter cond (table d))), d).

(** [.from(table).select(...).eq(...).single()] *)
Definition select_single {A} (table : DB -> list A) (cond : A -> bool) : M (reply A) :=
  fun d => (Ret (single (filter cond (table d))), d).

(** [.from(table).update(...).eq(...)] *)
Definition update {A} (table : DB -> list A) (store : list A -> DB -> DB)
    (cond : A -> bool) (f : A -> A) : M (reply unit) :=
  fun d => (Ret (Data tt), store (update_rows cond f (table d)) d).

(** [.from(table).insert(rows)] for a table without generated columns. *)
Definition insert {A} (table : DB -> list A) (store : list A -> DB -> DB)
    (rows : list A) : M (reply unit) :=
  fun d => (Ret (Data tt), store (table d ++ rows) d).

(** [.from(table).insert(row)] where the store generates the row's id. *)
Definition insert_with_id {A} (table : DB -> list A) (store : list A -> DB -> DB)
    (row : uuid -> A) : M (reply A) :=
  fun d =>
    let r := row (uuid_of_nat (uuid_seq d)) in
    (Ret (Data r), set_uuid_seq (S (uuid_seq d)) (store (table d ++ [r]) d)).

(** [.from(table).delete().eq(...)] *)
Definition delete {A} (table : DB -> list A) (store : list A -> DB -> DB)
    (cond : A -> bool) : M (reply unit) :=
  fun d => (Ret (Data tt), store (filter (fun r => negb (cond r)) (table d)) d).

Definition is_error {A} (r : reply A) : bool :=
  match r with Error _ => true | Data _ => false end.

(** The read-then-write of the code: fetch the row of a key with
    [.single()], add an amount to the value read there and write the sum to
    the rows of that key. *)
Definition apply_entry {A} (key : A -> string) (cur : A -> Q) (upd : Q -> A -> A)
    (e : string * Q) (l : list A) : list A :=
  match single (filter (fun a => String.eqb (key a) (fst e)) l) with
  | Data c => update_rows (fun a => String.eqb (key a) (fst e))
                (upd (Number.add (cur c) (snd e))) l
  | Error _ => l
  end.

End Postgrest.

(* ================================================================== *)
(** * The profit distribution job

    [distributeInvestmentProfits], the second unit of
    src/lib/optimizedReferralService.ts (imported by the routes as
    lib/profit-distribution). *)
(* ================================================================== *)

Module ProfitDistribution.
Import Db Js Postgrest.
Local Open Scope js_scope.

(** [24 * 60 * 60 * 1000] *)
Definition DAY_MS : Z := 24 * 60 * 60 * 1000.

(** [d.setUTCHours(0, 0, 0, 0)]: back to the start of the UTC day. *)
Definition setUTCHours0 (t : Z) : Z := t - t mod DAY_MS.

(** [d.toISOString().split('T')[0]] *)
Definition iso_date (t : Z) : date := t / DAY_MS.

(** [new Date(s + 'T00:00:00.000Z').getTime()] *)
Definition date_start (s : date) : Z := s * DAY_MS.

(** [.order('distribution_date', { ascending: false }).limit(1)] *)
Fixpoint latest (rows : list ProfitDistribution) : list ProfitDistribution :=
  match rows with
  | [] => []
  | r :: rest =>
      match latest rest with
      | [] => [r]
      | m :: _ => if distribution_date m <=? distribution_date r then [r] else [m]
      end
  end.

Definition select_latest (cond : ProfitDistribution -> bool)
  : M (reply (list ProfitDistribution)) :=
  fun d => (Ret (Data (latest (filter cond (profit_distributions d)))), d).

(** The plans of the first query: [.eq('is_active', true)] with the inner
    join [profiles!inner(id)], which drops plans whose user has no profile. *)
Definition active_plan (d : DB) (p : InvestmentPlan) : bool :=
  is_active p && existsb (fun u => String.eqb (id u) (plan_user_id p)) (profiles d).

Definition select_active_plans : M (reply (list InvestmentPlan)) :=
  fun d => (Ret (Data (filter (active_plan d) (investment_plans d))), d).

Definition queue : Type := list ProfitDistribution * JsMap.

(** Body of the loop over the plans (lines 307 to 383). *)
Definition plan_step (today : date) (plan : InvestmentPlan) (acc : queue) : M queue :=
  let planCreatedAt := plan_created_at plan in
  let creationDate := setUTCHours0 planCreatedAt in
  let firstDistributionDate := creationDate + 24 * 60 * 60 * 1000 in
  let firstDistributionDateStr := iso_date firstDistributionDate in
  if today <? firstDistributionDateStr then ret acc
  else
    existingDistribution <-
      select profit_distributions
        (fun r => String.eqb (pd_plan_id r) (plan_id plan)
                  && (distribution_date r =? today)) ;;
    match existingDistribution with
    | Data (_ :: _) => ret acc
    | _ =>
      lastDistribution <-
        select_latest (fun r => String.eqb (pd_plan_id r) (plan_id plan)) ;;
      let nextDistributionDate :=
        match lastDistribution with
        | Data (l :: _) => date_start (distribution_date l) + 24 * 60 * 60 * 1000
        | _ => firstDistributionDate
        end in
      let nextDistributionDateStr := iso_date nextDistributionDate in
      if nextDistributionDateStr <=? today then
        let dailyProfitRate := Number.div (daily_percentage plan) 100 in
        let profitAmount := Number.mul (investment_amount plan) dailyProfitRate in
        let '(profitDistributions, userUpdates) := acc in
        ret (profitDistributions ++
               [mkDistribution (plan_id plan) (plan_user_id plan) profitAmount today],
             if map_has (plan_user_id plan) userUpdates
             then map_set (plan_user_id plan)
                    (match map_get (plan_user_id plan) userUpdates with
                     | Some v => Number.add v profitAmount
                     | None => profitAmount
                     end) userUpdates
             else map_set (plan_user_id plan) profitAmount userUpdates)
      else ret acc
    end.

(** Body of the loop over [userUpdates] (lines 401 to 444). *)
Definition wallet_step (entry : string * Q) (_ : unit) : M unit :=
  let '(userId, totalProfit) := entry in
  currentProfile <-
    select_single profiles (fun u => String.eqb (id u) userId) ;;
  match currentProfile with
  | Error _ => ret tt
  | Data currentProfile =>
    walletError <-
      update profiles set_profiles (fun u => String.eqb (id u) userId)
        (set_balance
           (Number.add (or_zero (main_wallet_balance currentProfile)) totalProfit)) ;;
    if is_error walletError then ret tt
    else
      insert_with_id transactions set_transactions
        (fun i => mkTransaction i userId profit totalProfit None
                    (Some totalProfit) completed None None) ;;;
      ret tt
  end.

(** Body of the loop over the queued distributions (lines 447 to 470). *)
Definition plan_total_step (distribution : ProfitDistribution) (_ : unit) : M unit :=
  currentPlan <-
    select_single investment_plans
      (fun p => String.eqb (plan_id p) (pd_plan_id distribution)) ;;
  match currentPlan with
  | Error _ => ret tt
  | Data currentPlan =>
    update investment_plans set_investment_plans
      (fun p => String.eqb (plan_id p) (pd_plan_id distribution))
      (set_total_profit_earned
         (Number.add (or_zero (total_profit_earned currentPlan))
            (profit_amount distribution))) ;;;
    ret tt
  end.

(** [distributeInvestmentProfits()], run when the clock reads [now]. *)
Definition distributeInvestmentProfits (now : Z) : M unit :=
  try_catch
    (plans <- select_active_plans ;;
     match plans with
     | Error _ => ret tt
     | Data [] => ret tt
     | Data plans =>
       let today := iso_date now in
       queued <- for_of plans (plan_step today) ([], []) ;;
       let '(profitDistributions, userUpdates) := queued in
       match profitDistributions with
       | [] => ret tt
       | _ =>
         distributionError <-
           insert profit_distributions set_profit_distributions profitDistributions ;;
         if is_error distributionError then ret tt
         else
           for_of userUpdates wallet_step tt ;;;
           for_of profitDistributions plan_total_step tt
       end
     end)
    (fun _ => ret tt).

(** ** The decision of the loop body, read off [plan_step] *)

(** Whether the plan with this id and creation time is paid on [today],
    given the distribution rows on record. *)
Definition due_on (rows : list ProfitDistribution) (today : date)
    (pid : uuid) (created : Z) : bool :=
  let first := setUTCHours0 created + 24 * 60 * 60 * 1000 in
  if today <? iso_date first then false
  else
    match filter (fun r => String.eqb (pd_plan_id r) pid
                           && (distribution_date r =? today)) rows with
    | _ :: _ => false
    | [] =>
        match latest (filter (fun r => String.eqb (pd_plan_id r) pid) rows) with
        | l :: _ =>
            iso_date (date_start (distribution_date l) + 24 * 60 * 60 * 1000) <=? today
        | [] => iso_date first <=? today
        end
    end.

Definition due (d : DB) (today : date) (plan : InvestmentPlan) : bool :=
  due_on (profit_distributions d) today (plan_id plan) (plan_created_at plan).

(** [plan.investment_amount * (plan.daily_percentage / 100)] *)
Definition profitAmount (plan : InvestmentPlan) : Q :=
  Number.mul (investment_amount plan) (Number.div (daily_percentage plan) 100).

Definition distribution_row (today : date) (plan : InvestmentPlan) : ProfitDistribution :=
  mkDistribution (plan_id plan) (plan_user_id plan) (profitAmount plan) today.

Definition accumulate (plan : InvestmentPlan) (userUpdates : JsMap) : JsMap :=
  map_set (plan_user_id plan)
    (match map_get (plan_user_id plan) userUpdates with
     | Some v => Number.add v (profitAmount plan)
     | None => profitAmount plan
     end) userUpdates.

Definition enqueue (today : date) (plan : InvestmentPlan) (acc : queue) : queue :=
  (fst acc ++ [distribution_row today plan], accumulate plan (snd acc)).

(** The plans one run pays: active, with a profile, and due today. *)
Definition paid_plans (d : DB) (today : date) : list InvestmentPlan :=
  filter (due d today) (filter (active_plan d) (investment_plans d)).



(** What identifies a plan to the scheduler: everything but the accumulator. *)
Definition plan_key (p : InvestmentPlan) : uuid * uuid * bool * Z :=
  (plan_id p, plan_user_id p, is_active p, plan_created_at p).

(** ** Definitions used to state the effect of a run *)

(** The store after the writes of one run that queued [q] and [ups]. *)
Definition after_writes (q : list ProfitDistribution) (ups : JsMap) (d : DB) : DB :=
  snd (for_of q plan_total_step tt
         (snd (for_of ups wallet_step tt
                 (set_profit_distributions (profit_distributions d ++ q) d)))).

Definition queued_updates (d : DB) (today : date) : JsMap :=
  fold_left (fun m p => accumulate p m) (paid_plans d today) [].

Definition same_schedule (d d' : DB) : Prop :=
  map plan_key (investment_plans d') = map plan_key (investment_plans d) /\
  map id (profiles d') = map id (profiles d) /\
  profit_distributions d' = profit_distributions d.

(** [(row.main_wallet_balance || 0)] and [(row.total_profit_earned || 0)] *)
Definition balance_or_zero (p : Profile) : Q := or_zero (main_wallet_balance p).
Definition earned_or_zero (p : InvestmentPlan) : Q := or_zero (total_profit_earned p).

Definition entry_of (r : ProfitDistribution) : string * Q :=
  (pd_plan_id r, profit_amount r).

(** The total queued for a user, zero when none. *)
Definition credited (uid : uuid) (m : JsMap) : Q :=
  match map_get uid m with Some v => v | None => 0%Q end.

End ProfitDistribution.

(* ================================================================== *)
(** * The referral service

    [ReferralService] of src/unnamed/part_002 (imported as
    lib/referralService). *)
(* ================================================================== *)

Module ReferralService.
Import Db Js Postgrest.
Local Open Scope js_scope.

Record ReferralCommissionRates := mkRates {
  rate_level : nat;
  usdtRate : Q
}.

Inductive transactionType := staking | investment_event | deposit_event.

Record ReferralTransaction := mkReferralTransaction {
  userId : string;
  amount : Q;
  transaction_kind : transactionType;
  planType : option string
}.

(** [private readonly commissionRates] *)
Definition commissionRates : list ReferralCommissionRates :=
  [ mkRates 1 10; mkRates 2 5; mkRates 3 3; mkRates 4 2; mkRates 5 1; mkRates 6 0.5 ].

(** A string in a condition: [null], [undefined] and [''] are falsy. *)
Definition truthy (s : option string) : option string :=
  match s with
  | Some EmptyString => None
  | Some c => Some c
  | None => None
  end.

(** The [for (let level = 1; level <= 6; level++)] of [getReferralChain],
    with [remaining] iterations to go. *)
Fixpoint chain_loop (remaining : nat) (level : nat) (currentUserId : uuid)
    (chain : list (Profile * nat)) : M (list (Profile * nat)) :=
  match remaining with
  | O => ret chain
  | S remaining' =>
    referralData <- select_single profiles (fun p => String.eqb (id p) currentUserId) ;;
    match referralData with
    | Error _ => ret chain
    | Data referralData =>
      match truthy (sponsor_id referralData) with
      | None => ret chain
      | Some sponsor =>
        referrer <- select_single profiles (fun p => text_is sponsor (referral_code p)) ;;
        match referrer with
        | Error _ => ret chain
        | Data referrer =>
          chain_loop remaining' (S level) (id referrer) (chain ++ [(referrer, level)])
        end
      end
    end
  end.

Definition getReferralChain (userId : uuid) : M (list (Profile * nat)) :=
  chain_loop 6 1 userId [].

Definition createCommissionTransaction (referrerId referredUserId : uuid)
    (amount : Q) (level : nat) : M unit :=
  error <- insert_with_id transactions set_transactions
             (fun i => mkTransaction i referrerId referral_bonus amount None
                         (Some amount) completed None None) ;;
  match error with
  | Error msg => throw (String.append "Failed to create USDT commission transaction: " msg)
  | Data _ => ret tt
  end.

(** [this.commissionRates[level - 1]?.usdtRate || 0] *)
Definition rate_at (level : nat) : Q :=
  match nth_error commissionRates (level - 1) with
  | Some r => or_zero (usdtRate r)
  | None => 0%Q
  end.

Definition createReferralCommissionRecord (referrerId referredUserId : uuid)
    (usdtAmount : Q) (level : nat) : M unit :=
  try_catch
    (insertError <- insert referral_commissions set_referral_commissions
                      [mkCommission referrerId referredUserId usdtAmount
                         (rate_at level) level] ;;
     match insertError with
     | Error msg => throw msg
     | Data _ => ret tt
     end)
    (fun error => throw error).

Definition payCommission (referrerId referredUserId : uuid) (transactionAmount : Q)
    (rates : ReferralCommissionRates) : M unit :=
  try_catch
    (let usdtCommission := Number.div (Number.mul transactionAmount (usdtRate rates)) 100 in
     referrer <- select_single profiles (fun p => String.eqb (id p) referrerId) ;;
     match referrer with
     | Error msg => throw (String.append "Failed to get referrer data: " msg)
     | Data referrer =>
       let newUsdtBalance := Number.add (main_wallet_balance referrer) usdtCommission in
       updateError <- update profiles set_profiles
                        (fun p => String.eqb (id p) referrerId)
                        (set_balance newUsdtBalance) ;;
       match updateError with
       | Error msg => throw (String.append "Failed to update referrer balance: " msg)
       | Data _ =>
         createCommissionTransaction referrerId referredUserId usdtCommission
           (rate_level rates) ;;;
         createReferralCommissionRecord referrerId referredUserId usdtCommission
           (rate_level rates)
       end
     end)
    (fun error => throw error).

(** [processReferralCommissions(transaction)].  The loop
    [for (i = 0; i < referralChain.length && i < commissionRates.length; i++)]
    visits the pairs [(referralChain[i], commissionRates[i])]. *)
Definition processReferralCommissions (transaction : ReferralTransaction) : M unit :=
  try_catch
    (referralChain <- getReferralChain (userId transaction) ;;
     match referralChain with
     | [] => ret tt
     | _ =>
       for_of (combine referralChain commissionRates)
         (fun '(referrer, rates) _ =>
            payCommission (id (fst referrer)) (userId transaction)
              (amount transaction) rates)
         tt
     end)
    (fun error => throw error).

(** [getDirectReferrals(userId)] *)
Definition getDirectReferrals (userId : uuid) : M (list Profile) :=
  userProfile <- select_single profiles (fun p => String.eqb (id p) userId) ;;
  match userProfile with
  | Error _ => ret []
  | Data userProfile =>
    match truthy (referral_code userProfile) with
    | None => ret []
    | Some code =>
      referrals <- select profiles (fun p => text_is code (sponsor_id p)) ;;
      match referrals with
      | Error _ => ret []
      | Data referrals => ret referrals
      end
    end
  end.

(** [new Set(xs).size] *)
Definition set_size (xs : list string) : nat := List.length (nodup string_dec xs).

(** [countReferralsAtLevel(userId, targetLevel)] *)
Definition countReferralsAtLevel (userId : uuid) (targetLevel : nat) : M nat :=
  if Nat.eqb targetLevel 1 then
    directReferrals <- getDirectReferrals userId ;;
    ret (List.length directReferrals)
  else
    userProfile <- select_single profiles (fun p => String.eqb (id p) userId) ;;
    match userProfile with
    | Error _ => ret O
    | Data userProfile =>
      match truthy (referral_code userProfile) with
      | None => ret O
      | Some _ =>
        directReferrals <- getDirectReferrals userId ;;
        if Nat.eqb targetLevel 2 then
          for_of directReferrals
            (fun referral count =>
               level2Count <- getDirectReferrals (id referral) ;;
               ret (count + List.length level2Count)%nat)
            O
        else
          commissions <- select referral_commissions
                           (fun c => String.eqb (referrer_id c) userId
                                     && Nat.eqb (level c) targetLevel) ;;
          match commissions with
          | Data commissions => ret (set_size (map referred_id commissions))
          | Error _ => ret (set_size [])
          end
      end
    end.

Record LevelStat := mkLevelStat {
  stat_level : nat;
  count : nat;
  usdtEarned : Q;
  stat_usdtRate : Q
}.

Record ReferralStats := mkReferralStats {
  totalUsdtEarned : Q;
  totalReferrals : nat;
  levelStats : list LevelStat
}.

(** [xs.reduce((sum, c) => sum + (c.commission_amount || 0), 0)] *)
Definition sum_commissions (xs : list ReferralCommission) : Q :=
  fold_left (fun sum c => Number.add sum (or_zero (commission_amount c))) xs 0%Q.

(** [getReferralStats(userId)].  The per-level callbacks of [Promise.all]
    only read; they are run one after the other. *)
Definition getReferralStats (userId : uuid) : M ReferralStats :=
  try_catch
    (commissions <- select referral_commissions
                      (fun c => String.eqb (referrer_id c) userId) ;;
     match commissions with
     | Error msg => throw (String.append "Failed to get referral stats: " msg)
     | Data commissions =>
       let totalUsdtEarned := or_zero (sum_commissions commissions) in
       getReferralChain userId ;;;
       directReferrals <- getDirectReferrals userId ;;
       levelStats <-
         for_of commissionRates
           (fun rate stats =>
              let levelCommissions :=
                filter (fun c => Nat.eqb (level c) (rate_level rate)) commissions in
              referralCount <-
                (if Nat.eqb (rate_level rate) 1 then ret (List.length directReferrals)
                 else countReferralsAtLevel userId (rate_level rate)) ;;
              ret (stats ++ [mkLevelStat (rate_level rate) referralCount
                               (sum_commissions levelCommissions) (usdtRate rate)]))
           [] ;;
       let uniqueReferredUsers := set_size (map referred_id commissions) in
       ret (mkReferralStats totalUsdtEarned uniqueReferredUsers levelStats)
     end)
    (fun error => throw error).

(** ** The walk and the payments as functions of the tables *)

(** The sponsors [getReferralChain] finds from [uid], at most [n] levels up:
    one [.single()] lookup of the current profile, one of the profile whose
    referral_code is its sponsor_id. *)
Fixpoint upline (ps : list Profile) (n : nat) (uid : uuid) : list Profile :=
  match n with
  | O => []
  | S n' =>
    match single (filter (fun p => String.eqb (id p) uid) ps) with
    | Error _ => []
    | Data me =>
      match truthy (sponsor_id me) with
      | None => []
      | Some sponsor =>
        match single (filter (fun p => text_is sponsor (referral_code p)) ps) with
        | Error _ => []
        | Data referrer => referrer :: upline ps n' (id referrer)
        end
      end
    end
  end.

(** [{ ...referrer, level }] for consecutive levels from [lvl]. *)
Definition with_levels (lvl : nat) (l : list Profile) : list (Profile * nat) :=
  combine l (seq lvl (List.length l)).

(** The store after one [payCommission] that found its referrer. *)
Definition paid (referrerId referredUserId : uuid) (transactionAmount : Q)
    (rates : ReferralCommissionRates) (d : DB) : DB :=
  let usdtCommission := Number.div (Number.mul transactionAmount (usdtRate rates)) 100 in
  mkDB (apply_entry id main_wallet_balance set_balance (referrerId, usdtCommission)
          (profiles d))
       (investment_plans d)
       (transactions d ++
          [mkTransaction (uuid_of_nat (uuid_seq d)) referrerId referral_bonus
             usdtCommission None (Some usdtCommission) completed None None])
       (referral_commissions d ++
          [mkCommission referrerId referredUserId usdtCommission
             (rate_at (rate_level rates)) (rate_level rates)])
       (profit_distributions d) (withdrawal_requests d) (deposit_requests d)
       (S (uuid_seq d)).

(** The store after the payments of the loop of [processReferralCommissions]. *)
Definition pay_all (uid : uuid) (amt : Q)
    (l : list (Profile * nat * ReferralCommissionRates)) (d : DB) : DB :=
  fold_left (fun d '(referrer, rates) => paid (id (fst referrer)) uid amt rates d) l d.

(** Ledger rows and plans present in [d] are present, unchanged, in [d']. *)
Definition ledger_grows (d d' : DB) : Prop :=
  (exists new, transactions d' = transactions d ++ new) /\
  investment_plans d' = investment_plans d.

(** ** The commission schedule in the words of the specification *)

(** level -> rate: 1: 10%, 2: 5%, 3: 3%, 4: 2%, 5: 1%, 6: 0.5%. *)
Definition schedule_rate (L : nat) : Q :=
  match L with
  | 1%nat => 10 | 2%nat => 5 | 3%nat => 3 | 4%nat => 2 | 5%nat => 1 | 6%nat => 0.5
  | _ => 0
  end%Q.

(** [(amount * rate(L)) / 100] on numbers. *)
Definition commission (amount : Q) (L : nat) : Q :=
  Number.div (Number.mul amount (schedule_rate L)) 100.

(** For each ancestor at level L, from 1 to 6: a commission of
    (amount * rate(L)) / 100 from the transacting user. *)
Definition scheduled (amount : Q) (referred : uuid) (ancestors : list Profile)
  : list ReferralCommission :=
  map (fun '(a, L) => mkCommission (id a) referred
                        (commission amount L) (schedule_rate L) L)
      (combine ancestors (seq 1 6)).


End ReferralService.

(* ================================================================== *)
(** * The optimized referral service

    [OptimizedReferralService], the first unit of
    src/lib/optimizedReferralService.ts. *)
(* ================================================================== *)

Module OptimizedReferralService.
Import Db Js Postgrest.
Import ReferralService.
Local Open Scope js_scope.

(** [countAllReferralsRecursive(referralCode, depth, maxDepth)] with
    [levels = maxDepth - depth] levels left: [depth >= maxDepth] is
    [levels = 0]. *)
Fixpoint count_levels (levels : nat) (referralCode : string) : M nat :=
  match levels with
  | O => ret O
  | S levels' =>
    directReferrals <- select profiles (fun p => text_is referralCode (sponsor_id p)) ;;
    match directReferrals with
    | Error _ => ret O
    | Data [] => ret O
    | Data directReferrals =>
      for_of directReferrals
        (fun referral totalCount =>
           match truthy (referral_code referral) with
           | Some code =>
             n <- count_levels levels' code ;;
             ret (totalCount + n)%nat
           | None => ret totalCount
           end)
        (List.length directReferrals)
    end
  end.

Definition countAllReferralsRecursive (referralCode : string) (depth maxDepth : nat)
  : M nat :=
  count_levels (maxDepth - depth) referralCode.

Definition zero_stats : ReferralStats :=
  mkReferralStats 0 0
    (map (fun rate => mkLevelStat (rate_level rate) 0 0 (usdtRate rate)) commissionRates).

(** [getReferralStats(userId)] of the optimized service. *)
Definition getReferralStats (userId : uuid) : M ReferralStats :=
  try_catch
    (userProfile <- select_single profiles (fun p => String.eqb (id p) userId) ;;
     match userProfile with
     | Error _ => ret zero_stats
     | Data userProfile =>
       match truthy (referral_code userProfile) with
       | None => ret zero_stats
       | Some code =>
         commissions <- select referral_commissions
                          (fun c => String.eqb (referrer_id c) userId) ;;
         match commissions with
         | Error msg => throw msg
         | Data commissions =>
           let totalUsdtEarned := or_zero (sum_commissions commissions) in
           totalReferrals <- countAllReferralsRecursive code 0 6 ;;
           let levelStats :=
             map (fun rate =>
                    let levelCommissions :=
                      filter (fun c => Nat.eqb (level c) (rate_level rate)) commissions in
                    mkLevelStat (rate_level rate)
                      (set_size (map referred_id levelCommissions))
                      (sum_commissions levelCommissions) (usdtRate rate))
                 commissionRates in
           ret (mkReferralStats totalUsdtEarned totalReferrals levelStats)
         end
       end
     end)
    (fun error => throw error).

(** [getDirectReferralsCount(userId)] *)
Definition getDirectReferralsCount (userId : uuid) : M nat :=
  try_catch
    (userProfile <- select_single profiles (fun p => String.eqb (id p) userId) ;;
     match userProfile with
     | Error _ => ret O
     | Data userProfile =>
       match truthy (referral_code userProfile) with
       | None => ret O
       | Some code =>
         rows <- select profiles (fun p => text_is code (sponsor_id p)) ;;
         match rows with
         | Error _ => ret O
         | Data rows => ret (List.length rows)
         end
       end
     end)
    (fun _ => ret O).

End OptimizedReferralService.

(* ================================================================== *)
(** * Stored procedures (PL/pgSQL)

    src/supabase/fix_withdrawal_approval_logic.sql and
    src/supabase/missing_functions_consolidated.sql. *)
(* ================================================================== *)

Module Sql.
Import Db Js.
Local Open Scope js_scope.

(** A procedure body is a computation over the store; [RAISE EXCEPTION]
    is [throw], and the store carried by a [Throw] is the store at the
    statement that raised. *)

(** A nullable numeric variable, and [<] in three-valued logic. *)
Definition numeric_lt (a b : option Q) : option bool :=
  match a, b with
  | Some x, Some y => Some (negb (Qle_bool y x))
  | _, _ => None
  end.

(** [IF cond THEN]: taken only when the condition is TRUE. *)
Definition is_true (c : option bool) : bool :=
  match c with Some true => true | _ => false end.

(** [EXISTS (SELECT 1 FROM profiles WHERE id = auth.uid() AND is_admin = TRUE)] *)
Definition caller_is_admin (auth_uid : option uuid) (d : DB) : bool :=
  existsb (fun p => match auth_uid with
                    | Some u => String.eqb (id p) u
                    | None => false
                    end && is_admin p) (profiles d).

(** [UPDATE public.transactions SET status = ... WHERE reference_id =
    p_request_id::TEXT AND transaction_type = 'withdrawal'] *)
Definition settle_withdrawal_transaction (p_request_id : uuid)
    (s : transaction_status) (d : DB) : DB :=
  set_transactions
    (update_rows (fun t => text_is p_request_id (tx_reference_id t)
                           && transaction_type_eqb (tx_type t) withdrawal)
                 (set_tx_status s) (transactions d)) d.

(** [approve_withdrawal_request(p_request_id, p_admin_notes)], called by
    the session user [auth_uid]. *)
Definition approve_withdrawal_request (auth_uid : option uuid) (p_request_id : uuid)
  : M bool :=
  d <- get ;;
  if negb (caller_is_admin auth_uid d) then
    throw "Access denied. Admin privileges required."
  else
    match find (fun r => String.eqb (wr_id r) p_request_id
                         && request_status_eqb (wr_status r) req_pending)
               (withdrawal_requests d) with
    | None => throw "Withdrawal request not found or already processed"
    | Some withdrawal_record =>
      let user_balance :=
        option_map main_wallet_balance
          (find (fun p => String.eqb (id p) (wr_user_id withdrawal_record))
                (profiles d)) in
      if is_true (numeric_lt user_balance (Some (wr_amount withdrawal_record))) then
        throw "User has insufficient balance for withdrawal"
      else
        modify (fun d =>
          set_profiles
            (update_rows (fun p => String.eqb (id p) (wr_user_id withdrawal_record))
               (fun p => set_balance
                           (main_wallet_balance p - wr_amount withdrawal_record)%Q p)
               (profiles d)) d) ;;;
        modify (fun d =>
          set_withdrawal_requests
            (update_rows (fun r => String.eqb (wr_id r) p_request_id)
               (set_wr_status req_approved) (withdrawal_requests d)) d) ;;;
        modify (settle_withdrawal_transaction p_request_id completed) ;;;
        ret true
    end.

(** [reject_withdrawal_request(p_request_id, p_admin_notes)] *)
Definition reject_withdrawal_request (auth_uid : option uuid) (p_request_id : uuid)
  : M bool :=
  d <- get ;;
  if negb (caller_is_admin auth_uid d) then
    throw "Access denied. Admin privileges required."
  else
    let matches := fun r => String.eqb (wr_id r) p_request_id
                            && request_status_eqb (wr_status r) req_pending in
    let found := existsb matches (withdrawal_requests d) in
    modify (fun d =>
      set_withdrawal_requests
        (update_rows matches (set_wr_status req_rejected) (withdrawal_requests d)) d) ;;;
    if negb found then
      throw "Withdrawal request not found or already processed"
    else
      modify (settle_withdrawal_transaction p_request_id failed) ;;;
      ret true.

(** ** Manual deposits *)

(** Rounding to [scale] decimal places, ties away from zero, as PostgreSQL
    rounds a numeric; the result counts units of 10^-scale. *)
Definition round_units (scale : Z) (q : Q) : Z :=
  let n := Qnum q * 10 ^ scale in
  let den := Zpos (Qden q) in
  Z.sgn n * ((2 * Z.abs n + den) / (2 * den)).

(** Assignment to a variable declared [DECIMAL(15,2)]: the value is
    rounded to two decimals and must keep less than 13 integer digits. *)
Definition decimal_15_2 (q : Q) : M Q :=
  let u := round_units 2 q in
  if 10 ^ 15 <=? Z.abs u then throw "numeric field overflow"
  else ret (inject_Z u / 100)%Q.

(** The JSON object a procedure returns. *)
Inductive approval_json :=
| approval_failure (error : string)
| approval_success (transaction_id : uuid) (amount fee net_amount : Q) (user_id : uuid).

(** [BEGIN ... EXCEPTION WHEN OTHERS THEN handler END]: the effects of the
    block are undone before the handler runs. *)
Definition exception_when_others {A} (block : M A) (handler : string -> M A) : M A :=
  fun d =>
    match block d with
    | (Ret a, d') => (Ret a, d')
    | (Throw e, _) => handler e d
    end.

(** [process_manual_deposit_approval(p_request_id, p_admin_id, p_admin_notes)] *)
Definition process_manual_deposit_approval (p_request_id p_admin_id : uuid)
  : M approval_json :=
  exception_when_others
    (d <- get ;;
     match find (fun r => String.eqb (dr_id r) p_request_id
                          && request_status_eqb (dr_status r) req_pending)
                (deposit_requests d) with
     | None => ret (approval_failure "Deposit request not found or already processed")
     | Some v_request =>
       v_fee_amount <- decimal_15_2 (dr_amount v_request * 0.01)%Q ;;
       v_net_amount <- decimal_15_2 (dr_amount v_request - v_fee_amount)%Q ;;
       d <- get ;;
       let v_transaction_id := uuid_of_nat (uuid_seq d) in
       modify (fun d =>
         set_uuid_seq (S (uuid_seq d))
           (set_transactions
              (transactions d ++
                 [mkTransaction v_transaction_id (dr_user_id v_request) deposit
                    v_net_amount (Some v_fee_amount) (Some v_net_amount) completed
                    (dr_tx_hash v_request) None]) d)) ;;;
       modify (fun d =>
         set_profiles
           (update_rows (fun p => String.eqb (id p) (dr_user_id v_request))
              (fun p => set_balance (main_wallet_balance p + v_net_amount)%Q p)
              (profiles d)) d) ;;;
       modify (fun d =>
         set_deposit_requests
           (update_rows (fun r => String.eqb (dr_id r) p_request_id)
              (set_dr_status req_approved) (deposit_requests d)) d) ;;;
       ret (approval_success v_transaction_id (dr_amount v_request) v_fee_amount
              v_net_amount (dr_user_id v_request))
     end)
    (fun sqlerrm => ret (approval_failure sqlerrm)).

End Sql.

(* ================================================================== *)
(** * API route handlers *)
(* ================================================================== *)

Module Http.

(** The JSON bodies the handlers answer with.  Messages that embed
    formatted amounts keep the amounts as fields. *)
Inductive json :=
| error_json (error : string)
| insufficient_fund_wallet_json (need have : Q)
| deposit_submitted_json (amount : Q) (txHash : string)
| message_json (message : string)
| ton_purchased_json (coinsPurchased totalCost : Q).

(** [NextResponse.json(body, { status })] *)
Record NextResponse := mkResponse {
  status : nat;
  body : json
}.

Definition ok (b : json) : NextResponse := mkResponse 200 b.

End Http.

(** ** src/app/api/bsc/deposit/route.ts *)

Module DepositRoute.
Import Db Js Postgrest Http.
Import ReferralService.
Local Open Scope js_scope.

(** The parsed request body; [expectedAmount] is the number it parses to,
    absent when the field is missing or not a number. *)
Record deposit_request_body := mkDepositBody {
  txHash : option string;
  expectedAmount : option Q;
  body_userId : option string
}.

(** [POST(request)]: submit a deposit for manual approval.  The e-mail
    notification that follows the insert runs inside its own try/catch and
    writes nothing. *)
Definition POST (request : deposit_request_body) : M NextResponse :=
  try_catch
    (match truthy (body_userId request) with
     | None => ret (mkResponse 400 (error_json "User ID is required"))
     | Some userId =>
     match truthy (txHash request) with
     | None => ret (mkResponse 400 (error_json "Transaction hash is required"))
     | Some txHash =>
     match expectedAmount request with
     | None => ret (mkResponse 400 (error_json "Valid deposit amount is required"))
     | Some expectedAmountNum =>
       if Qeq_bool expectedAmountNum 0 then
         ret (mkResponse 400 (error_json "Valid deposit amount is required"))
       else if negb (Qle_bool 10 expectedAmountNum) then
         ret (mkResponse 400 (error_json "Minimum deposit amount is $10 USDT"))
       else if negb (Qle_bool expectedAmountNum 50000) then
         ret (mkResponse 400 (error_json "Maximum deposit amount is $50,000 USDT"))
       else
         profile <- select_single profiles (fun p => String.eqb (id p) userId) ;;
         match profile with
         | Error _ => ret (mkResponse 404 (error_json "User profile not found"))
         | Data _ =>
           let depositAmount := expectedAmountNum in
           existingTx <- select_single transactions
                           (fun t => text_is txHash (tx_reference_id t)) ;;
           match existingTx with
           | Data _ =>
             ret (mkResponse 400 (error_json "Transaction already processed"))
           | Error _ =>
             insertError <- insert_with_id transactions set_transactions
                              (fun i => mkTransaction i userId deposit depositAmount
                                          None None pending (Some txHash) None) ;;
             match insertError with
             | Error _ => ret (mkResponse 500 (error_json "Failed to record deposit"))
             | Data _ => ret (ok (deposit_submitted_json depositAmount txHash))
             end
           end
         end
     end end end)
    (fun message => ret (mkResponse 500 (error_json message))).

(** The reference ids present in a ledger. *)
Definition references (l : list Transaction) : list string :=
  flat_map (fun t => match tx_reference_id t with
                     | Some r => [r]
                     | None => []
                     end) l.

Record approval_request_body := mkApprovalBody {
  transactionId : option uuid;
  approve : option bool
}.

Section Approval.
(** The stored procedure [process_bsc_deposit] is not part of the sources:
    the handler is read for any behaviour of the call. *)
Variable process_bsc_deposit :
  uuid -> Q -> Q -> Q -> option string -> M (reply unit).
(** The imported [referralService.processReferralCommissions]. *)
Variable processReferralCommissions : ReferralTransaction -> M unit.

(** [PUT(request)]: approve or reject a pending deposit.  The e-mail
    notification sent after the status update runs inside its own try/catch
    and writes nothing. *)
Definition PUT (request : approval_request_body) : M NextResponse :=
  try_catch
    (match truthy (transactionId request), approve request with
     | Some transactionId, Some approve =>
       transaction <- select_single transactions
                        (fun t => String.eqb (tx_id t) transactionId
                                  && transaction_type_eqb (tx_type t) deposit
                                  && transaction_status_eqb (tx_status t) pending) ;;
       match transaction with
       | Error _ => ret (mkResponse 404 (error_json "Deposit transaction not found"))
       | Data transaction =>
         if approve then
           try_catch
             (let depositAmount := tx_amount transaction in
              let fee := Number.mul depositAmount 0.01 in
              let netAmount := Number.sub depositAmount fee in
              depositError <- process_bsc_deposit (tx_user_id transaction)
                                depositAmount fee netAmount
                                (tx_reference_id transaction) ;;
              match depositError with
              | Error _ =>
                ret (mkResponse 500 (error_json "Failed to process deposit"))
              | Data _ =>
                try_catch
                  (processReferralCommissions
                     (mkReferralTransaction (tx_user_id transaction) depositAmount
                        deposit_event (Some "deposit")))
                  (fun commissionError => ret tt) ;;;
                update transactions set_transactions
                  (fun t => String.eqb (tx_id t) transactionId)
                  (set_tx_status completed) ;;;
                ret (ok (message_json "Deposit approved and processed successfully"))
              end)
             (fun message =>
                ret (mkResponse 500
                       (error_json (String.append "Deposit approval failed: " message))))
         else
           delete transactions set_transactions
             (fun t => String.eqb (tx_id t) transactionId) ;;;
           ret (ok (message_json "Deposit rejected and removed"))
       end
     | _, _ =>
       ret (mkResponse 400
              (error_json "Transaction ID and approval status are required"))
     end)
    (fun message => ret (mkResponse 500 (error_json message))).
End Approval.

End DepositRoute.

(** ** src/app/api/ton/purchase/route.ts, first unit: the purchase route *)

Module TonPurchaseRoute.
Import Db Js Postgrest Http.
Import ReferralService.
Local Open Scope js_scope.

(** The [tonAmount] of the request body as the two tests of the handler
    see it: falsy (missing, null, 0, the empty text), a text that
    [parseFloat] reads as NaN, or a decimal text, which [parseFloat] reads
    as the nearest double. *)
Inductive amount_field :=
| falsy
| not_a_number
| parsed (text : Q).

Record purchase_request_body := mkPurchaseBody {
  tonAmount : amount_field;
  body_userId : option string
}.

(** [$0.1 per TON coin] *)
Definition tonRate : Q := 0.1.

Section Purchase.
(** NaN passes both tests of the handler ([NaN <= 0] and [NaN > balance]
    are false), and the two balances computed from it are NaN, which JSON
    sends as null.  Whether the store takes null for these columns is
    decided by a schema that is not part of the sources: from the update
    on, the handler is read for any behaviour. *)
Variable purchase_of_NaN : uuid -> M NextResponse.

(** [POST(request)]: buy TON coins from the fund wallet. *)
Definition POST (request : purchase_request_body) : M NextResponse :=
  try_catch
    (match truthy (body_userId request) with
     | None => ret (mkResponse 400 (error_json "User ID is required"))
     | Some userId =>
     match tonAmount request with
     | falsy => ret (mkResponse 400 (error_json "Invalid TON amount"))
     | not_a_number =>
       profile <- select_single profiles (fun p => String.eqb (id p) userId) ;;
       match profile with
       | Error _ => ret (mkResponse 404 (error_json "User profile not found"))
       | Data _ => purchase_of_NaN userId
       end
     | parsed text =>
       let coinsToBuy := Number.number text in
       if Number.leb coinsToBuy 0 then
         ret (mkResponse 400 (error_json "Invalid TON amount"))
       else
         profile <- select_single profiles (fun p => String.eqb (id p) userId) ;;
         match profile with
         | Error _ => ret (mkResponse 404 (error_json "User profile not found"))
         | Data profile =>
           let totalCost := Number.mul coinsToBuy tonRate in
           if Number.ltb (fund_wallet_balance profile) totalCost then
             ret (mkResponse 400
                    (insufficient_fund_wallet_json totalCost
                       (Number.number (fund_wallet_balance profile))))
           else
             let newFundBalance := Number.sub (fund_wallet_balance profile) totalCost in
             let newTonBalance := Number.add (total_jarvis_tokens profile) coinsToBuy in
             updateError <- update profiles set_profiles
                              (fun p => String.eqb (id p) userId)
                              (set_fund_and_tokens newFundBalance newTonBalance) ;;
             match updateError with
             | Error message => throw message
             | Data _ =>
               transactionError <- insert_with_id transactions set_transactions
                                     (fun i => mkTransaction i userId ton_purchase
                                                 totalCost None (Some totalCost)
                                                 completed None None) ;;
               match transactionError with
               | Error message => throw message
               | Data _ => ret (ok (ton_purchased_json coinsToBuy totalCost))
               end
             end
         end
     end end)
    (fun message => ret (mkResponse 500 (error_json message))).
End Purchase.

(** ** Definitions used to state the effect of a purchase *)


End TonPurchaseRoute.

(** ** src/app/api/ton/purchase/route.ts, second unit: the invest page *)

Module InvestPage.
Import Db Js Postgrest.
Import ReferralService.
Local Open Scope js_scope.

(** [plans.A] *)
Definition plan_name : string := "USDT Staking".
Definition minAmount : Q := 10.
Definition maxAmount : Q := 50000.
Definition dailyPercentage : Q := 3.

(** What the page shows after the click: [setError] or [setSuccess]. *)
Inductive notice :=
| nothing_shown
| error_shown (message : string)
| success_shown (investAmount : Q) (plan : string).

Section Invest.
(** The imported [referralService.processReferralCommissions]. *)
Variable processReferralCommissions : ReferralTransaction -> M unit.

Section Writes.
(** The three writes of the handler, each read for any answer of the
    store: the insert of the plan row ([.insert(...).select().single()]),
    the update of the fund wallet of the rows of the user, the insert of the
    ledger row. *)
Variable insert_plan : (uuid -> InvestmentPlan) -> M (reply InvestmentPlan).
Variable update_fund_wallet : uuid -> Q -> M (reply unit).
Variable insert_transaction : (uuid -> Transaction) -> M (reply Transaction).

(** [handleInvest()] for the signed-in [user], with the page state:
    whether plan A is selected, the number [parseFloat] reads in the amount
    field when it is not empty (an input of type number, whose value is empty
    or a numeric text), and the fund_wallet_balance loaded by [fetchProfile]
    when there is one.  The new plan row takes the column defaults of
    investment_plans: no profit earned, active, created at the time of the
    insert. *)
Definition handleInvest_with (user : uuid) (now : Z) (selectedPlan : bool)
    (amount : option Q) (profile : option Q) : M notice :=
  match selectedPlan, amount with
  | true, Some investAmount =>
    if negb (Qle_bool minAmount investAmount) || negb (Qle_bool investAmount maxAmount)
    then ret (error_shown "Investment amount must be between $10 and $50000")
    else
      match profile with
      | None => ret (error_shown "Insufficient fund wallet balance")
      | Some fund =>
        if negb (Qle_bool investAmount fund)
        then ret (error_shown "Insufficient fund wallet balance")
        else
          try_catch
            (investmentPlan <- insert_plan
                                 (fun i => mkPlan i user "A" investAmount dailyPercentage
                                             0 true now) ;;
             match investmentPlan with
             | Error message => throw message
             | Data investmentPlan =>
               updateError <- update_fund_wallet user (Number.sub fund investAmount) ;;
               match updateError with
               | Error message => throw message
               | Data _ =>
                 transactionError <- insert_transaction
                                       (fun i => mkTransaction i user investment
                                                   investAmount None (Some investAmount)
                                                   completed None
                                                   (Some (plan_id investmentPlan))) ;;
                 match transactionError with
                 | Error message => throw message
                 | Data _ =>
                   try_catch
                     (processReferralCommissions
                        (mkReferralTransaction user investAmount investment_event
                           (Some plan_name)))
                     (fun referralError => ret tt) ;;;
                   ret (success_shown investAmount plan_name)
                 end
               end
             end)
            (fun message => ret (error_shown message))
      end
  | _, _ => ret nothing_shown
  end.
End Writes.

(** [handleInvest()] over the store of this development, which serves
    every write. *)
Definition handleInvest : uuid -> Z -> bool -> option Q -> option Q -> M notice :=
  handleInvest_with
    (insert_with_id investment_plans set_investment_plans)
    (fun user fund => update profiles set_profiles
                        (fun p => String.eqb (id p) user) (set_fund fund))
    (insert_with_id transactions set_transactions).
End Invest.

(** The store after the three writes of [handleInvest] that precede the
    commission step: the plan row, the fund wallet, the ledger row. *)
Definition new_plan (user : uuid) (now : Z) (investAmount : Q) (d : DB) : InvestmentPlan :=
  mkPlan (uuid_of_nat (uuid_seq d)) user "A" investAmount dailyPercentage 0 true now.

Definition invested (user : uuid) (now : Z) (investAmount fund : Q) (d : DB) : DB :=
  let d1 := set_uuid_seq (S (uuid_seq d))
              (set_investment_plans
                 (investment_plans d ++ [new_plan user now investAmount d]) d) in
  let d2 := set_profiles
              (update_rows (fun p => String.eqb (id p) user)
                 (set_fund (Number.sub fund investAmount)) (profiles d1)) d1 in
  set_uuid_seq (S (uuid_seq d2))
    (set_transactions
       (transactions d2 ++
          [mkTransaction (uuid_of_nat (uuid_seq d2)) user investment investAmount None
             (Some investAmount) completed None
             (Some (plan_id (new_plan user now investAmount d)))]) d2).


End InvestPage.

(* ================================================================== *)
(** * The arithmetic of the code in IEEE binary64 *)
(* ================================================================== *)

(** The expressions the code evaluates on JavaScript numbers, over the
    primitive binary64 floats, to check [Number] and the figures the
    specification quotes against hardware arithmetic. *)
Module Binary64.
Import Floats.

(** The rational a finite float denotes. *)
Definition exact (x : float) : Q :=
  match Prim2SF x with
  | S754_finite s m e =>
      Qred (inject_Z (if s then Z.neg m else Z.pos m) * Number.pow2 e)
  | _ => 0%Q
  end.

(** Whether [Number] reads the decimals [a] and [b] as the floats [x] and
    [y], and computes their sum, difference, product and quotient as the
    hardware does. *)
Definition agree (a b : Q) (x y : float) : bool :=
  Qeq_bool (Number.binary64 a) (exact x) &&
  Qeq_bool (Number.binary64 b) (exact y) &&
  Qeq_bool (Number.binary64 (Number.add a b)) (exact (x + y)) &&
  Qeq_bool (Number.binary64 (Number.sub a b)) (exact (x - y)) &&
  Qeq_bool (Number.binary64 (Number.mul a b)) (exact (x * y)) &&
  Qeq_bool (Number.binary64 (Number.div a b)) (exact (x / y)).

Local Open Scope float_scope.

(** [plan.investment_amount * (plan.daily_percentage / 100)] *)
Definition profitAmount (investment_amount daily_percentage : float) : float :=
  investment_amount * (daily_percentage / 100).

(** [(transactionAmount * rates.usdtRate) / 100] *)
Definition usdtCommission (transactionAmount usdtRate : float) : float :=
  (transactionAmount * usdtRate) / 100.

(** [coinsToBuy * tonRate] with [tonRate = 0.1], the double nearest to
    one tenth. *)
Definition totalCost (coinsToBuy : float) : float :=
  coinsToBuy * 0x1.999999999999ap-4.

End Binary64.

(* ================================================================== *)
(** * Sample stores *)
(* ================================================================== *)

Module Samples.
Import Db.

Definition member (i code : string) (sponsor : option string) : Profile :=
  mkProfile i (Some code) sponsor 0 0 0 false.

(** One investor with one plan of 1000 at 3% a day, created on day 0 at
    23:00 UTC. *)
Definition alice : Profile := member "alice" "ALICE" None.

Definition late_evening : Z := 23 * 60 * 60 * 1000.

Definition alice_plan : InvestmentPlan :=
  mkPlan "plan-1" "alice" "A" 1000 3 0 true late_evening.

Definition one_plan : DB := mkDB [alice] [alice_plan] [] [] [] [] [] 0.

(** 00:30 UTC on day 1: an hour and a half after the plan was created. *)
Definition after_midnight : Z := 24 * 60 * 60 * 1000 + 30 * 60 * 1000.

(** 00:45 UTC on day 1. *)
Definition later_that_day : Z := 24 * 60 * 60 * 1000 + 45 * 60 * 1000.

(** A sponsor chain eight profiles long: u0 was referred by u1, u1 by u2,
    and so on up to u7. *)
Definition chain : DB :=
  mkDB [ member "u0" "c0" (Some "c1"); member "u1" "c1" (Some "c2");
         member "u2" "c2" (Some "c3"); member "u3" "c3" (Some "c4");
         member "u4" "c4" (Some "c5"); member "u5" "c5" (Some "c6");
         member "u6" "c6" (Some "c7"); member "u7" "c7" None ]
       [] [] [] [] [] [] 0.

(** An administrator, and bob with 40 in the main wallet and a pending
    withdrawal request of 50. *)
Definition admin : Profile := mkProfile "admin" None None 0 0 0 true.

Definition bob : Profile := mkProfile "bob" (Some "BOB") None 40 0 0 false.


(** bob with a pending manual deposit request of 10.55. *)
Definition manual_deposit : DB :=
  mkDB [admin; bob] [] [] [] [] []
       [mkDepositRequest "dep-1" "bob" 10.55 (Some "0xfeed") req_pending] 0.



(** A ledger in which two rows already carry the reference 0xabc. *)
Definition twice_booked : DB :=
  mkDB [admin; bob] []
       [ mkTransaction "tx-1" "bob" deposit 100 None None pending (Some "0xabc") None;
         mkTransaction "tx-2" "bob" deposit 99 (Some 1%Q) (Some 99%Q) completed
           (Some "0xabc") None ]
       [] [] [] [] 0.

(** dave was referred by the holder of code S; two profile rows answer to
    that holder's id, so reading the referrer's balance with [.single()]
    fails.  dave has a pending deposit of 100 and 500 in the fund wallet. *)
Definition clash : DB :=
  mkDB [ mkProfile "dave" (Some "D") (Some "S") 0 500 0 false;
         mkProfile "erin" (Some "S") None 0 0 0 false;
         mkProfile "erin" (Some "T") None 0 0 0 false ]
       []
       [mkTransaction "tx-9" "dave" deposit 100 None None pending (Some "0xd") None]
       [] [] [] [] 0.

(** A stand-in for the stored procedure [process_bsc_deposit] that reports
    success. *)
Definition deposit_procedure_ok (_ : uuid) (_ _ _ : Q) (_ : option string)
  : Js.M (Postgrest.reply unit) :=
  Js.ret (Postgrest.Data tt).

(** bob has sent 100 on chain under the hash 0xabc and filed a manual
    deposit request for it; the ledger is still empty. *)
Definition before_deposit : DB :=
  mkDB [admin; bob] [] [] [] [] []
       [mkDepositRequest "dep-3" "bob" 100 (Some "0xabc") req_pending] 0.

(** bob with a pending manual deposit request of 200. *)
Definition round_deposit : DB :=
  mkDB [admin; bob] [] [] [] [] []
       [mkDepositRequest "dep-2" "bob" 200 (Some "0xbeef") req_pending] 0.

End Samples.

(* ================================================================== *)
(** * The other walks of the sponsor chain

    [getReferralChainOptimized] and [getReferralChainIterative] of
    src/lib/optimizedReferralService.ts, and the stored procedure
    [get_referral_chain_recursive] of
    src/supabase/missing_functions_consolidated.sql they rely on.  A chain
    entry is the referrer's row with its level, as in [getReferralChain];
    the calls select a subset of its columns. *)
(* ================================================================== *)

Module ReferralChains.
Import Db Js Postgrest.
Import ReferralService.
Local Open Scope js_scope.

(** [new Map(rows.map(p => [key(p), p])).get(k)]: of the rows whose key is
    [k], the last one is kept. *)
Definition js_map_get {A} (has_key : A -> bool) (rows : list A) : option A :=
  find has_key (rev rows).

(** The [while (level <= 6)] of [getReferralChainIterative], with
    [remaining] iterations to go. *)
Fixpoint iterative_loop (remaining : nat) (level : nat) (allProfiles : list Profile)
    (currentUserId : uuid) (chain : list (Profile * nat)) : list (Profile * nat) :=
  match remaining with
  | O => chain
  | S remaining' =>
    match js_map_get (fun p => String.eqb (id p) currentUserId) allProfiles with
    | None => chain
    | Some currentProfile =>
      match truthy (sponsor_id currentProfile) with
      | None => chain
      | Some sponsor =>
        match js_map_get (fun p => text_is sponsor (referral_code p)) allProfiles with
        | None => chain
        | Some referrer =>
          iterative_loop remaining' (S level) allProfiles (id referrer)
            (chain ++ [(referrer, level)])
        end
      end
    end
  end.

(** [getReferralChainIterative(userId)] *)
Definition getReferralChainIterative (userId : uuid) : M (list (Profile * nat)) :=
  allProfiles <- select profiles (fun _ => true) ;;
  match allProfiles with
  | Error _ => ret []
  | Data allProfiles => ret (iterative_loop 6 1 allProfiles userId [])
  end.

(** The recursive term of the CTE [referral_chain], applied to the rows of
    the previous iteration: [JOIN profiles referrer ON referrer.referral_code
    = rc.sponsor_id ... AND rc.sponsor_id IS NOT NULL]. *)
Definition referrers_of (ps : list Profile) (working : list Profile) : list Profile :=
  flat_map (fun rc =>
              match sponsor_id rc with
              | Some sponsor => filter (fun referrer => text_is sponsor (referral_code referrer)) ps
              | None => []
              end) working.

(** The iterations of the CTE while [rc.current_level < max_levels], with
    [levels_left = max_levels - current_level]; it stops when an iteration
    yields no row. *)
Fixpoint referral_chain (levels_left : nat) (ps : list Profile)
    (working : list Profile) (current_level : nat) : list (Profile * nat) :=
  match levels_left with
  | O => []
  | S levels_left' =>
    match referrers_of ps working with
    | [] => []
    | next =>
      map (fun p => (p, S current_level)) next ++
      referral_chain levels_left' ps next (S current_level)
    end
  end.

(** [get_referral_chain_recursive(start_user_id, max_levels)]: the rows of
    level > 0, ordered by level. *)
Definition get_referral_chain_recursive (start_user_id : uuid) (max_levels : Z) (d : DB)
  : list (Profile * nat) :=
  referral_chain (Z.to_nat max_levels) (profiles d)
    (filter (fun p => String.eqb (id p) start_user_id) (profiles d)) 0.

(** [supabase.rpc('get_referral_chain_recursive', ...)] *)
Definition rpc_get_referral_chain_recursive (start_user_id : uuid) (max_levels : Z)
  : M (reply (list (Profile * nat))) :=
  fun d => (Ret (Data (get_referral_chain_recursive start_user_id max_levels d)), d).

(** [getReferralChainOptimized(userId)] *)
Definition getReferralChainOptimized (userId : uuid) : M (list (Profile * nat)) :=
  try_catch
    (r <- rpc_get_referral_chain_recursive userId 6 ;;
     match r with
     | Error _ => getReferralChainIterative userId
     | Data data => ret data
     end)
    (fun _ => getReferralChainIterative userId).

(** The referral codes present in the profiles. *)
Definition codes (ps : list Profile) : list string :=
  flat_map (fun p => match referral_code p with
                     | Some c => [c]
                     | None => []
                     end) ps.

(** [get_direct_referrals_count(user_id)] of
    src/supabase/missing_functions_consolidated.sql. *)
Definition get_direct_referrals_count (user_id : uuid) (d : DB) : nat :=
  match find (fun p => String.eqb (id p) user_id) (profiles d) with
  | None => O
  | Some p =>
    match referral_code p with
    | None => O
    | Some user_referral_code =>
      List.length (filter (fun q => text_is user_referral_code (sponsor_id q)) (profiles d))
    end
  end.

(** A computation that only reads: it returns, and leaves the store as
    it found it. *)
Definition reads {A} (m : M A) : Prop := forall d, exists a, m d = (Ret a, d).

(** The sum of the per-level earnings of a statistics record. *)
Definition levels_total (l : list LevelStat) : Q :=
  fold_right Qplus 0%Q (map usdtEarned l).

(** What [processReferralCommissions] may change when the upline has the
    ids [ids]: of a profile row only the main wallet, and only for an id of
    the upline; no other table but the ledger and the commission records. *)
Definition commission_frame (ids : list uuid) (d d' : DB) : Prop :=
  Forall2 (fun p p' =>
             (id p', referral_code p', sponsor_id p', fund_wallet_balance p',
              total_jarvis_tokens p', is_admin p') =
             (id p, referral_code p, sponsor_id p, fund_wallet_balance p,
              total_jarvis_tokens p, is_admin p) /\
             (~ In (id p) ids -> p' = p))
          (profiles d) (profiles d') /\
  investment_plans d' = investment_plans d /\
  profit_distributions d' = profit_distributions d /\
  withdrawal_requests d' = withdrawal_requests d /\
  deposit_requests d' = deposit_requests d.

(** The columns of a profile a profit run has no business with. *)
Definition profile_rest (p : Profile)
  : uuid * option string * option string * Q * Q * bool :=
  (id p, referral_code p, sponsor_id p, fund_wallet_balance p,
   total_jarvis_tokens p, is_admin p).

(** The columns of a plan other than its accumulator. *)
Definition plan_rest (p : InvestmentPlan) : uuid * uuid * string * Q * Q * bool * Z :=
  (plan_id p, plan_user_id p, plan_type p, investment_amount p,
   daily_percentage p, is_active p, plan_created_at p).

(** What a profit run may change when it pays plans with the ids
    [plan_ids], owned by [owners]: of a profile only the main wallet, and
    only for an owner; of a plan only the accumulator, and only for a paid
    plan; no referral, withdrawal or deposit record. *)
Definition payout_frame (owners plan_ids : list uuid) (d d' : DB) : Prop :=
  Forall2 (fun u u' => profile_rest u' = profile_rest u /\
                       (~ In (id u) owners -> u' = u))
          (profiles d) (profiles d') /\
  Forall2 (fun p p' => plan_rest p' = plan_rest p /\
                       (~ In (plan_id p) plan_ids -> p' = p))
          (investment_plans d) (investment_plans d') /\
  referral_commissions d' = referral_commissions d /\
  withdrawal_requests d' = withdrawal_requests d /\
  deposit_requests d' = deposit_requests d.


(** The amounts of commission rows, added up. *)
Definition commissions_total (l : list ReferralCommission) : Q :=
  fold_right Qplus 0%Q (map commission_amount l).

(** What the ledger shows of a row, its generated id apart. *)
Definition ledger_entry (t : Transaction)
  : uuid * transaction_type * Q * option Q * transaction_status :=
  (tx_user_id t, tx_type t, tx_amount t, tx_net_amount t, tx_status t).

End ReferralChains.

(* ================================================================== *)
(** * Further sample stores *)
(* ================================================================== *)

(* ================================================================== *)
(** * Administrative procedures on wallets and deposit requests *)
(* ================================================================== *)

(** [admin_add_funds_to_user], [admin_deduct_funds_from_user] and
    [reject_manual_deposit] of the consolidated SQL file.  The argument
    [p_amount] is a number (the NULL argument is not modelled), and [epoch]
    is the text of [extract(epoch from now())]. *)

Module AdminFunds.
Import Db Js Sql.
Local Open Scope js_scope.

(** The fields of the JSON object of a successful call that depend on
    the call. *)
Record funds_json := mkFundsJson {
  fj_user_id : uuid;
  fj_amount : Q;
  fj_new_balance : option Q;
  fj_transaction_id : uuid
}.

(** [SELECT main_wallet_balance FROM profiles WHERE id = p_user_id] *)
Definition balance_of (p_user_id : uuid) (d : DB) : option Q :=
  option_map main_wallet_balance
    (find (fun p => String.eqb (id p) p_user_id) (profiles d)).

(** [INSERT INTO public.transactions (...) RETURNING id] of both
    procedures. *)
Definition book (p_user_id : uuid) (type : transaction_type) (p_amount : Q)
    (reference : string) : M uuid :=
  d <- get ;;
  let transaction_id := uuid_of_nat (uuid_seq d) in
  modify (fun d =>
    set_uuid_seq (S (uuid_seq d))
      (set_transactions
         (transactions d ++
            [mkTransaction transaction_id p_user_id type p_amount None
               (Some p_amount) completed (Some reference) None]) d)) ;;;
  ret transaction_id.

(** [admin_add_funds_to_user(p_user_id, p_amount, p_admin_notes)] *)
Definition admin_add_funds_to_user (auth_uid : option uuid) (epoch : string)
    (p_user_id : uuid) (p_amount : Q) : M funds_json :=
  d <- get ;;
  if negb (caller_is_admin auth_uid d) then
    throw "Access denied. Admin privileges required."
  else if Qle_bool p_amount 0 then
    throw "Amount must be greater than 0"
  else
    match find (fun p => String.eqb (id p) p_user_id) (profiles d) with
    | None => throw "User not found"
    | Some user_record =>
      modify (fun d =>
        set_profiles
          (update_rows (fun p => String.eqb (id p) p_user_id)
             (fun p => set_balance (main_wallet_balance p + p_amount)%Q p)
             (profiles d)) d) ;;;
      transaction_id <-
        book p_user_id deposit p_amount (String.append "ADMIN_ADD_" epoch) ;;
      d <- get ;;
      ret (mkFundsJson p_user_id p_amount (balance_of p_user_id d) transaction_id)
    end.

(** [admin_deduct_funds_from_user(p_user_id, p_amount, p_admin_notes)].
    The message of the balance check is its format string; the procedure
    fills in the two numbers. *)
Definition admin_deduct_funds_from_user (auth_uid : option uuid) (epoch : string)
    (p_user_id : uuid) (p_amount : Q) : M funds_json :=
  d <- get ;;
  if negb (caller_is_admin auth_uid d) then
    throw "Access denied. Admin privileges required."
  else if Qle_bool p_amount 0 then
    throw "Amount must be greater than 0"
  else
    match find (fun p => String.eqb (id p) p_user_id) (profiles d) with
    | None => throw "User not found"
    | Some user_record =>
      if is_true (numeric_lt (Some (main_wallet_balance user_record)) (Some p_amount))
      then throw "Insufficient balance. User has % but trying to deduct %"
      else
        modify (fun d =>
          set_profiles
            (update_rows (fun p => String.eqb (id p) p_user_id)
               (fun p => set_balance (main_wallet_balance p - p_amount)%Q p)
               (profiles d)) d) ;;;
        transaction_id <-
          book p_user_id withdrawal p_amount (String.append "ADMIN_DEDUCT_" epoch) ;;
        d <- get ;;
        ret (mkFundsJson p_user_id p_amount (balance_of p_user_id d) transaction_id)
    end.

(** The JSON object [reject_manual_deposit] returns. *)
Inductive rejection_json :=
| rejection_failure (error : string)
| rejection_success (message : string).

(** [reject_manual_deposit(p_request_id, p_admin_id, p_admin_notes)] *)
Definition reject_manual_deposit (p_request_id p_admin_id : uuid) : M rejection_json :=
  exception_when_others
    (d <- get ;;
     let matches := fun r => String.eqb (dr_id r) p_request_id
                             && request_status_eqb (dr_status r) req_pending in
     let found := existsb matches (deposit_requests d) in
     modify (fun d =>
       set_deposit_requests
         (update_rows matches (set_dr_status req_rejected) (deposit_requests d)) d) ;;;
     if negb found then
       ret (rejection_failure "Deposit request not found or already processed")
     else ret (rejection_success "Deposit request rejected"))
    (fun sqlerrm => ret (rejection_failure sqlerrm)).

(** ** Definitions used to state properties *)

(** No main wallet is below zero. *)
Definition solvent (d : DB) : Prop :=
  Forall (fun p => (0 <= main_wallet_balance p)%Q) (profiles d).

(** The same profiles, with main wallets equal as numbers. *)
Definition same_wallets (d d' : DB) : Prop :=
  Forall2 (fun p p' =>
             (id p', referral_code p', sponsor_id p', fund_wallet_balance p',
              total_jarvis_tokens p', is_admin p') =
             (id p, referral_code p, sponsor_id p, fund_wallet_balance p,
              total_jarvis_tokens p, is_admin p) /\
             (main_wallet_balance p' == main_wallet_balance p)%Q)
          (profiles d) (profiles d').

End AdminFunds.

(* ================================================================== *)
(** * The reset script *)
(* ================================================================== *)

(** The four UPDATE statements of the script that resets accumulated
    profits, run in one transaction.  The DO blocks between them only raise
    notices and the queries after them only read; the description and
    updated_at columns are not part of the store modelled here. *)

Module ResetScript.
Import Db.

(** [x > 0] on a numeric column. *)
Definition positive (x : Q) : bool := negb (Qle_bool x 0).

(** STEP 1: [UPDATE transactions SET status = 'cancelled' WHERE
    transaction_type = 'withdrawal' AND status = 'pending'] *)
Definition cancel_pending_withdrawals (d : DB) : DB :=
  set_transactions
    (update_rows (fun t => transaction_type_eqb (tx_type t) withdrawal
                           && transaction_status_eqb (tx_status t) pending)
       (set_tx_status cancelled) (transactions d)) d.

(** STEP 2: [UPDATE investment_plans SET total_profit_earned = 0 WHERE
    total_profit_earned > 0] *)
Definition reset_plan_profits (d : DB) : DB :=
  set_investment_plans
    (update_rows (fun p => positive (total_profit_earned p))
       (set_total_profit_earned 0) (investment_plans d)) d.

(** STEP 3: [UPDATE profiles SET main_wallet_balance = 0 WHERE
    main_wallet_balance > 0] *)
Definition reset_main_wallets (d : DB) : DB :=
  set_profiles
    (update_rows (fun p => positive (main_wallet_balance p))
       (set_balance 0) (profiles d)) d.

(** STEP 4: [UPDATE transactions SET status = 'cancelled' WHERE
    transaction_type = 'profit' AND status = 'completed'] *)
Definition cancel_profit_transactions (d : DB) : DB :=
  set_transactions
    (update_rows (fun t => transaction_type_eqb (tx_type t) profit
                           && transaction_status_eqb (tx_status t) completed)
       (set_tx_status cancelled) (transactions d)) d.

(** [BEGIN; ... COMMIT;] *)
Definition reset (d : DB) : DB :=
  cancel_profit_transactions
    (reset_main_wallets (reset_plan_profits (cancel_pending_withdrawals d))).




End ResetScript.

Module MoreSamples.
Import Db.

(** Three members, each referred by the next. *)
Definition trio : DB :=
  mkDB [ Samples.member "u0" "c0" (Some "c1"); Samples.member "u1" "c1" (Some "c2");
         Samples.member "u2" "c2" None ]
       [] [] [] [] [] [] 0.

(** The trio after u1 earned two level-1 commissions and one of level 2. *)
Definition earned : DB :=
  mkDB (profiles trio) [] []
       [ mkCommission "u1" "u0" 10 10 1; mkCommission "u1" "u0" 5 10 1;
         mkCommission "u1" "u9" 3 5 2; mkCommission "u2" "u0" 5 5 2 ]
       [] [] [] 0.

(** The trio after u1 earned 0.1, 0.2 and 0.3 at levels 1, 2 and 3. *)
Definition dimes : DB :=
  mkDB (profiles trio) [] []
       [ mkCommission "u1" "u0" 0.1 10 1; mkCommission "u1" "u8" 0.2 5 2;
         mkCommission "u1" "u9" 0.3 3 3 ]
       [] [] [] 0.


(** bob with a pending withdrawal request of 30 against a main wallet
    of 40. *)
Definition covered : DB :=
  mkDB [Samples.admin; Samples.bob] []
       [mkTransaction "tx-w2" "bob" withdrawal 30 None (Some 30%Q) pending
          (Some "w2") None]
       [] [] [mkWithdrawal "w2" "bob" 30 req_pending] [] 0.

(** bob after a week of profits: 40 in the main wallet, a plan that has
    earned 210, a completed profit row, and a pending withdrawal of 30. *)
Definition before_reset : DB :=
  mkDB [Samples.admin; Samples.bob]
       [mkPlan "plan-7" "bob" "A" 1000 3 210 true 0]
       [ mkTransaction "tx-p" "bob" profit 30 None (Some 30%Q) completed None None;
         mkTransaction "tx-w2" "bob" withdrawal 30 None (Some 30%Q) pending
           (Some "w2") None ]
       [] [] [mkWithdrawal "w2" "bob" 30 req_pending] [] 0.

(** alice with one active plan of 30 at 3% a day, created on day 0. *)
Definition small_plan : DB :=
  mkDB [Samples.alice]
       [mkPlan "plan-1" "alice" "A" 30 3 0 true Samples.late_evening]
       [] [] [] [] [] 0.

(** alice with three active plans of 10, 10 and 15 at 3% a day. *)
Definition three_plans : DB :=
  mkDB [Samples.alice]
       [ mkPlan "plan-1" "alice" "A" 10 3 0 true 0;
         mkPlan "plan-2" "alice" "A" 10 3 0 true 0;
         mkPlan "plan-3" "alice" "A" 15 3 0 true 0 ]
       [] [] [] [] [] 0.

(** carol with 0.3 in the fund wallet. *)
Definition thirty_cents : DB :=
  mkDB [Samples.admin; mkProfile "carol" (Some "CAROL") None 7 0.3 2 false]
       [] [] [] [] [] [] 0.

(** A store whose balance columns refuse null: the update of a purchase of
    NaN coins fails, and the handler answers 500. *)
Definition nulls_refused (_ : Db.uuid) : Js.M Http.NextResponse :=
  Js.throw "null value in column violates not-null constraint".

(** A pending withdrawal request of 50 of a user who has no profile row. *)
Definition no_profile : DB :=
  mkDB [Samples.admin] [] [] [] []
       [mkWithdrawal "w3" "ghost" 50 req_pending] [] 0.

End MoreSamples.

(* ================================================================== *)
(** * Properties *)
(* ================================================================== *)

Import Db Js Postgrest.
Import ProfitDistribution.

(** ** Monad and client calls compute *)

Lemma for_of_pure {A S} (f : A -> S -> S) (body : A -> S -> M S) (xs : list A) (d : DB) :
  (forall x s, body x s d = (Ret (f x s), d)) ->
  forall acc, for_of xs body acc d = (Ret (fold_left (fun s x => f x s) xs acc), d).
Proof.
  intros Hbody. induction xs as [|x xs IH]; intros acc; simpl.
  - reflexivity.
  - unfold bind. rewrite Hbody. apply IH.
Qed.

(** ** The plan loop only reads, and follows [due] *)

Lemma plan_step_due (today : date) (plan : InvestmentPlan) (acc : queue) (d : DB) :
  plan_step today plan acc d =
  (Ret (if due d today plan then enqueue today plan acc else acc), d).
Proof.
  unfold plan_step, due, due_on.
  destruct (today <? iso_date (setUTCHours0 (plan_created_at plan) + 24 * 60 * 60 * 1000)).
  - reflexivity.
  - unfold bind, select, select_latest.
    destruct (filter _ (profit_distributions d)) as [|e es]; [|reflexivity].
    destruct acc as [pds ups].
    destruct (latest _) as [|l ls]; cbv beta iota zeta;
      (destruct (_ <=? today); [|reflexivity]);
      unfold enqueue, accumulate, distribution_row, profitAmount, map_has; simpl;
      destruct (map_get (plan_user_id plan) ups); reflexivity.
Qed.

Lemma fold_enqueue (d : DB) (today : date) (plans : list InvestmentPlan) :
  forall acc : queue,
  fold_left (fun s x => if due d today x then enqueue today x s else s) plans acc =
  (fst acc ++ map (distribution_row today) (filter (due d today) plans),
   fold_left (fun m p => accumulate p m) (filter (due d today) plans) (snd acc)).
Proof.
  induction plans as [|p plans IH]; intros [pds ups]; simpl.
  - now rewrite app_nil_r.
  - destruct (due d today p); rewrite IH; simpl.
    + now rewrite <- app_assoc.
    + reflexivity.
Qed.

(** A loop whose body returns normally returns normally. *)
Lemma for_of_returns {A} (body : A -> unit -> M unit) (xs : list A) :
  (forall x d, fst (body x tt d) = Ret tt) ->
  forall d, fst (for_of xs body tt d) = Ret tt.
Proof.
  intros Hbody. induction xs as [|x xs IH]; intros d; simpl.
  - reflexivity.
  - unfold bind. specialize (Hbody x d).
    destruct (body x tt d) as [[[]|e] d']; simpl in Hbody; [apply IH|discriminate].
Qed.

(** An invariant of the loop body, relating the store before and after,
    is an invariant of the loop. *)
Lemma for_of_invariant {A} (R : DB -> DB -> Prop) (body : A -> unit -> M unit)
    (xs : list A) :
  (forall d, R d d) ->
  (forall a b c, R a b -> R b c -> R a c) ->
  (forall x d, R d (snd (body x tt d))) ->
  (forall x d, fst (body x tt d) = Ret tt) ->
  forall d, R d (snd (for_of xs body tt d)).
Proof.
  intros Hrefl Htrans Hbody Hret. induction xs as [|x xs IH]; intros d; simpl.
  - apply Hrefl.
  - unfold bind. specialize (Hbody x d). specialize (Hret x d).
    destruct (body x tt d) as [[[]|e] d']; simpl in *; [|discriminate].
    eapply Htrans; [exact Hbody|apply IH].
Qed.

Lemma wallet_step_returns (e : string * Q) (d : DB) : fst (wallet_step e tt d) = Ret tt.
Proof.
  destruct e as [uid tot]. unfold wallet_step, bind, select_single.
  destruct (single _); reflexivity.
Qed.

Lemma plan_total_step_returns (r : ProfitDistribution) (d : DB) :
  fst (plan_total_step r tt d) = Ret tt.
Proof.
  unfold plan_total_step, bind, select_single.
  destruct (single _); reflexivity.
Qed.

(** One run, as a function of the store. *)
Lemma distributeInvestmentProfits_run (now : Z) (d : DB) :
  distributeInvestmentProfits now d =
  (Ret tt,
   match paid_plans d (iso_date now) with
   | [] => d
   | _ => after_writes (map (distribution_row (iso_date now)) (paid_plans d (iso_date now)))
            (queued_updates d (iso_date now)) d
   end).
Proof.
  unfold distributeInvestmentProfits, try_catch, bind, select_active_plans,
    queued_updates, paid_plans.
  destruct (filter (active_plan d) (investment_plans d)) as [|p ps] eqn:Hplans.
  - reflexivity.
  - rewrite (for_of_pure (fun x s => if due d (iso_date now) x
                                       then enqueue (iso_date now) x s else s)).
    2:{ intros x s. apply plan_step_due. }
    rewrite fold_enqueue. cbn [fst snd app].
    destruct (filter (due d (iso_date now)) (p :: ps)) as [|q qs] eqn:Hq.
    + reflexivity.
    + cbn [map]. unfold insert. cbn [is_error].
      unfold after_writes. cbn [map].
      set (d0 := set_profit_distributions _ d).
      set (ups := fold_left _ _ _).
      pose proof (for_of_returns wallet_step ups wallet_step_returns d0) as H1.
      destruct (for_of ups wallet_step tt d0) as [[[]|e] d1] eqn:E1; simpl in H1;
        [|discriminate].
      cbn [snd].
      set (qq := _ :: _).
      pose proof (for_of_returns plan_total_step qq plan_total_step_returns d1) as H2.
      destruct (for_of qq plan_total_step tt d1) as [[[]|e] d2] eqn:E2; simpl in H2;
        [|discriminate].
      reflexivity.
Qed.

(** ** What the writes of a run leave alone *)

Lemma same_schedule_refl (d : DB) : same_schedule d d.
Proof. repeat split. Qed.

Lemma same_schedule_trans (a b c : DB) :
  same_schedule a b -> same_schedule b c -> same_schedule a c.
Proof.
  intros (H1 & H2 & H3) (H4 & H5 & H6). repeat split; congruence.
Qed.

Lemma map_update_rows {A K} (key : A -> K) (cond : A -> bool) (f : A -> A) (l : list A) :
  (forall r, key (f r) = key r) ->
  map key (update_rows cond f l) = map key l.
Proof.
  intros Hf. unfold update_rows. rewrite map_map. apply map_ext.
  intros r. destruct (cond r); [apply Hf|reflexivity].
Qed.

Lemma Forall2_weaken {A} (R R' : A -> A -> Prop) (l l' : list A) :
  (forall a b, R a b -> R' a b) -> Forall2 R l l' -> Forall2 R' l l'.
Proof. intros Himp H. induction H; constructor; auto. Qed.

Lemma Forall2_updated {A} (R : A -> A -> Prop) (cond : A -> bool) (f : A -> A)
    (l : list A) :
  (forall a, R a (if cond a then f a else a)) -> Forall2 R l (update_rows cond f l).
Proof. intros H. induction l as [|a l IH]; simpl; constructor; auto. Qed.


Lemma wallet_step_schedule (e : string * Q) (d : DB) :
  same_schedule d (snd (wallet_step e tt d)).
Proof.
  destruct e as [uid tot]. unfold wallet_step, bind, select_single.
  destruct (single _) as [cp|msg]; simpl.
  - repeat split. simpl. now apply map_update_rows.
  - apply same_schedule_refl.
Qed.

Lemma plan_total_step_schedule (r : ProfitDistribution) (d : DB) :
  same_schedule d (snd (plan_total_step r tt d)).
Proof.
  unfold plan_total_step, bind, select_single.
  destruct (single _) as [cp|msg]; simpl.
  - repeat split. simpl. now apply map_update_rows.
  - apply same_schedule_refl.
Qed.

Lemma after_writes_schedule (q : list ProfitDistribution) (ups : JsMap) (d : DB) :
  same_schedule (set_profit_distributions (profit_distributions d ++ q) d)
                (after_writes q ups d).
Proof.
  unfold after_writes.
  eapply same_schedule_trans.
  - apply (for_of_invariant same_schedule wallet_step ups same_schedule_refl
             same_schedule_trans wallet_step_schedule wallet_step_returns).
  - apply (for_of_invariant same_schedule plan_total_step q same_schedule_refl
             same_schedule_trans plan_total_step_schedule plan_total_step_returns).
Qed.

(** ** A plan paid today is not due again today *)

Lemma filter_today_nil_plan_nil (today : date) (pid : uuid)
    (news : list ProfitDistribution) :
  (forall r, In r news -> distribution_date r = today) ->
  filter (fun r => String.eqb (pd_plan_id r) pid && (distribution_date r =? today)) news = [] ->
  filter (fun r => String.eqb (pd_plan_id r) pid) news = [].
Proof.
  induction news as [|r news IH]; intros Hd Hf; simpl in *.
  - reflexivity.
  - assert (Hr : distribution_date r = today) by (apply Hd; now left).
    rewrite Hr, Z.eqb_refl, andb_true_r in Hf.
    destruct (String.eqb (pd_plan_id r) pid); [discriminate|].
    apply IH; [intros; apply Hd; now right|exact Hf].
Qed.

Lemma due_on_after_insert (rows news : list ProfitDistribution) (today : date)
    (pid : uuid) (created : Z) :
  (forall r, In r news -> distribution_date r = today) ->
  (due_on rows today pid created = true ->
   exists r, In r news /\ pd_plan_id r = pid) ->
  due_on (rows ++ news) today pid created = false.
Proof.
  intros Hdate Hpaid.
  destruct (filter (fun r => String.eqb (pd_plan_id r) pid
                             && (distribution_date r =? today)) news) as [|n ns] eqn:Hn.
  - (* nothing queued for this plan: the decision is the one of the run *)
    assert (Hsame : due_on (rows ++ news) today pid created = due_on rows today pid created).
    { unfold due_on. rewrite !filter_app, Hn.
      rewrite (filter_today_nil_plan_nil today pid news Hdate Hn), !app_nil_r.
      reflexivity. }
    rewrite Hsame. destruct (due_on rows today pid created) eqn:Hdue; [|reflexivity].
    destruct (Hpaid eq_refl) as (r & Hin & Hid). exfalso.
    assert (Hr : In r (filter (fun r => String.eqb (pd_plan_id r) pid
                                        && (distribution_date r =? today)) news)).
    { apply filter_In. split; [exact Hin|].
      rewrite Hid, String.eqb_refl, (Hdate r Hin), Z.eqb_refl. reflexivity. }
    rewrite Hn in Hr. destruct Hr.
  - unfold due_on. rewrite filter_app, Hn.
    destruct (today <? _); [reflexivity|].
    destruct (filter _ rows); reflexivity.
Qed.

Lemma In_map_key {A K} (key : A -> K) (l l' : list A) (x : A) :
  map key l' = map key l -> In x l' -> exists y, In y l /\ key y = key x.
Proof.
  intros Hmap Hin. apply (in_map key) in Hin. rewrite Hmap in Hin.
  apply in_map_iff in Hin. destruct Hin as (y & Hy & Hin). eauto.
Qed.

Lemma active_plan_same (d d' : DB) (p p' : InvestmentPlan) :
  map id (profiles d') = map id (profiles d) ->
  plan_key p = plan_key p' ->
  active_plan d' p' = active_plan d p.
Proof.
  intros Hids Hkey. unfold plan_key in Hkey. injection Hkey as H1 H2 H3 H4.
  unfold active_plan. rewrite H3, H2. f_equal.
  assert (Hex : forall l : list Profile,
    existsb (fun u => String.eqb (id u) (plan_user_id p')) l =
    existsb (fun i => String.eqb i (plan_user_id p')) (map id l)).
  { induction l as [|u l IH]; simpl; [reflexivity|now rewrite IH]. }
  now rewrite !Hex, Hids.
Qed.

(** After a run on day [today], no plan is due on [today] any more. *)
Lemma paid_plans_after_run (now : Z) (d : DB) :
  paid_plans (snd (distributeInvestmentProfits now d)) (iso_date now) = [].
Proof.
  rewrite distributeInvestmentProfits_run. cbn [snd].
  set (today := iso_date now).
  assert (Hnone : forall d',
    map plan_key (investment_plans d') = map plan_key (investment_plans d) ->
    map id (profiles d') = map id (profiles d) ->
    profit_distributions d' =
      profit_distributions d ++ map (distribution_row today) (paid_plans d today) ->
    paid_plans d' today = []).
  { intros d' Hkeys Hids Hpds. unfold paid_plans at 1.
    assert (Hall : forall p', In p' (filter (active_plan d') (investment_plans d')) ->
                              due d' today p' = false).
    { intros p' Hin. apply filter_In in Hin. destruct Hin as [Hin Hact].
      destruct (In_map_key plan_key _ _ p' Hkeys Hin) as (p & Hp & Hkey).
      rewrite (active_plan_same d d' p p' Hids Hkey) in Hact.
      unfold due. rewrite Hpds.
      assert (Hk := Hkey). unfold plan_key in Hk. injection Hk as K1 K2 K3 K4.
      rewrite <- K1, <- K4.
      apply due_on_after_insert.
      - intros r Hr. apply in_map_iff in Hr. destruct Hr as (x & <- & _). reflexivity.
      - intros Hdue. exists (distribution_row today p). split; [|reflexivity].
        apply in_map. unfold paid_plans. apply filter_In. split; [|exact Hdue].
        apply filter_In. split; assumption. }
    induction (filter (active_plan d') (investment_plans d')) as [|x xs IH]; simpl.
    - reflexivity.
    - rewrite (Hall x (or_introl eq_refl)). apply IH. intros; apply Hall; now right. }
  destruct (paid_plans d today) as [|p ps] eqn:Hpaid.
  - apply Hnone; try reflexivity. simpl. now rewrite app_nil_r.
  - destruct (after_writes_schedule (map (distribution_row today) (p :: ps))
                (queued_updates d today) d) as (H1 & H2 & H3).
    apply Hnone; [exact H1|exact H2|exact H3].
Qed.

Lemma distributions_after_run (now : Z) (d : DB) :
  profit_distributions (snd (distributeInvestmentProfits now d)) =
  profit_distributions d ++
  map (distribution_row (iso_date now)) (paid_plans d (iso_date now)).
Proof.
  rewrite distributeInvestmentProfits_run. cbn [snd].
  destruct (paid_plans d (iso_date now)) as [|p ps].
  - simpl. now rewrite app_nil_r.
  - now destruct (after_writes_schedule
                    (map (distribution_row (iso_date now)) (p :: ps))
                    (queued_updates d (iso_date now)) d) as (_ & _ & ->).
Qed.

(** C3. A second run of [distributeInvestmentProfits] on the same calendar
    day changes nothing: every plan paid by the first run has its
    (plan_id, today) distribution row and is no longer due, no plan at all
    is due, and the second run returns with the whole store (wallet
    balances, plan accumulators, distribution rows) as the first run left
    it. *)
Theorem second_run_same_day_changes_nothing (now1 now2 : Z) (d : DB) :
  iso_date now2 = iso_date now1 ->
  let d1 := snd (distributeInvestmentProfits now1 d) in
  (forall plan, In plan (paid_plans d (iso_date now1)) ->
     In (mkDistribution (plan_id plan) (plan_user_id plan) (profitAmount plan)
           (iso_date now2)) (profit_distributions d1) /\
     due d1 (iso_date now2) plan = false) /\
  paid_plans d1 (iso_date now2) = [] /\
  distributeInvestmentProfits now2 d1 = (Ret tt, d1).
Proof.
  intros Hday d1. rewrite Hday. split; [|split].
  - intros plan Hpaid. subst d1. split.
    + rewrite distributions_after_run. apply in_or_app. right.
      change (In (distribution_row (iso_date now1) plan)
                 (map (distribution_row (iso_date now1)) (paid_plans d (iso_date now1)))).
      now apply in_map.
    + unfold due. rewrite distributions_after_run. apply due_on_after_insert.
      * intros r Hr. apply in_map_iff in Hr. destruct Hr as (x & <- & _). reflexivity.
      * intros _. exists (distribution_row (iso_date now1) plan).
        split; [now apply in_map|reflexivity].
  - apply paid_plans_after_run.
  - rewrite (distributeInvestmentProfits_run now2), Hday.
    subst d1. rewrite paid_plans_after_run. reflexivity.
Qed.

(** A witness of C3: two runs on day 1, at 00:30 and at 00:45. *)
Lemma second_run_same_day_changes_nothing_witness :
  paid_plans Samples.one_plan (iso_date Samples.after_midnight) = [Samples.alice_plan] /\
  distributeInvestmentProfits Samples.later_that_day
    (snd (distributeInvestmentProfits Samples.after_midnight Samples.one_plan)) =
  (Ret tt, snd (distributeInvestmentProfits Samples.after_midnight Samples.one_plan)).
Proof.
  split; [reflexivity|].
  apply (second_run_same_day_changes_nothing Samples.after_midnight
           Samples.later_that_day Samples.one_plan eq_refl).
Defined.

(** ** Read-then-write of one row per key *)

Lemma filter_nil_or_In {A} (f : A -> bool) (l : list A) :
  filter f l = [] \/ exists x, In x l /\ f x = true.
Proof.
  induction l as [|a l IH]; simpl.
  - now left.
  - destruct (f a) eqn:Hfa.
    + right. exists a. split; [now left|exact Hfa].
    + destruct IH as [IH|(x & Hx & Hfx)]; [now left|].
      right. exists x. split; [now right|exact Hfx].
Qed.

Lemma filter_key_unique {A} (key : A -> string) (l : list A) (p : A) :
  NoDup (map key l) -> In p l ->
  filter (fun a => String.eqb (key a) (key p)) l = [p].
Proof.
  induction l as [|a l IH]; intros Hnd Hin; simpl in *.
  - destruct Hin.
  - inversion Hnd as [|? ? Hnotin Hnd']; subst.
    destruct Hin as [->|Hin].
    + rewrite String.eqb_refl. f_equal.
      destruct (filter_nil_or_In (fun a => String.eqb (key a) (key p)) l)
        as [Hnil|(x & Hx & Hfx)]; [exact Hnil|].
      apply String.eqb_eq in Hfx. exfalso. apply Hnotin. rewrite <- Hfx.
      now apply in_map.
    + destruct (String.eqb (key a) (key p)) eqn:Heq.
      * apply String.eqb_eq in Heq. exfalso. apply Hnotin. rewrite Heq.
        now apply in_map.
      * now apply IH.
Qed.



Section ApplyEntries.
Context {A : Type} (key : A -> string) (cur : A -> Q) (upd : Q -> A -> A).
Hypothesis upd_key : forall v a, key (upd v a) = key a.

Lemma apply_entry_keys (e : string * Q) (l : list A) :
  map key (apply_entry key cur upd e l) = map key l.
Proof.
  unfold apply_entry. destruct (single _); [|reflexivity].
  apply map_update_rows. intros r. apply upd_key.
Qed.

End ApplyEntries.

(** A table column of the store after a loop, when each step acts on
    that table as [g]. *)
Lemma for_of_table {A T} (table : DB -> T) (g : A -> T -> T)
    (body : A -> unit -> M unit) (xs : list A) :
  (forall x d, table (snd (body x tt d)) = g x (table d)) ->
  (forall x d, fst (body x tt d) = Ret tt) ->
  forall d, table (snd (for_of xs body tt d)) = fold_left (fun t x => g x t) xs (table d).
Proof.
  intros Hg Hret. induction xs as [|x xs IH]; intros d; simpl.
  - reflexivity.
  - unfold bind. specialize (Hg x d). specialize (Hret x d).
    destruct (body x tt d) as [[[]|e] d']; simpl in *; [|discriminate].
    rewrite IH, Hg. reflexivity.
Qed.

Lemma wallet_step_profiles (e : string * Q) (d : DB) :
  profiles (snd (wallet_step e tt d)) =
  apply_entry id balance_or_zero set_balance e (profiles d).
Proof.
  destruct e as [uid tot]. unfold wallet_step, apply_entry, bind, select_single.
  cbn [fst snd]. destruct (single _); reflexivity.
Qed.

Lemma wallet_step_plans (e : string * Q) (d : DB) :
  investment_plans (snd (wallet_step e tt d)) = investment_plans d.
Proof.
  destruct e as [uid tot]. unfold wallet_step, bind, select_single.
  destruct (single _); reflexivity.
Qed.

Lemma plan_total_step_plans (r : ProfitDistribution) (d : DB) :
  investment_plans (snd (plan_total_step r tt d)) =
  apply_entry plan_id earned_or_zero set_total_profit_earned (entry_of r)
    (investment_plans d).
Proof.
  unfold plan_total_step, apply_entry, entry_of, bind, select_single.
  cbn [fst snd]. destruct (single _); reflexivity.
Qed.

Lemma plan_total_step_profiles (r : ProfitDistribution) (d : DB) :
  profiles (snd (plan_total_step r tt d)) = profiles d.
Proof.
  unfold plan_total_step, bind, select_single.
  destruct (single _); reflexivity.
Qed.

Lemma fold_left_id {A T} (xs : list A) (t : T) : fold_left (fun t _ => t) xs t = t.
Proof. induction xs; simpl; auto. Qed.

Lemma after_writes_profiles (q : list ProfitDistribution) (ups : JsMap) (d : DB) :
  profiles (after_writes q ups d) =
  fold_left (fun l e => apply_entry id balance_or_zero set_balance e l) ups (profiles d).
Proof.
  unfold after_writes.
  rewrite (for_of_table profiles (fun _ t => t) plan_total_step q
             plan_total_step_profiles plan_total_step_returns), fold_left_id.
  rewrite (for_of_table profiles
             (fun e l => apply_entry id balance_or_zero set_balance e l)
             wallet_step ups wallet_step_profiles wallet_step_returns).
  reflexivity.
Qed.

Lemma fold_left_map {A B T} (f : A -> B) (g : T -> B -> T) (xs : list A) (t : T) :
  fold_left g (map f xs) t = fold_left (fun t x => g t (f x)) xs t.
Proof. revert t. induction xs; simpl; auto. Qed.

Lemma after_writes_plans (q : list ProfitDistribution) (ups : JsMap) (d : DB) :
  investment_plans (after_writes q ups d) =
  fold_left (fun l e => apply_entry plan_id earned_or_zero
                          set_total_profit_earned e l)
    (map entry_of q) (investment_plans d).
Proof.
  unfold after_writes.
  rewrite (for_of_table investment_plans
             (fun r l => apply_entry plan_id earned_or_zero
                           set_total_profit_earned (entry_of r) l)
             plan_total_step q plan_total_step_plans plan_total_step_returns).
  rewrite (for_of_table investment_plans (fun _ t => t) wallet_step ups
             wallet_step_plans wallet_step_returns), fold_left_id.
  rewrite fold_left_map. reflexivity.
Qed.


(** ** The per-user totals queued by a run *)



Lemma map_set_keys (k : string) (v : Q) (m : JsMap) :
  map fst (map_set k v m) =
  if map_has k m then map fst m else map fst m ++ [k].
Proof.
  unfold map_has. induction m as [|[k' v'] m IH]; simpl.
  - reflexivity.
  - destruct (String.eqb k' k) eqn:Hk; simpl.
    + reflexivity.
    + rewrite IH. destruct (map_get k m); reflexivity.
Qed.











(** C2 read over the decimals, against the code: a plan of 30 at 3% a day
    is paid 0.8999999999999999, the double that 30 * (3 / 100) is, and not
    0.9: the distribution row, the plan's accumulator and the owner's
    wallet all receive the smaller number. *)
Lemma thirty_at_three_percent_pays_less :
  let d' := snd (distributeInvestmentProfits Samples.after_midnight MoreSamples.small_plan) in
  profit_distributions d' =
    [mkDistribution "plan-1" "alice" 0.8999999999999999 1] /\
  map total_profit_earned (investment_plans d') = [0.8999999999999999%Q] /\
  map main_wallet_balance (profiles d') = [0.8999999999999999%Q] /\
  ~ (0.8999999999999999 == 30 * (3 / 100))%Q /\
  Binary64.exact (Binary64.profitAmount 30 3) = Number.binary64 0.8999999999999999.
Proof. vm_compute. repeat split; discriminate. Qed.

(* ------------------------------------------------------------------ *)
(** ** Referral commissions *)
(* ------------------------------------------------------------------ *)

Import ReferralService.

Lemma chain_loop_upline (n : nat) :
  forall (lvl : nat) (uid : uuid) (chain : list (Profile * nat)) (d : DB),
  chain_loop n lvl uid chain d =
  (Ret (chain ++ with_levels lvl (upline (profiles d) n uid)), d).
Proof.
  unfold with_levels.
  induction n as [|n IH]; intros lvl uid chain d; simpl.
  - unfold ret. now rewrite app_nil_r.
  - unfold bind, select_single.
    destruct (single (filter (fun p => String.eqb (id p) uid) (profiles d))) as [me|msg];
      [|unfold ret; now rewrite app_nil_r].
    destruct (truthy (sponsor_id me)) as [sponsor|];
      [|unfold ret; now rewrite app_nil_r].
    destruct (single (filter (fun p => text_is sponsor (referral_code p)) (profiles d)))
      as [referrer|msg]; [|unfold ret; now rewrite app_nil_r].
    rewrite IH. simpl. now rewrite <- app_assoc.
Qed.

Lemma getReferralChain_upline (uid : uuid) (d : DB) :
  getReferralChain uid d = (Ret (with_levels 1 (upline (profiles d) 6 uid)), d).
Proof. unfold getReferralChain. now rewrite chain_loop_upline. Qed.

Lemma single_In {A} (f : A -> bool) (l : list A) (a : A) :
  single (filter f l) = Data a -> In a l /\ f a = true.
Proof.
  intros H. apply filter_In.
  destruct (filter f l) as [|x [|y r]]; simpl in H; try discriminate.
  injection H as ->. now left.
Qed.

Lemma upline_In (ps : list Profile) (n : nat) :
  forall uid a, In a (upline ps n uid) -> In a ps.
Proof.
  induction n as [|n IH]; intros uid a Hin; simpl in Hin.
  - destruct Hin.
  - destruct (single (filter (fun p => String.eqb (id p) uid) ps)) as [me|]; [|destruct Hin].
    destruct (truthy (sponsor_id me)) as [sponsor|]; [|destruct Hin].
    destruct (single (filter (fun p => text_is sponsor (referral_code p)) ps))
      as [referrer|] eqn:Hr; [|destruct Hin].
    destruct Hin as [<-|Hin].
    + now apply single_In in Hr.
    + exact (IH _ _ Hin).
Qed.

Lemma upline_length (ps : list Profile) (n : nat) :
  forall uid, (List.length (upline ps n uid) <= n)%nat.
Proof.
  induction n as [|n IH]; intros uid; simpl.
  - lia.
  - destruct (single _) as [me|]; simpl; [|lia].
    destruct (truthy _) as [sponsor|]; simpl; [|lia].
    destruct (single _) as [referrer|]; simpl; [|lia].
    specialize (IH (id referrer)). lia.
Qed.


Lemma payCommission_paid (rid uid : uuid) (amt : Q) (rates : ReferralCommissionRates)
    (d : DB) :
  NoDup (map id (profiles d)) -> In rid (map id (profiles d)) ->
  payCommission rid uid amt rates d = (Ret tt, paid rid uid amt rates d).
Proof.
  intros Hnd Hin. apply in_map_iff in Hin. destruct Hin as (a & Ha & Hin). subst rid.
  unfold payCommission, paid, apply_entry, try_catch, bind, select_single. cbn [fst snd].
  rewrite (filter_key_unique id (profiles d) a Hnd Hin). reflexivity.
Qed.

Lemma paid_ids (rid uid : uuid) (amt : Q) (rates : ReferralCommissionRates) (d : DB) :
  map id (profiles (paid rid uid amt rates d)) = map id (profiles d).
Proof. unfold paid. cbn [profiles]. now apply apply_entry_keys. Qed.

Lemma pay_all_cons (uid : uuid) (amt : Q) (a : Profile) (lv : nat)
    (r : ReferralCommissionRates) (l : list (Profile * nat * ReferralCommissionRates))
    (d : DB) :
  pay_all uid amt ((a, lv, r) :: l) d = pay_all uid amt l (paid (id a) uid amt r d).
Proof. reflexivity. Qed.

Lemma pay_loop_run (uid : uuid) (amt : Q)
    (l : list (Profile * nat * ReferralCommissionRates)) :
  forall d,
  NoDup (map id (profiles d)) ->
  (forall x, In x l -> In (id (fst (fst x))) (map id (profiles d))) ->
  for_of l (fun '(referrer, rates) _ => payCommission (id (fst referrer)) uid amt rates)
    tt d = (Ret tt, pay_all uid amt l d).
Proof.
  induction l as [|[[a lv] r] l IH]; intros d Hnd Hin.
  - reflexivity.
  - rewrite pay_all_cons. cbn [for_of]. unfold bind.
    rewrite payCommission_paid; [|exact Hnd|apply (Hin (a, lv, r)); now left].
    apply IH.
    + now rewrite paid_ids.
    + intros x Hx. rewrite paid_ids. apply Hin. now right.
Qed.


Lemma pay_all_commissions (uid : uuid) (amt : Q)
    (l : list (Profile * nat * ReferralCommissionRates)) :
  forall d,
  referral_commissions (pay_all uid amt l d) =
  referral_commissions d ++
  map (fun '(referrer, rates) =>
         mkCommission (id (fst referrer)) uid (Number.div (Number.mul amt (usdtRate rates)) 100)
           (rate_at (rate_level rates)) (rate_level rates)) l.
Proof.
  induction l as [|[[a lv] r] l IH]; intros d.
  - simpl. now rewrite app_nil_r.
  - rewrite pay_all_cons, IH. simpl. now rewrite <- app_assoc.
Qed.


Lemma pay_all_frame (uid : uuid) (amt : Q)
    (l : list (Profile * nat * ReferralCommissionRates)) :
  forall d,
  investment_plans (pay_all uid amt l d) = investment_plans d /\
  profit_distributions (pay_all uid amt l d) = profit_distributions d /\
  withdrawal_requests (pay_all uid amt l d) = withdrawal_requests d /\
  deposit_requests (pay_all uid amt l d) = deposit_requests d /\
  exists new, transactions (pay_all uid amt l d) = transactions d ++ new.
Proof.
  induction l as [|[[a lv] r] l IH]; intros d.
  - simpl. repeat split. exists []. now rewrite app_nil_r.
  - destruct (IH (paid (id a) uid amt r d)) as (H1 & H2 & H3 & H4 & new & H5).
    rewrite pay_all_cons, H1, H2, H3, H4, H5. repeat split.
    simpl. eexists. now rewrite <- app_assoc.
Qed.

(** The rows the loop writes are the rows of the schedule. *)
Lemma paid_rows_scheduled (uid : uuid) (amt : Q) (U : list Profile) :
  map (fun '(referrer, rates) =>
         mkCommission (id (fst referrer)) uid (Number.div (Number.mul amt (usdtRate rates)) 100)
           (rate_at (rate_level rates)) (rate_level rates))
      (combine (with_levels 1 U) commissionRates) =
  scheduled amt uid U.
Proof.
  unfold scheduled, commission, with_levels, commissionRates.
  destruct U as [|a1 [|a2 [|a3 [|a4 [|a5 [|a6 [|a7 U]]]]]]];
    cbn [combine seq List.length map fst snd usdtRate rate_level schedule_rate rate_at];
    reflexivity.
Qed.







Lemma sample_chain_ids : NoDup (map id (profiles Samples.chain)).
Proof.
  simpl. repeat (constructor; [simpl; intuition discriminate|]). constructor.
Qed.


(** C4 read over the decimals, against the code: on a deposit of 10.02 the
    level-1 sponsor is paid 1.0019999999999998, the double that
    (10.02 * 10) / 100 is, and not 1.002; the level-2 sponsor is paid
    0.5009999999999999 and not 0.501.  The commission rows and the main
    wallets receive these numbers. *)
Lemma commission_on_ten_point_zero_two :
  let d' := snd (processReferralCommissions
                   (mkReferralTransaction "u0" 10.02 deposit_event None)
                   Samples.chain) in
  Forall2 Qeq (map commission_amount (referral_commissions d'))
    [1.0019999999999998; 0.5009999999999999; 0.3006; 0.2004; 0.1002; 0.0501]%Q /\
  Forall2 Qeq (map main_wallet_balance (profiles d'))
    [0; 1.0019999999999998; 0.5009999999999999; 0.3006; 0.2004; 0.1002; 0.0501; 0]%Q /\
  ~ (1.0019999999999998 == 10.02 * 10 / 100)%Q /\
  ~ (0.5009999999999999 == 10.02 * 5 / 100)%Q /\
  Binary64.exact (Binary64.usdtCommission (1002 / 100) 10) =
    Number.binary64 1.0019999999999998.
Proof.
  split; [|split; [|split; [|split]]].
  - vm_compute. repeat (constructor; [reflexivity|]). constructor.
  - vm_compute. repeat (constructor; [reflexivity|]). constructor.
  - vm_compute. discriminate.
  - vm_compute. discriminate.
  - vm_compute. reflexivity.
Qed.

(* ------------------------------------------------------------------ *)
(** ** Counting referrals *)
(* ------------------------------------------------------------------ *)

(** C8. The three computations of "total referrals" are not the same
    function of the store: on the sample chain, for the user u6, the
    recursive descendant count is 6, the number of distinct referred ids in
    u6's commission rows is 0 and the direct sponsor_id match count is 1. *)
Theorem total_referrals_disagree :
  exists (d : DB) (user : Profile) (code : string) (recursive commissioned direct : nat)
         (stats : ReferralService.ReferralStats),
    In user (profiles d) /\ referral_code user = Some code /\
    OptimizedReferralService.countAllReferralsRecursive code 0 6 d = (Ret recursive, d) /\
    ReferralService.getReferralStats (id user) d = (Ret stats, d) /\
    ReferralService.totalReferrals stats = commissioned /\
    OptimizedReferralService.getDirectReferralsCount (id user) d = (Ret direct, d) /\
    recursive <> commissioned /\ commissioned <> direct /\ recursive <> direct.
Proof.
  exists Samples.chain, (Samples.member "u6" "c6" (Some "c7")), "c6", 6%nat, 0%nat, 1%nat.
  eexists. split; [simpl; tauto|]. split; [reflexivity|].
  split; [vm_compute; reflexivity|]. split; [vm_compute; reflexivity|].
  split; [reflexivity|]. split; [vm_compute; reflexivity|].
  repeat split; discriminate.
Qed.

(* ------------------------------------------------------------------ *)
(** ** The first payout *)
(* ------------------------------------------------------------------ *)

Lemma first_distribution_day (created : Z) :
  iso_date (setUTCHours0 created + 24 * 60 * 60 * 1000) = iso_date created + 1.
Proof.
  unfold iso_date, setUTCHours0, DAY_MS.
  change (24 * 60 * 60 * 1000) with 86400000.
  rewrite (Z.div_mod created 86400000) at 1 by lia.
  replace (86400000 * (created / 86400000) + created mod 86400000
           - created mod 86400000 + 86400000)
    with ((created / 86400000 + 1) * 86400000) by lia.
  apply Z.div_mul. lia.
Qed.

(** What the date test of the loop guarantees: no plan is paid on the UTC
    calendar day it was created on, or earlier. *)
Lemma not_paid_on_creation_day (d : DB) (now : Z) (plan : InvestmentPlan) :
  iso_date now <= iso_date (plan_created_at plan) ->
  due d (iso_date now) plan = false.
Proof.
  intros Hday. unfold due, due_on. rewrite first_distribution_day.
  destruct (iso_date now <? iso_date (plan_created_at plan) + 1) eqn:Hlt; [reflexivity|].
  apply Z.ltb_ge in Hlt. lia.
Qed.

(** C1, on the code.  A plan created at 23:00 UTC is paid by a run at
    00:30 UTC the next day, an hour and a half after its creation: the run
    inserts the plan's distribution row and credits the owner. *)
Theorem first_payout_ninety_minutes_after_creation :
  Samples.after_midnight - plan_created_at Samples.alice_plan = 90 * 60 * 1000 /\
  Samples.after_midnight < plan_created_at Samples.alice_plan + 24 * 60 * 60 * 1000 /\
  profit_distributions Samples.one_plan = [] /\
  let d' := snd (distributeInvestmentProfits Samples.after_midnight Samples.one_plan) in
  profit_distributions d' = [mkDistribution "plan-1" "alice" 30 1] /\
  map (fun p => Qred (main_wallet_balance p)) (profiles d') = [30%Q] /\
  map (fun p => Qred (total_profit_earned p)) (investment_plans d') = [30%Q].
Proof.
  repeat split; vm_compute; reflexivity.
Qed.

(* ------------------------------------------------------------------ *)
(** ** Withdrawal requests *)
(* ------------------------------------------------------------------ *)

Import Sql.

Lemma Qlt_Qle_bool_false (x y : Q) : (y < x)%Q -> Qle_bool x y = false.
Proof.
  intros H. destruct (Qle_bool x y) eqn:E; [|reflexivity].
  apply Qle_bool_iff in E. exfalso. exact (Qlt_not_le _ _ H E).
Qed.


Lemma reject_withdrawal_profiles (auth : option uuid) (rid : uuid) (d : DB) :
  profiles (snd (reject_withdrawal_request auth rid d)) = profiles d.
Proof.
  unfold reject_withdrawal_request, bind, get, throw, modify, ret.
  destruct (negb (caller_is_admin auth d)); [reflexivity|].
  cbn. destruct (negb (existsb _ (withdrawal_requests d))); reflexivity.
Qed.


(** With no profile row for the request's user the balance read is NULL,
    the comparison is not TRUE, and the approval goes through. *)
Remark approve_withdrawal_without_profile (auth : option uuid) (rid : uuid) (d : DB)
    (request : WithdrawalRequest) :
  caller_is_admin auth d = true ->
  find (fun r => String.eqb (wr_id r) rid
                 && request_status_eqb (wr_status r) req_pending)
       (withdrawal_requests d) = Some request ->
  find (fun p => String.eqb (id p) (wr_user_id request)) (profiles d) = None ->
  fst (approve_withdrawal_request auth rid d) = Ret true.
Proof.
  intros Hadmin Hreq Huser. unfold approve_withdrawal_request, bind, get.
  rewrite Hadmin, Hreq, Huser. reflexivity.
Qed.


(** C5 as the specification words it, against the code: the pending
    request w3 of 50 belongs to a user with no profile row, so there is no
    main_wallet_balance that is at least 50; the approval by an
    administrator returns TRUE all the same and marks the request
    approved. *)
Lemma approval_without_profile_returns :
  find (fun p => String.eqb (id p) "ghost") (profiles MoreSamples.no_profile) = None /\
  fst (approve_withdrawal_request (Some "admin") "w3" MoreSamples.no_profile) = Ret true /\
  withdrawal_requests
    (snd (approve_withdrawal_request (Some "admin") "w3" MoreSamples.no_profile)) =
    [mkWithdrawal "w3" "ghost" 50 req_approved].
Proof. repeat split. Qed.

(* ------------------------------------------------------------------ *)
(** ** Manual deposit approval *)
(* ------------------------------------------------------------------ *)

(** Rounding to two decimals leaves a value of two decimals as it is. *)
Lemma round_units_exact (u : Z) (q : Q) :
  (q == inject_Z u / 100)%Q -> round_units 2 q = u.
Proof.
  intros H. unfold Qeq in H. simpl in H.
  unfold round_units. change (10 ^ 2) with 100.
  set (den := Zpos (Qden q)) in *.
  assert (Hden : 0 < den) by (unfold den; lia).
  replace (Qnum q * 100) with (u * den) by lia.
  rewrite Z.sgn_mul, Z.abs_mul, (Z.sgn_pos den Hden), (Z.abs_eq den) by lia.
  replace (2 * (Z.abs u * den) + den) with (Z.abs u * (2 * den) + den) by ring.
  rewrite Z.div_add_l by lia.
  rewrite (Z.div_small den (2 * den)) by lia.
  rewrite Z.add_0_r, Z.mul_1_r, Z.mul_comm. apply Z.abs_sgn.
Qed.

Lemma decimal_15_2_in_range (q : Q) (d : DB) :
  Z.abs (round_units 2 q) < 10 ^ 15 ->
  decimal_15_2 q d = (Ret (inject_Z (round_units 2 q) / 100)%Q, d).
Proof.
  intros H. unfold decimal_15_2.
  destruct (10 ^ 15 <=? Z.abs (round_units 2 q)) eqn:E; [|reflexivity].
  apply Z.leb_le in E. lia.
Qed.

(** C9, as the procedure computes it.  Approving a pending deposit request
    of amount A: the fee is 0.01 * A rounded to two decimals, the net amount
    is A minus the fee, rounded to two decimals; the main_wallet_balance of
    the user's profile becomes its old value plus exactly the net amount,
    every other profile and every other column staying as it was, and the
    transaction row created records the net amount in both its amount and
    net_amount fields.  When A is a whole number the fee is exactly
    0.01 * A and the net amount exactly 0.99 * A. *)
Theorem manual_deposit_books_rounded_net (rid admin_id : uuid) (d : DB)
    (request : DepositRequest) :
  find (fun r => String.eqb (dr_id r) rid
                 && request_status_eqb (dr_status r) req_pending)
       (deposit_requests d) = Some request ->
  let A := dr_amount request in
  let fee := (inject_Z (round_units 2 (A * 0.01)) / 100)%Q in
  let net := (inject_Z (round_units 2 (A - fee)) / 100)%Q in
  let txid := uuid_of_nat (uuid_seq d) in
  Z.abs (round_units 2 (A * 0.01)) < 10 ^ 15 ->
  Z.abs (round_units 2 (A - fee)) < 10 ^ 15 ->
  exists d',
    process_manual_deposit_approval rid admin_id d =
      (Ret (approval_success txid A fee net (dr_user_id request)), d') /\
    transactions d' =
      transactions d ++
      [mkTransaction txid (dr_user_id request) deposit net (Some fee) (Some net)
         completed (dr_tx_hash request) None] /\
    Forall2 (fun p p' =>
               ReferralChains.profile_rest p' = ReferralChains.profile_rest p /\
               main_wallet_balance p' =
                 if String.eqb (id p) (dr_user_id request)
                 then (main_wallet_balance p + net)%Q
                 else main_wallet_balance p)
            (profiles d) (profiles d') /\
    (forall k : Z, (A == inject_Z k)%Q -> (fee == 0.01 * A)%Q /\ (net == 0.99 * A)%Q).
Proof.
  intros Hreq A fee net txid Hfee Hnet.
  eexists. split; [|split; [|split]].
  - unfold process_manual_deposit_approval, exception_when_others, bind, get.
    rewrite Hreq. fold A.
    rewrite (decimal_15_2_in_range _ _ Hfee). fold fee.
    rewrite (decimal_15_2_in_range _ _ Hnet). fold net.
    reflexivity.
  - reflexivity.
  - cbn [profiles set_profiles set_deposit_requests].
    apply Forall2_updated. intros p.
    destruct (String.eqb (id p) (dr_user_id request)); split; reflexivity.
  - intros k Hk.
    assert (Hf : round_units 2 (A * 0.01) = k).
    { apply round_units_exact. rewrite Hk. field. }
    assert (Hfee_eq : (fee == 0.01 * A)%Q).
    { unfold fee. rewrite Hf, Hk. field. }
    split; [exact Hfee_eq|].
    assert (Hn : round_units 2 (A - fee) = 99 * k).
    { apply round_units_exact. rewrite Hfee_eq, Hk, inject_Z_mult. field. }
    unfold net. rewrite Hn, Hk, inject_Z_mult. field.
Qed.

(** C9 as stated fails on a request of 10.55: the fee charged is 0.11,
    not 0.1055, and bob's wallet grows by 10.44, not by 10.4445. *)
Lemma manual_deposit_fee_not_one_percent :
  exists fee net d',
    process_manual_deposit_approval "dep-1" "admin" Samples.manual_deposit =
      (Ret (approval_success "gen-0" 10.55 fee net "bob"), d') /\
    (fee == 0.11)%Q /\ ~ (fee == 0.01 * 10.55)%Q /\
    (net == 10.44)%Q /\ ~ (net == 0.99 * 10.55)%Q /\
    map (fun p => (id p, Qred (main_wallet_balance p))) (profiles d') =
      [("admin", 0%Q); ("bob", Qred 50.44)] /\
    ~ (50.44 == 40 + 0.99 * 10.55)%Q.
Proof.
  eexists _, _, _. split; [vm_compute; reflexivity|].
  split; [vm_compute; reflexivity|].
  split; [intros H; vm_compute in H; discriminate|].
  split; [vm_compute; reflexivity|].
  split; [intros H; vm_compute in H; discriminate|].
  split; [vm_compute; reflexivity|].
  intros H; vm_compute in H; discriminate.
Qed.

(** A witness of C9: a request of 200 is charged 2 and credits 198. *)
Lemma manual_deposit_books_rounded_net_witness :
  exists d',
    process_manual_deposit_approval "dep-2" "admin" Samples.round_deposit =
      (Ret (approval_success "gen-0" 200
              (inject_Z (round_units 2 (200 * 0.01)) / 100)
              (inject_Z (round_units 2
                 (200 - inject_Z (round_units 2 (200 * 0.01)) / 100)) / 100) "bob"), d') /\
    Forall2 (fun p p' =>
               main_wallet_balance p' =
                 if String.eqb (id p) "bob"
                 then (main_wallet_balance p +
                       inject_Z (round_units 2
                         (200 - inject_Z (round_units 2 (200 * 0.01)) / 100)) / 100)%Q
                 else main_wallet_balance p)
            (profiles Samples.round_deposit) (profiles d') /\
    ((inject_Z (round_units 2 (200 * 0.01)) / 100 == 0.01 * 200)%Q /\
     (inject_Z (round_units 2
         (200 - inject_Z (round_units 2 (200 * 0.01)) / 100)) / 100 == 0.99 * 200)%Q).
Proof.
  destruct (manual_deposit_books_rounded_net "dep-2" "admin" Samples.round_deposit
              (mkDepositRequest "dep-2" "bob" 200 (Some "0xbeef") req_pending)
              eq_refl eq_refl eq_refl) as (d' & Hrun & _ & Hwallets & Hwhole).
  exists d'. split; [exact Hrun|]. split.
  - revert Hwallets. apply Forall2_weaken. intros p p' [_ H]. exact H.
  - apply (Hwhole 200). reflexivity.
Defined.

(* ------------------------------------------------------------------ *)
(** ** TON purchase *)
(* ------------------------------------------------------------------ *)

Import Http.




(** C10 read over the decimals, against the code: carol holds 0.3 in the
    fund wallet and asks for 3 coins; 3 * 0.1 is 0.3 as a decimal, but the
    double 3 * 0.1 is 0.30000000000000004, which exceeds 0.3: the purchase
    is refused with a 400 and the store is unchanged, where a cost equal to
    the balance was to succeed and leave the fund wallet at 0. *)
Lemma three_coins_for_thirty_cents_refused :
  (3 * 0.1 == 0.3)%Q /\
  TonPurchaseRoute.POST MoreSamples.nulls_refused
    (TonPurchaseRoute.mkPurchaseBody (TonPurchaseRoute.parsed 3) (Some "carol"))
    MoreSamples.thirty_cents =
    (Ret (mkResponse 400
            (insufficient_fund_wallet_json (Qred 0.30000000000000004) (Qred 0.3))),
     MoreSamples.thirty_cents) /\
  Binary64.exact (Binary64.totalCost 3) = Number.binary64 0.30000000000000004.
Proof. repeat split; vm_compute; reflexivity. Qed.

(* ------------------------------------------------------------------ *)
(** ** Deposit submission *)
(* ------------------------------------------------------------------ *)

Import DepositRoute.

(** What [POST] does to the ledger: nothing, or one pending row for a
    hash that [.single()] did not find. *)
Lemma POST_ledger (request : deposit_request_body) (d : DB) :
  snd (POST request d) = d \/
  exists hash row,
    truthy (txHash request) = Some hash /\
    tx_reference_id row = Some hash /\
    tx_status row = pending /\
    (forall t, single (filter (fun t => text_is hash (tx_reference_id t))
                              (transactions d)) <> Data t) /\
    transactions (snd (POST request d)) = transactions d ++ [row].
Proof.
  unfold POST, try_catch, bind, select_single, ret.
  destruct (truthy (body_userId request)) as [userId|]; [|now left].
  destruct (truthy (txHash request)) as [hash|]; [|now left].
  destruct (expectedAmount request) as [e|]; [|now left].
  destruct (Qeq_bool e 0); [now left|].
  destruct (negb (Qle_bool 10 e)); [now left|].
  destruct (negb (Qle_bool e 50000)); [now left|].
  destruct (single (filter (fun p => String.eqb (id p) userId) (profiles d)));
    [|now left].
  destruct (single (filter (fun t => text_is hash (tx_reference_id t)) (transactions d)))
    as [t|msg] eqn:Hsingle; [now left|].
  right.
  exists hash, (mkTransaction (uuid_of_nat (uuid_seq d)) userId deposit e None None
                  pending (Some hash) None).
  split; [reflexivity|].
  split; [reflexivity|]. split; [reflexivity|]. split; [|reflexivity].
  intros t Ht. congruence.
Qed.

(** A submission whose hash is the reference of exactly one ledger row is
    answered 400 and inserts nothing. *)
Lemma POST_rejects_booked_hash (request : deposit_request_body) (d : DB)
    (userId hash : string) (e : Q) (p : Profile) (t : Transaction) :
  truthy (body_userId request) = Some userId ->
  truthy (txHash request) = Some hash ->
  expectedAmount request = Some e ->
  (10 <= e)%Q -> (e <= 50000)%Q ->
  single (filter (fun p => String.eqb (id p) userId) (profiles d)) = Data p ->
  single (filter (fun t => text_is hash (tx_reference_id t)) (transactions d)) = Data t ->
  POST request d = (Ret (mkResponse 400 (error_json "Transaction already processed")), d).
Proof.
  intros Hu Hh He Hmin Hmax Hp Ht.
  unfold POST, try_catch, bind, select_single, ret.
  rewrite Hu, Hh, He.
  assert (Hnz : Qeq_bool e 0 = false).
  { destruct (Qeq_bool e 0) eqn:E; [|reflexivity].
    apply Qeq_bool_eq in E. rewrite E in Hmin. exfalso. revert Hmin. now compute. }
  apply Qle_bool_iff in Hmin. apply Qle_bool_iff in Hmax.
  rewrite Hnz, Hmin, Hmax. cbn [negb]. cbv beta. rewrite Hp. cbv beta. rewrite Ht.
  reflexivity.
Qed.

Lemma references_app (l l' : list Transaction) :
  references (l ++ l') = references l ++ references l'.
Proof. unfold references. apply flat_map_app. Qed.

Lemma references_filter (hash : string) (l : list Transaction) :
  In hash (references l) ->
  exists t, In t (filter (fun t => text_is hash (tx_reference_id t)) l).
Proof.
  unfold references. intros Hin. apply in_flat_map in Hin.
  destruct Hin as (t & Ht & Hr). exists t. apply filter_In. split; [exact Ht|].
  destruct (tx_reference_id t) as [r|]; simpl in *; [|tauto].
  destruct Hr as [->|[]]. apply String.eqb_refl.
Qed.

Lemma references_filter_length (hash : string) (l : list Transaction) :
  NoDup (references l) ->
  (List.length (filter (fun t => text_is hash (tx_reference_id t)) l) <= 1)%nat.
Proof.
  induction l as [|t l IH]; intros Hnd; simpl.
  - lia.
  - unfold references in Hnd. simpl in Hnd. fold (references l) in Hnd.
    destruct (tx_reference_id t) as [r|] eqn:Hr; simpl in *.
    + inversion Hnd as [|? ? Hnotin Hnd']; subst.
      destruct (String.eqb r hash) eqn:Heq; simpl; [|now apply IH].
      apply String.eqb_eq in Heq. subst r.
      destruct (filter _ l) as [|x xs] eqn:Hf; simpl; [lia|].
      exfalso. apply Hnotin.
      assert (Hx : In x (filter (fun t => text_is hash (tx_reference_id t)) l))
        by (rewrite Hf; now left).
      apply filter_In in Hx. destruct Hx as [Hx Hm].
      unfold references. apply in_flat_map. exists x. split; [exact Hx|].
      destruct (tx_reference_id x) as [r|]; simpl in *; [|discriminate].
      apply String.eqb_eq in Hm. now left.
    + now apply IH.
Qed.

(** From a ledger in which no two rows share a reference id, [POST] leads
    to a ledger in which no two rows share a reference id. *)
Lemma POST_keeps_references_unique (request : deposit_request_body) (d : DB) :
  NoDup (references (transactions d)) ->
  NoDup (references (transactions (snd (POST request d)))).
Proof.
  intros Hnd.
  destruct (POST_ledger request d) as [->|(hash & row & _ & Hrow & _ & Hnone & ->)];
    [exact Hnd|].
  rewrite references_app. unfold references at 2. simpl. rewrite Hrow. simpl.
  apply NoDup_app; [exact Hnd|repeat constructor; simpl; tauto|].
  intros x Hx [Heq|[]]. subst x.
  destruct (references_filter _ _ Hx) as (t & Ht).
  pose proof (references_filter_length hash (transactions d) Hnd) as Hlen.
  destruct (filter (fun t => text_is hash (tx_reference_id t)) (transactions d))
    as [|y [|z r]]; simpl in *; [tauto| |lia].
  now apply (Hnone y).
Qed.

(** How a ledger comes to hold two rows of one reference: bob submits the
    hash 0xabc through [POST], then the manual deposit request filed under
    the same hash is approved by [process_manual_deposit_approval], which
    books its own row without looking for the reference. *)
Lemma hash_booked_twice_is_reachable :
  let submit := mkDepositBody (Some "0xabc") (Some 100%Q) (Some "bob") in
  let d1 := snd (POST submit Samples.before_deposit) in
  let d2 := snd (process_manual_deposit_approval "dep-3" "admin" d1) in
  transactions Samples.before_deposit = [] /\
  fst (POST submit Samples.before_deposit) = Ret (ok (deposit_submitted_json 100 "0xabc")) /\
  map tx_reference_id (transactions d2) = [Some "0xabc"; Some "0xabc"] /\
  fst (POST (mkDepositBody (Some "0xabc") (Some 25%Q) (Some "bob")) d2) =
    Ret (ok (deposit_submitted_json 25 "0xabc")) /\
  map tx_reference_id
    (transactions (snd (POST (mkDepositBody (Some "0xabc") (Some 25%Q) (Some "bob")) d2))) =
    [Some "0xabc"; Some "0xabc"; Some "0xabc"].
Proof.
  repeat split; vm_compute; reflexivity.
Qed.

(** C7, on the code.  When two ledger rows already carry the submitted
    hash, [.single()] answers an error and no data: the submission is
    accepted and a third row with the same reference id is inserted. *)
Theorem POST_accepts_hash_booked_twice :
  let request := mkDepositBody (Some "0xabc") (Some 25%Q) (Some "bob") in
  List.length (filter (fun t => text_is "0xabc" (tx_reference_id t))
                 (transactions Samples.twice_booked)) = 2%nat /\
  fst (POST request Samples.twice_booked) = Ret (ok (deposit_submitted_json 25 "0xabc")) /\
  transactions (snd (POST request Samples.twice_booked)) =
    transactions Samples.twice_booked ++
    [mkTransaction "gen-0" "bob" deposit 25 None None pending (Some "0xabc") None] /\
  List.length (filter (fun t => text_is "0xabc" (tx_reference_id t))
                 (transactions (snd (POST request Samples.twice_booked)))) = 3%nat.
Proof.
  repeat split; vm_compute; reflexivity.
Qed.

(* ------------------------------------------------------------------ *)
(** ** Commission failures and the primary transaction *)
(* ------------------------------------------------------------------ *)

Lemma ledger_grows_refl (d : DB) : ledger_grows d d.
Proof. split; [exists []; now rewrite app_nil_r|reflexivity]. Qed.

Lemma ledger_grows_trans (a b c : DB) :
  ledger_grows a b -> ledger_grows b c -> ledger_grows a c.
Proof.
  intros [(n1 & H1) H2] [(n2 & H3) H4]. split; [|congruence].
  exists (n1 ++ n2). now rewrite H3, H1, app_assoc.
Qed.

Section Preserved.
Variable R : DB -> DB -> Prop.
Hypothesis R_refl : forall d, R d d.
Hypothesis R_trans : forall a b c, R a b -> R b c -> R a c.

Lemma keeps_ret {A} (a : A) : keeps R (ret a).
Proof. intros d. apply R_refl. Qed.

Lemma keeps_throw {A} (e : string) : keeps R (@throw A e).
Proof. intros d. apply R_refl. Qed.

Lemma keeps_bind {A B} (m : M A) (k : A -> M B) :
  keeps R m -> (forall a, keeps R (k a)) -> keeps R (bind m k).
Proof.
  intros Hm Hk d. unfold bind. specialize (Hm d).
  destruct (m d) as [[a|e] d']; simpl in *; [|exact Hm].
  eapply R_trans; [exact Hm|apply Hk].
Qed.

Lemma keeps_try_catch {A} (m : M A) (h : string -> M A) :
  keeps R m -> (forall e, keeps R (h e)) -> keeps R (try_catch m h).
Proof.
  intros Hm Hh d. unfold try_catch. specialize (Hm d).
  destruct (m d) as [[a|e] d']; simpl in *; [exact Hm|].
  eapply R_trans; [exact Hm|apply Hh].
Qed.

Lemma keeps_for_of {A S} (body : A -> S -> M S) (xs : list A) :
  (forall x s, keeps R (body x s)) -> forall s, keeps R (for_of xs body s).
Proof.
  intros Hbody. induction xs as [|x xs IH]; intros s; simpl.
  - apply keeps_ret.
  - apply keeps_bind; [apply Hbody|exact IH].
Qed.

Lemma keeps_select_single {A} (table : DB -> list A) (cond : A -> bool) :
  keeps R (select_single table cond).
Proof. intros d. apply R_refl. Qed.
End Preserved.

Lemma payCommission_ledger (rid uid : uuid) (amt : Q) (rates : ReferralCommissionRates) :
  keeps ledger_grows (payCommission rid uid amt rates).
Proof.
  unfold payCommission.
  apply (keeps_try_catch _ ledger_grows_trans);
    [|intros; apply (keeps_throw _ ledger_grows_refl)].
  apply (keeps_bind _ ledger_grows_trans);
    [apply (keeps_select_single _ ledger_grows_refl)|].
  intros [referrer|msg]; [|apply (keeps_throw _ ledger_grows_refl)].
  apply (keeps_bind _ ledger_grows_trans).
  { intros d. split; [exists []; simpl; now rewrite app_nil_r|reflexivity]. }
  intros [[]|msg]; [|apply (keeps_throw _ ledger_grows_refl)].
  apply (keeps_bind _ ledger_grows_trans).
  - unfold createCommissionTransaction.
    apply (keeps_bind _ ledger_grows_trans).
    + intros d. split; [eexists; reflexivity|reflexivity].
    + intros [t|msg];
        [apply (keeps_ret _ ledger_grows_refl)|apply (keeps_throw _ ledger_grows_refl)].
  - intros _. unfold createReferralCommissionRecord.
    apply (keeps_try_catch _ ledger_grows_trans);
      [|intros; apply (keeps_throw _ ledger_grows_refl)].
    apply (keeps_bind _ ledger_grows_trans).
    + intros d. split; [exists []; simpl; now rewrite app_nil_r|reflexivity].
    + intros [[]|msg];
        [apply (keeps_ret _ ledger_grows_refl)|apply (keeps_throw _ ledger_grows_refl)].
Qed.

(** Whether it returns or throws, the referral service leaves every ledger
    row and every plan where it was. *)
Lemma processReferralCommissions_ledger (tx : ReferralTransaction) :
  keeps ledger_grows (processReferralCommissions tx).
Proof.
  unfold processReferralCommissions.
  apply (keeps_try_catch _ ledger_grows_trans);
    [|intros; apply (keeps_throw _ ledger_grows_refl)].
  apply (keeps_bind _ ledger_grows_trans).
  - intros d. rewrite getReferralChain_upline. apply ledger_grows_refl.
  - intros [|x xs]; [apply (keeps_ret _ ledger_grows_refl)|].
    apply (keeps_for_of _ ledger_grows_refl ledger_grows_trans).
    intros [referrer rates] []. apply payCommission_ledger.
Qed.

(** C6. Deposit approval: once the pending deposit is found and
    [process_bsc_deposit] reports no error, whatever
    [processReferralCommissions] does next (return, or throw after any
    writes), the handler goes on to mark the transaction completed and
    answers success.  Investment: once the plan row, the wallet update and
    the ledger row are written, whatever [processReferralCommissions] does,
    the page reports success and nothing is undone.  The referral service
    itself, returning or throwing, leaves ledger rows and plans in place. *)
Theorem commission_failure_does_not_block :
  (forall process_bsc_deposit svc request tid d t d1 o d2,
     truthy (transactionId request) = Some tid ->
     approve request = Some true ->
     single (filter (fun t => String.eqb (tx_id t) tid
                              && transaction_type_eqb (tx_type t) deposit
                              && transaction_status_eqb (tx_status t) pending)
                    (transactions d)) = Data t ->
     process_bsc_deposit (tx_user_id t) (tx_amount t) (Number.mul (tx_amount t) 0.01)
       (Number.sub (tx_amount t) (Number.mul (tx_amount t) 0.01))
       (tx_reference_id t) d = (Ret (Data tt), d1) ->
     svc (mkReferralTransaction (tx_user_id t) (tx_amount t) deposit_event
            (Some "deposit")) d1 = (o, d2) ->
     let d' := set_transactions
                 (update_rows (fun t => String.eqb (tx_id t) tid)
                    (set_tx_status completed) (transactions d2)) d2 in
     PUT process_bsc_deposit svc request d =
       (Ret (ok (message_json "Deposit approved and processed successfully")), d') /\
     (forall t', In t' (transactions d2) -> tx_id t' = tid ->
        In (set_tx_status completed t') (transactions d')) /\
     (forall t', In t' (transactions d') -> tx_id t' = tid -> tx_status t' = completed) /\
     (ledger_grows d1 d2 ->
      forall t', In t' (transactions d1) -> tx_id t' = tid ->
        In (set_tx_status completed t') (transactions d'))) /\
  (forall svc user now investAmount fund d o d',
     (10 <= investAmount)%Q -> (investAmount <= 50000)%Q -> (investAmount <= fund)%Q ->
     svc (mkReferralTransaction user investAmount investment_event
            (Some InvestPage.plan_name))
         (InvestPage.invested user now investAmount fund d) = (o, d') ->
     InvestPage.handleInvest svc user now true (Some investAmount) (Some fund) d =
       (Ret (InvestPage.success_shown investAmount InvestPage.plan_name), d') /\
     In (InvestPage.new_plan user now investAmount d)
        (investment_plans (InvestPage.invested user now investAmount fund d)) /\
     (ledger_grows (InvestPage.invested user now investAmount fund d) d' ->
      In (InvestPage.new_plan user now investAmount d) (investment_plans d'))) /\
  (forall tx d, ledger_grows d (snd (processReferralCommissions tx d))).
Proof.
  split; [|split].
  - intros rpc svc request tid d t d1 o d2 Htid Happrove Ht Hrpc Hsvc d'.
    assert (Hmark : forall t', In t' (transactions d2) -> tx_id t' = tid ->
                      In (set_tx_status completed t') (transactions d')).
    { intros t' Hin Hid. subst d'. cbn [transactions set_transactions].
      unfold update_rows. apply in_map_iff. exists t'.
      rewrite Hid, String.eqb_refl. now split. }
    split; [|split; [exact Hmark|split]].
    + unfold PUT, try_catch, bind, select_single, ret.
      rewrite Htid, Happrove. cbv beta. rewrite Ht. cbv beta zeta.
      rewrite Hrpc. cbv beta. rewrite Hsvc.
      destruct o; reflexivity.
    + intros t' Hin Hid. subst d'. cbn [transactions set_transactions] in Hin.
      unfold update_rows in Hin. apply in_map_iff in Hin.
      destruct Hin as (t0 & Ht0 & _).
      destruct (String.eqb (tx_id t0) tid) eqn:E; [now subst t'|].
      subst t'. apply String.eqb_neq in E. contradiction.
    + intros [(new & Hnew) _] t' Hin Hid. apply Hmark; [|exact Hid].
      rewrite Hnew. apply in_or_app. now left.
  - intros svc user now investAmount fund d o d' Hmin Hmax Hfund Hsvc.
    split.
    + apply Qle_bool_iff in Hmin. apply Qle_bool_iff in Hmax. apply Qle_bool_iff in Hfund.
      unfold InvestPage.handleInvest, InvestPage.handleInvest_with,
        InvestPage.minAmount, InvestPage.maxAmount.
      rewrite Hmin, Hmax, Hfund. cbn [negb orb].
      unfold try_catch, bind, insert_with_id, update, ret. cbv beta zeta.
      unfold InvestPage.invested, InvestPage.new_plan in Hsvc.
      cbv beta zeta in Hsvc. rewrite Hsvc.
      destruct o; reflexivity.
    + assert (Hplan : In (InvestPage.new_plan user now investAmount d)
                        (investment_plans (InvestPage.invested user now investAmount fund d))).
      { unfold InvestPage.invested. cbn. apply in_or_app. right. now left. }
      split; [exact Hplan|]. intros [_ Hplans]. now rewrite Hplans.
  - intros tx d. apply processReferralCommissions_ledger.
Qed.

(** A witness of C6: on the sample store the referral service throws, the
    deposit is approved and marked completed all the same. *)
Lemma commission_failure_does_not_block_witness :
  fst (processReferralCommissions
         (mkReferralTransaction "dave" 100 deposit_event (Some "deposit")) Samples.clash)
  = Throw "Failed to get referrer data: PGRST116" /\
  exists d',
    PUT Samples.deposit_procedure_ok processReferralCommissions
      (mkApprovalBody (Some "tx-9") (Some true)) Samples.clash =
    (Ret (ok (message_json "Deposit approved and processed successfully")), d') /\
    forall t', In t' (transactions d') -> tx_id t' = "tx-9" -> tx_status t' = completed.
Proof.
  split; [reflexivity|].
  destruct commission_failure_does_not_block as (Hput & _ & _).
  destruct (Hput Samples.deposit_procedure_ok processReferralCommissions
              (mkApprovalBody (Some "tx-9") (Some true)) "tx-9" Samples.clash
              (mkTransaction "tx-9" "dave" deposit 100 None None pending (Some "0xd") None)
              Samples.clash (Throw "Failed to get referrer data: PGRST116") Samples.clash
              eq_refl eq_refl eq_refl eq_refl eq_refl) as (Hrun & _ & Hdone & _).
  eexists. split; [exact Hrun|exact Hdone].
Defined.

(* ------------------------------------------------------------------ *)
(** ** The quoted figures in binary64 *)
(* ------------------------------------------------------------------ *)

(** 1000 at 3% a day is 30 in floating point as well. *)
Lemma binary64_daily_profit : Binary64.profitAmount 1000 3 = 30%float.
Proof. vm_compute. reflexivity. Qed.

(** A transaction of 100 pays 10, 5, 3, 2, 1 and 0.5 in floating point as
    well. *)
Lemma binary64_commissions :
  map (Binary64.usdtCommission 100) [10; 5; 3; 2; 1; 0.5]%float =
  [10; 5; 3; 2; 1; 0.5]%float.
Proof. vm_compute. reflexivity. Qed.

(** 50 coins cost 5, which a fund wallet of 5 pays to the last cent. *)
Lemma binary64_ton_cost :
  Binary64.totalCost 50 = 5%float /\ (5 - Binary64.totalCost 50 = 0)%float.
Proof. split; vm_compute; reflexivity. Qed.

(* ================================================================== *)
(** * Further properties of the code *)
(* ================================================================== *)

(* ------------------------------------------------------------------ *)
(** ** The three walks of the sponsor chain *)
(* ------------------------------------------------------------------ *)

Import ReferralChains.

Lemma find_hd_filter {A} (f : A -> bool) (l : list A) :
  find f l = hd_error (filter f l).
Proof.
  induction l as [|a l IH]; simpl; [reflexivity|].
  destruct (f a); [reflexivity|exact IH].
Qed.

Lemma filter_rev_eq {A} (f : A -> bool) (l : list A) :
  filter f (rev l) = rev (filter f l).
Proof.
  induction l as [|a l IH]; simpl; [reflexivity|].
  rewrite filter_app, IH. simpl. destruct (f a); simpl; [reflexivity|].
  now rewrite app_nil_r.
Qed.

(** When at most one row has the key, the Map lookup and [.single()] find
    the same row, or both find none. *)
Lemma js_map_get_single {A} (f : A -> bool) (l : list A) :
  (List.length (filter f l) <= 1)%nat ->
  js_map_get f l = match single (filter f l) with
                   | Data x => Some x
                   | Error _ => None
                   end.
Proof.
  intros Hlen. unfold js_map_get. rewrite find_hd_filter, filter_rev_eq.
  destruct (filter f l) as [|x [|y r]]; simpl in *; [reflexivity|reflexivity|lia].
Qed.

Lemma filter_id_length (ps : list Profile) (uid : uuid) :
  NoDup (map id ps) ->
  (List.length (filter (fun p => String.eqb (id p) uid) ps) <= 1)%nat.
Proof.
  intros Hnd.
  destruct (filter_nil_or_In (fun p => String.eqb (id p) uid) ps) as [->|(x & Hx & Hfx)];
    [simpl; lia|].
  apply String.eqb_eq in Hfx. subst uid.
  rewrite (filter_key_unique id ps x Hnd Hx). simpl. lia.
Qed.

Lemma filter_code_length (ps : list Profile) (code : string) :
  NoDup (codes ps) ->
  (List.length (filter (fun p => text_is code (referral_code p)) ps) <= 1)%nat.
Proof.
  induction ps as [|p ps IH]; intros Hnd; simpl.
  - lia.
  - unfold codes in Hnd. simpl in Hnd. fold (codes ps) in Hnd.
    destruct (referral_code p) as [c|] eqn:Hc; simpl in *.
    + inversion Hnd as [|? ? Hnotin Hnd']; subst.
      destruct (String.eqb c code) eqn:Heq; simpl; [|now apply IH].
      apply String.eqb_eq in Heq. subst c.
      destruct (filter _ ps) as [|x xs] eqn:Hf; simpl; [lia|].
      exfalso. apply Hnotin.
      assert (Hx : In x (filter (fun p => text_is code (referral_code p)) ps))
        by (rewrite Hf; now left).
      apply filter_In in Hx. destruct Hx as [Hx Hm].
      unfold codes. apply in_flat_map. exists x. split; [exact Hx|].
      destruct (referral_code x) as [c|]; simpl in *; [|discriminate].
      apply String.eqb_eq in Hm. now left.
    + now apply IH.
Qed.

Lemma iterative_loop_upline (ps : list Profile) (n : nat) :
  NoDup (map id ps) -> NoDup (codes ps) ->
  forall (lvl : nat) (uid : uuid) (chain : list (Profile * nat)),
  iterative_loop n lvl ps uid chain = chain ++ with_levels lvl (upline ps n uid).
Proof.
  intros Hids Hcodes. unfold with_levels.
  induction n as [|n IH]; intros lvl uid chain; simpl.
  - now rewrite app_nil_r.
  - rewrite (js_map_get_single _ ps (filter_id_length ps uid Hids)).
    destruct (single (filter (fun p => String.eqb (id p) uid) ps)) as [me|msg];
      [|now rewrite app_nil_r].
    destruct (truthy (sponsor_id me)) as [sponsor|]; [|now rewrite app_nil_r].
    rewrite (js_map_get_single _ ps (filter_code_length ps sponsor Hcodes)).
    destruct (single (filter (fun p => text_is sponsor (referral_code p)) ps))
      as [referrer|msg]; [|now rewrite app_nil_r].
    rewrite IH. simpl. now rewrite <- app_assoc.
Qed.

Lemma filter_all {A} (l : list A) : filter (fun _ => true) l = l.
Proof. induction l as [|a l IH]; simpl; [reflexivity|now rewrite IH]. Qed.

(** X1. With unique profile ids and unique referral codes, the
    batch-prefetch walk [getReferralChainIterative] finds exactly the chain
    of the per-level walk [getReferralChain]: the same referrers at the same
    levels, at most six, and neither writes. *)
Theorem iterative_walk_agrees (userId : uuid) (d : DB) :
  NoDup (map id (profiles d)) ->
  NoDup (codes (profiles d)) ->
  getReferralChainIterative userId d = getReferralChain userId d /\
  exists chain,
    getReferralChainIterative userId d = (Ret chain, d) /\
    (List.length chain <= 6)%nat.
Proof.
  intros Hids Hcodes.
  assert (Hrun : getReferralChainIterative userId d =
                 (Ret (with_levels 1 (upline (profiles d) 6 userId)), d)).
  { unfold getReferralChainIterative, bind, select, ret. rewrite filter_all.
    now rewrite (iterative_loop_upline (profiles d) 6 Hids Hcodes). }
  split.
  - now rewrite Hrun, getReferralChain_upline.
  - eexists. split; [exact Hrun|].
    unfold with_levels. rewrite length_combine, length_seq, Nat.min_id.
    apply upline_length.
Qed.

Lemma trio_ids : NoDup (map id (profiles MoreSamples.trio)).
Proof. simpl. repeat (constructor; [simpl; intuition discriminate|]). constructor. Qed.

Lemma trio_codes : NoDup (codes (profiles MoreSamples.trio)).
Proof. simpl. repeat (constructor; [simpl; intuition discriminate|]). constructor. Qed.

Lemma iterative_walk_agrees_witness :
  getReferralChainIterative "u0" MoreSamples.trio = getReferralChain "u0" MoreSamples.trio /\
  fst (getReferralChainIterative "u0" MoreSamples.trio) =
    Ret [(Samples.member "u1" "c1" (Some "c2"), 1%nat); (Samples.member "u2" "c2" None, 2%nat)].
Proof.
  destruct (iterative_walk_agrees "u0" MoreSamples.trio trio_ids trio_codes) as [Heq _].
  split; [exact Heq|reflexivity].
Defined.

(** One iteration of the CTE from a single row follows [upline]. *)
Lemma referral_chain_upline (ps : list Profile) (n : nat) :
  NoDup (map id ps) -> NoDup (codes ps) -> ~ In "" (codes ps) ->
  forall (me : Profile) (lvl : nat),
  In me ps ->
  referral_chain n ps [me] lvl = with_levels (S lvl) (upline ps n (id me)).
Proof.
  intros Hids Hcodes Hempty. unfold with_levels.
  induction n as [|n IH]; intros me lvl Hme; simpl.
  - reflexivity.
  - rewrite (filter_key_unique id ps me Hids Hme). cbn [single].
    rewrite app_nil_r.
    destruct (sponsor_id me) as [sponsor|]; [|reflexivity].
    pose proof (filter_code_length ps sponsor Hcodes) as Hlen.
    destruct sponsor as [|c s].
    + (* an empty sponsor id matches no referral code *)
      cbn [truthy].
      destruct (filter (fun p => text_is "" (referral_code p)) ps) as [|x xs] eqn:Hf;
        [reflexivity|].
      exfalso. apply Hempty.
      assert (Hx : In x (filter (fun p => text_is "" (referral_code p)) ps))
        by (rewrite Hf; now left).
      apply filter_In in Hx. destruct Hx as [Hx Hm].
      unfold codes. apply in_flat_map. exists x. split; [exact Hx|].
      destruct (referral_code x) as [c|]; simpl in *; [|discriminate].
      apply String.eqb_eq in Hm. now left.
    + cbn [truthy].
      destruct (filter (fun p => text_is (String c s) (referral_code p)) ps)
        as [|r [|r' rest]] eqn:Hf; simpl in Hlen; [reflexivity| |lia].
      cbn [single map app]. 
      assert (Hr : In r ps).
      { assert (Hx : In r (filter (fun p => text_is (String c s) (referral_code p)) ps))
          by (rewrite Hf; now left).
        apply filter_In in Hx. tauto. }
      rewrite (IH r (S lvl) Hr). reflexivity.
Qed.

(** X2. With unique profile ids, unique referral codes and no empty
    referral code, the stored procedure [get_referral_chain_recursive] with
    six levels, and hence [getReferralChainOptimized], return exactly the
    chain of [getReferralChain]. *)
Theorem recursive_query_agrees (userId : uuid) (d : DB) :
  NoDup (map id (profiles d)) ->
  NoDup (codes (profiles d)) ->
  ~ In "" (codes (profiles d)) ->
  getReferralChain userId d = (Ret (get_referral_chain_recursive userId 6 d), d) /\
  getReferralChainOptimized userId d = getReferralChain userId d.
Proof.
  intros Hids Hcodes Hempty.
  assert (Hsql : get_referral_chain_recursive userId 6 d =
                 with_levels 1 (upline (profiles d) 6 userId)).
  { unfold get_referral_chain_recursive. change (Z.to_nat 6) with 6%nat.
    destruct (filter_nil_or_In (fun p => String.eqb (id p) userId) (profiles d))
      as [Hnil|(me & Hme & Hid)].
    - rewrite Hnil. simpl. rewrite Hnil. reflexivity.
    - apply String.eqb_eq in Hid. subst userId.
      rewrite (filter_key_unique id (profiles d) me Hids Hme).
      now apply referral_chain_upline. }
  split.
  - now rewrite getReferralChain_upline, Hsql.
  - unfold getReferralChainOptimized, try_catch, bind, rpc_get_referral_chain_recursive, ret.
    now rewrite Hsql, getReferralChain_upline.
Qed.

Lemma trio_no_empty_code : ~ In "" (codes (profiles MoreSamples.trio)).
Proof. simpl. intuition discriminate. Qed.

Lemma recursive_query_agrees_witness :
  getReferralChainOptimized "u0" MoreSamples.trio = getReferralChain "u0" MoreSamples.trio /\
  map (fun e => (id (fst e), snd e)) (get_referral_chain_recursive "u0" 6 MoreSamples.trio)
  = [("u1", 1%nat); ("u2", 2%nat)].
Proof.
  destruct (recursive_query_agrees "u0" MoreSamples.trio trio_ids trio_codes
              trio_no_empty_code) as [_ Heq].
  split; [exact Heq|reflexivity].
Defined.

(* ------------------------------------------------------------------ *)
(** ** Referral counts *)
(* ------------------------------------------------------------------ *)

Lemma count_levels_at_least (levels : nat) :
  forall (code : string) (d : DB),
  exists k,
    OptimizedReferralService.count_levels levels code d = (Ret k, d) /\
    (levels <> 0 ->
     List.length (filter (fun p => text_is code (sponsor_id p)) (profiles d)) <= k)%nat.
Proof.
  induction levels as [|levels IH]; intros code d.
  - exists 0%nat. split; [reflexivity|]. intros H. now elim H.
  - cbn [OptimizedReferralService.count_levels]. unfold bind, select.
    set (direct := filter (fun p => text_is code (sponsor_id p)) (profiles d)).
    assert (Hloop : forall (l : list Profile) (acc : nat),
      exists k,
        for_of l
          (fun referral totalCount =>
             match truthy (referral_code referral) with
             | Some c =>
                 bind (OptimizedReferralService.count_levels levels c)
                      (fun n => ret (totalCount + n)%nat)
             | None => ret totalCount
             end) acc d = (Ret k, d) /\ (acc <= k)%nat).
    { induction l as [|r l IHl]; intros acc.
      - exists acc. split; [reflexivity|lia].
      - cbn [for_of]. unfold bind at 1.
        destruct (truthy (referral_code r)) as [c|].
        + destruct (IH c d) as (n & Hn & _). unfold bind at 1. rewrite Hn.
          cbn [ret]. destruct (IHl (acc + n)%nat) as (k & Hk & Hle).
          exists k. split; [exact Hk|lia].
        + cbn [ret]. destruct (IHl acc) as (k & Hk & Hle).
          exists k. split; [exact Hk|lia]. }
    destruct direct as [|r rest] eqn:Hd.
    + exists 0%nat. split; [reflexivity|]. simpl. lia.
    + destruct (Hloop (r :: rest) (List.length (r :: rest))) as (k & Hk & Hle).
      exists k. split; [exact Hk|]. intros _. exact Hle.
Qed.

(** X3. For every user and store, the optimized statistics and the direct
    count both return without writing, and the recursive total of
    [getReferralStats] is never below the direct count of
    [getDirectReferralsCount]. *)
Theorem recursive_total_covers_direct (userId : uuid) (d : DB) :
  exists stats direct,
    OptimizedReferralService.getReferralStats userId d = (Ret stats, d) /\
    OptimizedReferralService.getDirectReferralsCount userId d = (Ret direct, d) /\
    (direct <= totalReferrals stats)%nat.
Proof.
  unfold OptimizedReferralService.getReferralStats,
    OptimizedReferralService.getDirectReferralsCount,
    OptimizedReferralService.countAllReferralsRecursive,
    try_catch, bind, select_single, select, ret.
  destruct (single (filter (fun p => String.eqb (id p) userId) (profiles d))) as [me|msg].
  - destruct (truthy (referral_code me)) as [code|].
    + destruct (count_levels_at_least 6 code d) as (k & Hk & Hle).
      change (6 - 0)%nat with 6%nat. rewrite Hk.
      eexists _, _. split; [reflexivity|]. split; [reflexivity|].
      cbn [totalReferrals]. apply Hle. discriminate.
    + eexists _, _. split; [reflexivity|]. split; [reflexivity|]. simpl. lia.
  - eexists _, _. split; [reflexivity|]. split; [reflexivity|]. simpl. lia.
Qed.

(** X4. With unique profile ids and no empty referral code, the stored
    procedure [get_direct_referrals_count] and the service method
    [getDirectReferralsCount] return the same count. *)
Theorem direct_counts_agree (userId : uuid) (d : DB) :
  NoDup (map id (profiles d)) ->
  ~ In "" (codes (profiles d)) ->
  OptimizedReferralService.getDirectReferralsCount userId d =
  (Ret (get_direct_referrals_count userId d), d).
Proof.
  intros Hids Hempty.
  unfold OptimizedReferralService.getDirectReferralsCount, get_direct_referrals_count,
    try_catch, bind, select_single, select, ret.
  rewrite find_hd_filter.
  pose proof (filter_id_length (profiles d) userId Hids) as Hlen.
  destruct (filter (fun p => String.eqb (id p) userId) (profiles d)) as [|me [|x r]] eqn:Hf;
    simpl in Hlen; [reflexivity| |lia].
  cbn [single hd_error].
  destruct (referral_code me) as [[|c s]|] eqn:Hcode; cbn [truthy]; try reflexivity.
  exfalso. apply Hempty. unfold codes. apply in_flat_map. exists me.
  assert (Hx : In me (filter (fun p => String.eqb (id p) userId) (profiles d)))
    by (rewrite Hf; now left).
  apply filter_In in Hx. split; [tauto|]. rewrite Hcode. now left.
Qed.

Lemma direct_counts_agree_witness :
  OptimizedReferralService.getDirectReferralsCount "u1" MoreSamples.trio =
  (Ret (get_direct_referrals_count "u1" MoreSamples.trio), MoreSamples.trio) /\
  get_direct_referrals_count "u1" MoreSamples.trio = 1%nat.
Proof.
  split; [|reflexivity].
  apply (direct_counts_agree "u1" MoreSamples.trio trio_ids trio_no_empty_code).
Defined.

(* ------------------------------------------------------------------ *)
(** ** Referral statistics *)
(* ------------------------------------------------------------------ *)

Lemma reads_ret {A} (a : A) : reads (ret a).
Proof. intros d. now exists a. Qed.

Lemma reads_bind {A B} (m : M A) (k : A -> M B) :
  reads m -> (forall a, reads (k a)) -> reads (bind m k).
Proof.
  intros Hm Hk d. unfold bind. destruct (Hm d) as (a & ->). apply Hk.
Qed.

Lemma reads_select {A} (table : DB -> list A) (cond : A -> bool) :
  reads (select table cond).
Proof. intros d. eexists. reflexivity. Qed.

Lemma reads_select_single {A} (table : DB -> list A) (cond : A -> bool) :
  reads (select_single table cond).
Proof. intros d. eexists. reflexivity. Qed.

Lemma reads_for_of {A S} (body : A -> S -> M S) (xs : list A) :
  (forall x s, reads (body x s)) -> forall s, reads (for_of xs body s).
Proof.
  intros Hbody. induction xs as [|x xs IH]; intros s; simpl.
  - apply reads_ret.
  - apply reads_bind; [apply Hbody|exact IH].
Qed.

Lemma reads_getReferralChain (userId : uuid) : reads (getReferralChain userId).
Proof. intros d. rewrite getReferralChain_upline. eexists. reflexivity. Qed.

Lemma reads_getDirectReferrals (userId : uuid) : reads (getDirectReferrals userId).
Proof.
  unfold getDirectReferrals.
  apply reads_bind; [apply reads_select_single|].
  intros [me|msg]; [|apply reads_ret].
  destruct (truthy (referral_code me)); [|apply reads_ret].
  apply reads_bind; [apply reads_select|].
  intros [rows|msg]; apply reads_ret.
Qed.

Lemma reads_countReferralsAtLevel (userId : uuid) (targetLevel : nat) :
  reads (countReferralsAtLevel userId targetLevel).
Proof.
  unfold countReferralsAtLevel.
  destruct (Nat.eqb targetLevel 1).
  - apply reads_bind; [apply reads_getDirectReferrals|]. intros; apply reads_ret.
  - apply reads_bind; [apply reads_select_single|].
    intros [me|msg]; [|apply reads_ret].
    destruct (truthy (referral_code me)); [|apply reads_ret].
    apply reads_bind; [apply reads_getDirectReferrals|]. intros direct.
    destruct (Nat.eqb targetLevel 2).
    + apply reads_for_of. intros referral acc.
      apply reads_bind; [apply reads_getDirectReferrals|]. intros; apply reads_ret.
    + apply reads_bind; [apply reads_select|].
      intros [rows|msg]; apply reads_ret.
Qed.

Lemma levelStats_loop (userId : uuid) (commissions : list ReferralCommission)
    (directReferrals : list Profile) (rates : list ReferralCommissionRates) :
  forall (stats : list LevelStat) (d : DB),
  exists stats',
    for_of rates
      (fun rate stats =>
         bind (if Nat.eqb (rate_level rate) 1 then ret (List.length directReferrals)
               else countReferralsAtLevel userId (rate_level rate))
              (fun referralCount =>
                 ret (stats ++
                        [mkLevelStat (rate_level rate) referralCount
                           (sum_commissions
                              (filter (fun c => Nat.eqb (level c) (rate_level rate))
                                 commissions))
                           (usdtRate rate)])))
      stats d = (Ret stats', d) /\
    map (fun s => (stat_level s, usdtEarned s)) stats' =
      map (fun s => (stat_level s, usdtEarned s)) stats ++
      map (fun rate =>
             (rate_level rate,
              sum_commissions
                (filter (fun c => Nat.eqb (level c) (rate_level rate)) commissions)))
          rates.
Proof.
  induction rates as [|rate rates IH]; intros stats d.
  - exists stats. split; [reflexivity|]. cbn [map]. now rewrite app_nil_r.
  - cbn [for_of]. unfold bind at 1.
    assert (Hcount : exists n,
      (if Nat.eqb (rate_level rate) 1 then ret (List.length directReferrals)
       else countReferralsAtLevel userId (rate_level rate)) d = (Ret n, d)).
    { destruct (Nat.eqb (rate_level rate) 1); [eexists; reflexivity|].
      apply reads_countReferralsAtLevel. }
    destruct Hcount as (n & Hn). unfold bind at 1. rewrite Hn. cbn [ret].
    destruct (IH (stats ++
                    [mkLevelStat (rate_level rate) n
                       (sum_commissions
                          (filter (fun c => Nat.eqb (level c) (rate_level rate))
                             commissions))
                       (usdtRate rate)]) d) as (stats' & Hrun & Hmap).
    exists stats'. split; [exact Hrun|].
    rewrite Hmap, map_app. cbn [map stat_level usdtEarned app].
    now rewrite <- app_assoc.
Qed.

(** X5. Both [getReferralStats] return without writing, with one entry
    for each of the levels 1 to 6.  The statistics of the referral service
    carry, as total, the user's commission amounts added up as numbers in
    row order and, for each level, the amounts of that level added up in row
    order; the optimized service reports the same total and the same
    per-level amounts for a user with a single profile row and a referral
    code. *)
Theorem referral_statistics_sum_in_row_order (userId : uuid) (d : DB) :
  let mine :=
    filter (fun c => String.eqb (referrer_id c) userId) (referral_commissions d) in
  let by_level :=
    map (fun rate =>
           (rate_level rate,
            sum_commissions (filter (fun c => Nat.eqb (level c) (rate_level rate)) mine)))
        commissionRates in
  (exists stats,
     ReferralService.getReferralStats userId d = (Ret stats, d) /\
     totalUsdtEarned stats = or_zero (sum_commissions mine) /\
     map stat_level (levelStats stats) = [1; 2; 3; 4; 5; 6]%nat /\
     map (fun s => (stat_level s, usdtEarned s)) (levelStats stats) = by_level) /\
  (exists stats,
     OptimizedReferralService.getReferralStats userId d = (Ret stats, d) /\
     map stat_level (levelStats stats) = [1; 2; 3; 4; 5; 6]%nat /\
     (forall me code,
        single (filter (fun p => String.eqb (id p) userId) (profiles d)) = Data me ->
        truthy (referral_code me) = Some code ->
        totalUsdtEarned stats = or_zero (sum_commissions mine) /\
        map (fun s => (stat_level s, usdtEarned s)) (levelStats stats) = by_level)).
Proof.
  intros mine by_level.
  split.
  - unfold ReferralService.getReferralStats, try_catch, bind at 1, select. fold mine.
    unfold bind at 1. destruct (reads_getReferralChain userId d) as (chain & ->).
    unfold bind at 1. destruct (reads_getDirectReferrals userId d) as (direct & ->).
    unfold bind at 1.
    destruct (levelStats_loop userId mine direct commissionRates [] d)
      as (stats' & -> & Hmap).
    eexists. split; [reflexivity|]. cbn [levelStats totalUsdtEarned].
    split; [reflexivity|]. cbn [map app] in Hmap. split; [|exact Hmap].
    apply (f_equal (map fst)) in Hmap. rewrite map_map in Hmap.
    cbn [fst map commissionRates rate_level] in Hmap. exact Hmap.
  - unfold OptimizedReferralService.getReferralStats,
      OptimizedReferralService.countAllReferralsRecursive,
      try_catch, bind, select_single, select, ret. fold mine.
    destruct (single (filter (fun p => String.eqb (id p) userId) (profiles d))) as [me|msg].
    + destruct (truthy (referral_code me)) as [code|] eqn:Hcode.
      * destruct (count_levels_at_least (6 - 0) code d) as (k & -> & _).
        eexists. split; [reflexivity|]. cbn [levelStats totalUsdtEarned].
        split; [reflexivity|]. intros me' code' _ _. split; [reflexivity|].
        unfold by_level. cbn [commissionRates map stat_level usdtEarned rate_level].
        reflexivity.
      * eexists. split; [reflexivity|]. split; [reflexivity|].
        intros me' code' [= <-] Hcode'. congruence.
    + eexists. split; [reflexivity|]. split; [reflexivity|].
      intros me' code' Hme. discriminate.
Qed.

(** The total and the per-level amounts are sums of doubles: three
    commissions of 0.1, 0.2 and 0.3 at levels 1, 2 and 3 give a total of
    0.6000000000000001, and per-level amounts 0.1, 0.2 and 0.3. *)
Remark level_earnings_need_not_add_up :
  exists stats,
    ReferralService.getReferralStats "u1" MoreSamples.dimes = (Ret stats, MoreSamples.dimes) /\
    (totalUsdtEarned stats == 0.6000000000000001)%Q /\
    Forall2 Qeq (map usdtEarned (levelStats stats)) [0.1; 0.2; 0.3; 0; 0; 0]%Q /\
    ~ (totalUsdtEarned stats == 0.1 + 0.2 + 0.3)%Q.
Proof.
  eexists. split; [vm_compute; reflexivity|].
  split; [vm_compute; reflexivity|].
  split; [vm_compute; repeat (constructor; [reflexivity|]); constructor|].
  vm_compute. discriminate.
Qed.

(* ------------------------------------------------------------------ *)
(** ** What a commission run touches *)
(* ------------------------------------------------------------------ *)

Lemma commission_frame_refl (ids : list uuid) (d : DB) : commission_frame ids d d.
Proof.
  repeat split.
  induction (profiles d) as [|p l IH]; constructor; [now split|exact IH].
Qed.

Lemma Forall2_compose {A} (R : A -> A -> Prop) :
  (forall a b c, R a b -> R b c -> R a c) ->
  forall l1 l2 l3, Forall2 R l1 l2 -> Forall2 R l2 l3 -> Forall2 R l1 l3.
Proof.
  intros Htrans l1 l2 l3 H12. revert l3.
  induction H12 as [|a b l1 l2 Hab H12 IH]; intros l3 H23; inversion H23; subst.
  - constructor.
  - constructor; [eapply Htrans; eassumption|now apply IH].
Qed.

Lemma commission_frame_trans (ids : list uuid) (a b c : DB) :
  commission_frame ids a b -> commission_frame ids b c -> commission_frame ids a c.
Proof.
  intros (H1 & H2 & H3 & H4 & H5) (K1 & K2 & K3 & K4 & K5).
  split; [|repeat split; congruence].
  eapply Forall2_compose; [|exact H1|exact K1].
  intros p q r [Hpq Hpq'] [Hqr Hqr']. split; [congruence|].
  intros Hnotin. assert (Hq : q = p) by now apply Hpq'. subst q. now apply Hqr'.
Qed.

Lemma Forall2_update_rows {A} (R : A -> A -> Prop) (cond : A -> bool) (f : A -> A)
    (l : list A) :
  (forall a, R a a) -> (forall a, cond a = true -> R a (f a)) ->
  Forall2 R l (update_rows cond f l).
Proof.
  intros Hrefl Hf. induction l as [|a l IH]; simpl; constructor; [|exact IH].
  destruct (cond a) eqn:Hc; [now apply Hf|apply Hrefl].
Qed.

Lemma payCommission_frame (ids : list uuid) (rid uid : uuid) (amt : Q)
    (rates : ReferralCommissionRates) :
  In rid ids -> keeps (commission_frame ids) (payCommission rid uid amt rates).
Proof.
  intros Hin.
  pose proof (commission_frame_refl ids) as Hr.
  pose proof (commission_frame_trans ids) as Ht.
  unfold payCommission.
  apply (keeps_try_catch _ Ht); [|intros; apply (keeps_throw _ Hr)].
  apply (keeps_bind _ Ht); [apply (keeps_select_single _ Hr)|].
  intros [referrer|msg]; [|apply (keeps_throw _ Hr)].
  apply (keeps_bind _ Ht).
  { intros d. repeat split. cbn [snd update profiles set_profiles].
    apply Forall2_update_rows; [now split|].
    intros p Hp. apply String.eqb_eq in Hp. split; [reflexivity|].
    intros Hnotin. exfalso. apply Hnotin. now rewrite Hp. }
  intros [[]|msg]; [|apply (keeps_throw _ Hr)].
  apply (keeps_bind _ Ht).
  - unfold createCommissionTransaction.
    apply (keeps_bind _ Ht).
    + intros d. destruct (Hr d) as (H1 & _). repeat split. exact H1.
    + intros [t|msg]; [apply (keeps_ret _ Hr)|apply (keeps_throw _ Hr)].
  - intros _. unfold createReferralCommissionRecord.
    apply (keeps_try_catch _ Ht); [|intros; apply (keeps_throw _ Hr)].
    apply (keeps_bind _ Ht).
    + intros d. destruct (Hr d) as (H1 & _). repeat split. exact H1.
    + intros [[]|msg]; [apply (keeps_ret _ Hr)|apply (keeps_throw _ Hr)].
Qed.

(** The loop of [processReferralCommissions] over referrers whose ids are
    among [ids]. *)
Lemma pay_loop_frame (ids : list uuid) (tx : ReferralTransaction)
    (l : list (Profile * nat * ReferralCommissionRates)) :
  (forall e, In e l -> In (id (fst (fst e))) ids) ->
  keeps (commission_frame ids)
    (for_of l (fun '(referrer, rates) _ =>
                 payCommission (id (fst referrer)) (userId tx) (amount tx) rates) tt).
Proof.
  pose proof (commission_frame_refl ids) as Hr.
  pose proof (commission_frame_trans ids) as Ht.
  induction l as [|[[a lv] r] l IH]; intros Hl.
  - apply (keeps_ret _ Hr).
  - cbn [for_of]. apply (keeps_bind _ Ht).
    + apply payCommission_frame. apply (Hl (a, lv, r)). now left.
    + intros []. apply IH. intros e He. apply Hl. now right.
Qed.

(** X6. Whether it returns or throws, [processReferralCommissions] changes
    of the profiles only main wallet balances, and only of users in the
    transacting user's six-level upline: every fund wallet, token balance,
    referral code, sponsor and admin flag, every profile outside the upline,
    and every plan, distribution row and request are as before. *)
Theorem commissions_touch_upline_wallets_only (tx : ReferralTransaction) (d : DB) :
  commission_frame (map id (upline (profiles d) 6 (userId tx))) d
    (snd (processReferralCommissions tx d)).
Proof.
  set (ids := map id (upline (profiles d) 6 (userId tx))).
  unfold processReferralCommissions, try_catch, bind.
  rewrite getReferralChain_upline.
  destruct (with_levels 1 (upline (profiles d) 6 (userId tx))) as [|x xs] eqn:Hchain;
    [apply commission_frame_refl|].
  rewrite <- Hchain.
  assert (Hin : forall e,
    In e (combine (with_levels 1 (upline (profiles d) 6 (userId tx))) commissionRates) ->
    In (id (fst (fst e))) ids).
  { intros [[a lv] r] He. simpl. apply in_map.
    unfold with_levels in He. apply in_combine_l in He. now apply in_combine_l in He. }
  pose proof (pay_loop_frame ids tx _ Hin d) as Hloop.
  destruct (for_of _ _ tt d) as [[[]|e] d']; exact Hloop.
Qed.


Lemma processReferralCommissions_pays (tx : ReferralTransaction) (d : DB) :
  NoDup (map id (profiles d)) ->
  processReferralCommissions tx d =
  (Ret tt,
   pay_all (userId tx) (amount tx)
     (combine (with_levels 1 (upline (profiles d) 6 (userId tx))) commissionRates) d).
Proof.
  intros Hnd.
  set (U := upline (profiles d) 6 (userId tx)).
  assert (Hin : forall x, In x (combine (with_levels 1 U) commissionRates) ->
                          In (id (fst (fst x))) (map id (profiles d))).
  { intros [[a lv] r] Hin. simpl. apply in_map.
    unfold with_levels in Hin. apply in_combine_l in Hin. apply in_combine_l in Hin.
    exact (upline_In _ _ _ _ Hin). }
  pose proof (pay_loop_run (userId tx) (amount tx) _ d Hnd Hin) as Hloop.
  unfold processReferralCommissions, try_catch, bind.
  rewrite getReferralChain_upline. fold U.
  clear Hin. clearbody U.
  destruct U as [|a U'].
  - reflexivity.
  - cbv zeta. unfold with_levels in *. cbn [List.length seq combine] in *.
    rewrite Hloop. reflexivity.
Qed.

Lemma pay_all_ledger (uid : uuid) (amt : Q)
    (l : list (Profile * nat * ReferralCommissionRates)) :
  forall d,
  map ledger_entry (transactions (pay_all uid amt l d)) =
  map ledger_entry (transactions d) ++
  map (fun '(referrer, rates) =>
         (id (fst referrer), referral_bonus, (Number.div (Number.mul amt (usdtRate rates)) 100),
          Some (Number.div (Number.mul amt (usdtRate rates)) 100), completed)) l.
Proof.
  induction l as [|[[a lv] r] l IH]; intros d.
  - simpl. now rewrite app_nil_r.
  - rewrite pay_all_cons, IH. cbn [paid transactions]. rewrite map_app.
    cbn [map ledger_entry tx_user_id tx_type tx_amount tx_net_amount tx_status fst
         app].
    now rewrite <- app_assoc.
Qed.

(** X7. With unique profile ids, [processReferralCommissions] returns
    having appended the commission rows of the schedule and, in the same
    order, one completed referral_bonus ledger row per commission row, to
    the same user and of the same amount, gross and net. *)
Theorem commissions_are_booked (tx : ReferralTransaction) (d : DB) :
  NoDup (map id (profiles d)) ->
  exists d' rows txs,
    processReferralCommissions tx d = (Ret tt, d') /\
    rows = scheduled (amount tx) (userId tx) (upline (profiles d) 6 (userId tx)) /\
    referral_commissions d' = referral_commissions d ++ rows /\
    transactions d' = transactions d ++ txs /\
    map ledger_entry txs =
      map (fun c => (referrer_id c, referral_bonus, commission_amount c,
                     Some (commission_amount c), completed)) rows.
Proof.
  intros Hnd.
  set (U := upline (profiles d) 6 (userId tx)).
  set (l := combine (with_levels 1 U) commissionRates).
  pose proof (processReferralCommissions_pays tx d Hnd) as Hrun. fold U l in Hrun.
  destruct (pay_all_frame (userId tx) (amount tx) l d) as (_ & _ & _ & _ & txs & Htxs).
  exists (pay_all (userId tx) (amount tx) l d), (scheduled (amount tx) (userId tx) U), txs.
  split; [exact Hrun|]. split; [reflexivity|]. split.
  { rewrite pay_all_commissions. unfold l. now rewrite paid_rows_scheduled. }
  split; [exact Htxs|].
  pose proof (pay_all_ledger (userId tx) (amount tx) l d) as Hledger.
  rewrite Htxs, map_app in Hledger. apply app_inv_head in Hledger.
  rewrite Hledger. unfold l. rewrite <- paid_rows_scheduled, map_map.
  apply map_ext. intros [[a lv] r]. cbn [referrer_id commission_amount fst].
  reflexivity.
Qed.

(** A witness of X7: the deposit of 100 by u0 books six ledger rows, of
    10, 5, 3, 2, 1 and 0.5, to u1 ... u6. *)
Lemma commissions_are_booked_witness :
  exists d' txs,
    processReferralCommissions (mkReferralTransaction "u0" 100 deposit_event None)
      Samples.chain = (Ret tt, d') /\
    transactions d' = transactions Samples.chain ++ txs /\
    map ledger_entry txs =
      [ ("u1", referral_bonus, 10%Q, Some 10%Q, completed);
        ("u2", referral_bonus, 5%Q, Some 5%Q, completed);
        ("u3", referral_bonus, 3%Q, Some 3%Q, completed);
        ("u4", referral_bonus, 2%Q, Some 2%Q, completed);
        ("u5", referral_bonus, 1%Q, Some 1%Q, completed);
        ("u6", referral_bonus, (1 # 2)%Q, Some (1 # 2)%Q, completed) ].
Proof.
  destruct (commissions_are_booked
              (mkReferralTransaction "u0" 100 deposit_event None) Samples.chain
              sample_chain_ids) as (d' & rows & txs & Hrun & Hrows & _ & Htxs & Hbook).
  exists d', txs. split; [exact Hrun|]. split; [exact Htxs|].
  rewrite Hbook, Hrows. vm_compute. reflexivity.
Defined.

(* ------------------------------------------------------------------ *)
(** ** The daily schedule after a payout *)
(* ------------------------------------------------------------------ *)

Lemma latest_spec (l : list ProfitDistribution) :
  match latest l with
  | [] => l = []
  | m :: t => t = [] /\ In m l /\
              forall r, In r l -> distribution_date r <= distribution_date m
  end.
Proof.
  induction l as [|r l IH]; simpl; [reflexivity|].
  destruct (latest l) as [|m t].
  - subst l. split; [reflexivity|]. split; [now left|].
    intros x [<-|[]]. lia.
  - destruct IH as (-> & Hm & Hmax).
    destruct (distribution_date m <=? distribution_date r) eqn:Hle.
    + apply Z.leb_le in Hle. split; [reflexivity|]. split; [now left|].
      intros x [<-|Hx]; [lia|]. specialize (Hmax x Hx). lia.
    + apply Z.leb_gt in Hle. split; [reflexivity|]. split; [now right|].
      intros x [<-|Hx]; [lia|]. now apply Hmax.
Qed.

Lemma next_day (s : date) : iso_date (date_start s + 24 * 60 * 60 * 1000) = s + 1.
Proof.
  unfold iso_date, date_start, DAY_MS. change (24 * 60 * 60 * 1000) with 86400000.
  replace (s * 86400000 + 86400000) with ((s + 1) * 86400000) by lia.
  apply Z.div_mul. lia.
Qed.

(** A plan due today has no row of its own dated after yesterday. *)
Lemma due_on_rows_before (rows : list ProfitDistribution) (today : date)
    (pid : uuid) (created : Z) :
  due_on rows today pid created = true ->
  iso_date created + 1 <= today /\
  forall r, In r rows -> pd_plan_id r = pid -> distribution_date r < today.
Proof.
  unfold due_on. rewrite first_distribution_day.
  destruct (today <? iso_date created + 1) eqn:Hfirst; [discriminate|].
  apply Z.ltb_ge in Hfirst.
  destruct (filter (fun r => String.eqb (pd_plan_id r) pid && (distribution_date r =? today))
              rows) as [|e es]; [|discriminate].
  pose proof (latest_spec (filter (fun r => String.eqb (pd_plan_id r) pid) rows)) as Hlatest.
  destruct (latest _) as [|m t]; intros Hdue; (split; [exact Hfirst|]).
  - intros r Hr Hid. exfalso.
    assert (Hin : In r (filter (fun r => String.eqb (pd_plan_id r) pid) rows)).
    { apply filter_In. split; [exact Hr|]. rewrite Hid. apply String.eqb_refl. }
    rewrite Hlatest in Hin. destruct Hin.
  - destruct Hlatest as (_ & _ & Hmax). rewrite next_day in Hdue.
    apply Z.leb_le in Hdue. intros r Hr Hid.
    assert (Hin : In r (filter (fun r => String.eqb (pd_plan_id r) pid) rows)).
    { apply filter_In. split; [exact Hr|]. rewrite Hid. apply String.eqb_refl. }
    specialize (Hmax r Hin). lia.
Qed.

(** X8. A plan paid by a run on day D is, in the store the run leaves,
    due on exactly the days after D, whatever distribution rows it had
    before: no later run pays it again for D or for an earlier day, and a run
    on any later day pays it. *)
Theorem paid_today_due_tomorrow (now : Z) (d : DB) (plan : InvestmentPlan) (day : date) :
  In plan (paid_plans d (iso_date now)) ->
  due (snd (distributeInvestmentProfits now d)) day plan = (iso_date now <? day).
Proof.
  intros Hpaid. set (d' := snd (distributeInvestmentProfits now d)).
  set (today := iso_date now) in *.
  assert (Hdue : due d today plan = true).
  { unfold paid_plans in Hpaid. apply filter_In in Hpaid. tauto. }
  destruct (due_on_rows_before _ _ _ _ Hdue) as [Hfirst Hbefore].
  assert (Hrows : profit_distributions d' =
                  profit_distributions d ++
                  map (distribution_row today) (paid_plans d today)).
  { apply distributions_after_run. }
  assert (Hnews : forall r, In r (map (distribution_row today) (paid_plans d today)) ->
                            distribution_date r = today).
  { intros r Hr. apply in_map_iff in Hr. destruct Hr as (x & <- & _). reflexivity. }
  assert (Hold : forall r, In r (profit_distributions d ++
                                 map (distribution_row today) (paid_plans d today)) ->
                           pd_plan_id r = plan_id plan -> distribution_date r <= today).
  { intros r Hr Hid. apply in_app_or in Hr. destruct Hr as [Hr|Hr].
    - specialize (Hbefore r Hr Hid). lia.
    - rewrite (Hnews r Hr). lia. }
  assert (Hin : In (distribution_row today plan)
                   (filter (fun r => String.eqb (pd_plan_id r) (plan_id plan))
                      (profit_distributions d ++
                       map (distribution_row today) (paid_plans d today)))).
  { apply filter_In. split; [apply in_or_app; right; now apply in_map|].
    simpl. apply String.eqb_refl. }
  unfold due, due_on. rewrite Hrows, first_distribution_day.
  destruct (day <? iso_date (plan_created_at plan) + 1) eqn:E.
  { apply Z.ltb_lt in E. symmetry. apply Z.ltb_ge. lia. }
  destruct (filter (fun r => String.eqb (pd_plan_id r) (plan_id plan)
                             && (distribution_date r =? day)) _) as [|e es] eqn:Hf.
  - pose proof (latest_spec
                  (filter (fun r => String.eqb (pd_plan_id r) (plan_id plan))
                     (profit_distributions d ++
                      map (distribution_row today) (paid_plans d today)))) as Hlatest.
    destruct (latest _) as [|m t].
    + rewrite Hlatest in Hin. destruct Hin.
    + destruct Hlatest as (_ & Hm & Hmax).
      specialize (Hmax _ Hin). simpl in Hmax.
      apply filter_In in Hm. destruct Hm as [Hm Hid]. apply String.eqb_eq in Hid.
      specialize (Hold m Hm Hid). rewrite next_day.
      replace (distribution_date m) with today by lia.
      destruct (today <? day) eqn:L.
      * apply Z.ltb_lt in L. apply Z.leb_le. lia.
      * apply Z.ltb_ge in L. apply Z.leb_gt. lia.
  - assert (He : In e (filter (fun r => String.eqb (pd_plan_id r) (plan_id plan)
                                        && (distribution_date r =? day))
                         (profit_distributions d ++
                          map (distribution_row today) (paid_plans d today))))
      by (rewrite Hf; now left).
    apply filter_In in He. destruct He as [He Hc].
    apply andb_true_iff in Hc. destruct Hc as [Hid Hday].
    apply String.eqb_eq in Hid. apply Z.eqb_eq in Hday.
    specialize (Hold e He Hid). symmetry. apply Z.ltb_ge. lia.
Qed.

Lemma paid_today_due_tomorrow_witness :
  In Samples.alice_plan (paid_plans Samples.one_plan (iso_date Samples.after_midnight)) /\
  due (snd (distributeInvestmentProfits Samples.after_midnight Samples.one_plan))
      (iso_date Samples.after_midnight + 1) Samples.alice_plan = true.
Proof.
  split; [vm_compute; now left|].
  rewrite (paid_today_due_tomorrow Samples.after_midnight Samples.one_plan
             Samples.alice_plan (iso_date Samples.after_midnight + 1)).
  - reflexivity.
  - vm_compute. now left.
Defined.

(* ------------------------------------------------------------------ *)
(** ** What a profit run leaves alone *)
(* ------------------------------------------------------------------ *)

Lemma Forall2_same {A} (R : A -> A -> Prop) (l : list A) :
  (forall a, R a a) -> Forall2 R l l.
Proof. intros Hrefl. induction l; constructor; auto. Qed.

Section EntriesFrame.
Context {A K : Type} (key : A -> string) (cur : A -> Q) (upd : Q -> A -> A)
        (rest : A -> K).
Hypothesis upd_key : forall v a, key (upd v a) = key a.
Hypothesis upd_rest : forall v a, rest (upd v a) = rest a.

(** Applying entries whose keys are among [ks] rewrites only rows with a
    key of [ks], and of those only what [upd] sets. *)
Lemma apply_entries_frame (ks : list string) (es : JsMap) :
  incl (map fst es) ks ->
  forall l,
  Forall2 (fun a a' => (rest a' = rest a /\ key a' = key a) /\
                       (~ In (key a) ks -> a' = a))
          l (fold_left (fun l e => apply_entry key cur upd e l) es l).
Proof.
  induction es as [|e es IH]; intros Hks l; simpl.
  - apply Forall2_same. intros a. repeat split.
  - eapply Forall2_compose; [| |apply IH].
    + intros a b c [[Hr1 Hk1] H1] [[Hr2 Hk2] H2]. split; [split; congruence|].
      intros Hn. rewrite <- (H1 Hn). apply H2. rewrite (H1 Hn). exact Hn.
    + unfold apply_entry. destruct (single _) as [c|c].
      * apply Forall2_update_rows.
        -- intros a. repeat split.
        -- intros a Ha. apply String.eqb_eq in Ha. split.
           ++ now rewrite upd_key, upd_rest.
           ++ intros Hn. exfalso. apply Hn. rewrite Ha. apply Hks. now left.
      * apply Forall2_same. intros a. repeat split.
    + intros k Hk. apply Hks. now right.
Qed.
End EntriesFrame.

Lemma queued_keys_owners (l : list InvestmentPlan) :
  forall m k,
  In k (map fst (fold_left (fun m p => accumulate p m) l m)) ->
  In k (map fst m) \/ In k (map plan_user_id l).
Proof.
  induction l as [|p l IH]; intros m k Hk; simpl in *.
  - now left.
  - apply IH in Hk. destruct Hk as [Hk|Hk]; [|right; now right].
    unfold accumulate in Hk. rewrite map_set_keys in Hk.
    destruct (map_has (plan_user_id p) m); [now left|].
    apply in_app_or in Hk. destruct Hk as [Hk|[Hk|[]]]; [now left|].
    right. now left.
Qed.

Lemma wallet_step_records (e : string * Q) (d : DB) :
  (referral_commissions (snd (wallet_step e tt d)),
   withdrawal_requests (snd (wallet_step e tt d)),
   deposit_requests (snd (wallet_step e tt d))) =
  (referral_commissions d, withdrawal_requests d, deposit_requests d).
Proof.
  destruct e as [uid tot]. unfold wallet_step, bind, select_single.
  destruct (single _); reflexivity.
Qed.

Lemma plan_total_step_records (r : ProfitDistribution) (d : DB) :
  (referral_commissions (snd (plan_total_step r tt d)),
   withdrawal_requests (snd (plan_total_step r tt d)),
   deposit_requests (snd (plan_total_step r tt d)),
   transactions (snd (plan_total_step r tt d))) =
  (referral_commissions d, withdrawal_requests d, deposit_requests d, transactions d).
Proof.
  unfold plan_total_step, bind, select_single.
  destruct (single _); reflexivity.
Qed.

(** X9. Whatever the store, one run of the distribution changes of a
    profile nothing but the main wallet, and that only for owners of plans it
    pays; of a plan nothing but total_profit_earned, and that only for plans
    it pays; and no referral commission, withdrawal request or deposit
    request. Fund wallets, principal and rates are never written. *)
Theorem profit_run_touches_paid_only (now : Z) (d : DB) :
  payout_frame (map plan_user_id (paid_plans d (iso_date now)))
               (map plan_id (paid_plans d (iso_date now)))
               d (snd (distributeInvestmentProfits now d)).
Proof.
  rewrite distributeInvestmentProfits_run. cbn [snd].
  set (today := iso_date now).
  destruct (paid_plans d today) as [|p0 ps] eqn:Hpp.
  { repeat split; apply Forall2_same; intros a; repeat split. }
  rewrite <- Hpp. clear p0 ps Hpp.
  split; [|split].
  - rewrite after_writes_profiles.
    eapply Forall2_weaken;
      [|apply (apply_entries_frame id balance_or_zero set_balance profile_rest
                 (fun _ _ => eq_refl) (fun _ _ => eq_refl)
                 (map plan_user_id (paid_plans d today)))].
    + intros a b [[Hr _] H]. now split.
    + intros k Hk. unfold queued_updates in Hk.
      apply queued_keys_owners in Hk. destruct Hk as [[]|Hk]. exact Hk.
  - rewrite after_writes_plans.
    eapply Forall2_weaken;
      [|apply (apply_entries_frame plan_id earned_or_zero set_total_profit_earned
                 plan_rest (fun _ _ => eq_refl) (fun _ _ => eq_refl)
                 (map plan_id (paid_plans d today)))].
    + intros a b [[Hr _] H]. now split.
    + rewrite !map_map. simpl. apply incl_refl.
  - unfold after_writes.
    pose proof (for_of_table
                  (fun d => (referral_commissions d, withdrawal_requests d,
                             deposit_requests d, transactions d))
                  (fun _ t => t) plan_total_step
                  (map (distribution_row today) (paid_plans d today))
                  plan_total_step_records plan_total_step_returns) as H2.
    pose proof (for_of_table
                  (fun d => (referral_commissions d, withdrawal_requests d,
                             deposit_requests d))
                  (fun _ t => t) wallet_step (queued_updates d today)
                  wallet_step_records wallet_step_returns) as H1.
    set (d0 := set_profit_distributions _ d) in *.
    specialize (H1 d0). rewrite fold_left_id in H1.
    set (d1 := snd (for_of (queued_updates d today) wallet_step tt d0)) in *.
    specialize (H2 d1). rewrite fold_left_id in H2.
    set (d2 := snd (for_of _ plan_total_step tt d1)) in *.
    injection H1 as R1 W1 D1. injection H2 as R2 W2 D2 _.
    repeat split; congruence.
Qed.

(* ------------------------------------------------------------------ *)
(** ** The ledger of a profit run *)
(* ------------------------------------------------------------------ *)






(** The accumulated total is a sum of doubles taken in plan order: plans of
    10, 10 and 15 at 3% a day are paid 0.3, 0.3 and 0.44999999999999996,
    and the owner's ledger row and wallet receive 1.0499999999999998. *)
Remark three_plans_total :
  let d' := snd (distributeInvestmentProfits Samples.after_midnight
                   MoreSamples.three_plans) in
  Forall2 Qeq (map profit_amount (profit_distributions d'))
    [0.3; 0.3; 0.44999999999999996]%Q /\
  Forall2 Qeq (map tx_amount (transactions d')) [1.0499999999999998]%Q /\
  Forall2 Qeq (map main_wallet_balance (profiles d')) [1.0499999999999998]%Q.
Proof.
  vm_compute. repeat split; repeat (constructor; [reflexivity|]); constructor.
Qed.

(* ------------------------------------------------------------------ *)
(** ** Administrative procedures *)
(* ------------------------------------------------------------------ *)

Import AdminFunds.

Lemma Forall_update_rows {A} (P : A -> Prop) (cond : A -> bool) (f : A -> A) (l : list A) :
  Forall P l -> (forall a, In a l -> cond a = true -> P (f a)) ->
  Forall P (update_rows cond f l).
Proof.
  intros Hl Hf. unfold update_rows. apply Forall_forall. intros x Hx.
  apply in_map_iff in Hx. destruct Hx as (a & <- & Ha).
  destruct (cond a) eqn:Hc; [now apply Hf|].
  rewrite Forall_forall in Hl. now apply Hl.
Qed.

Lemma find_key_unique {A} (key : A -> string) (l : list A) (p : A) :
  NoDup (map key l) -> In p l ->
  find (fun a => String.eqb (key a) (key p)) l = Some p.
Proof.
  intros Hnd Hin. pose proof (filter_key_unique key l p Hnd Hin) as Hf.
  rewrite find_hd_filter, Hf. reflexivity.
Qed.

Lemma update_rows_none {A} (cond : A -> bool) (f : A -> A) (l : list A) :
  (forall a, In a l -> cond a = false) -> update_rows cond f l = l.
Proof.
  intros H. unfold update_rows. induction l as [|a l IH]; simpl; [reflexivity|].
  rewrite (H a) by now left. f_equal. apply IH. intros x Hx. apply H. now right.
Qed.

Lemma find_none_all {A} (cond : A -> bool) (l : list A) :
  (forall a, In a l -> cond a = false) -> find cond l = None.
Proof.
  intros H. induction l as [|a l IH]; simpl; [reflexivity|].
  rewrite (H a) by now left. apply IH. intros x Hx. apply H. now right.
Qed.

Lemma existsb_none_all {A} (cond : A -> bool) (l : list A) :
  (forall a, In a l -> cond a = false) -> existsb cond l = false.
Proof.
  intros H. induction l as [|a l IH]; simpl; [reflexivity|].
  rewrite (H a) by now left. apply IH. intros x Hx. apply H. now right.
Qed.

Lemma Qle_bool_false_lt (x y : Q) : Qle_bool x y = false -> (y < x)%Q.
Proof.
  intros H. apply Qnot_le_lt. intros Hle. apply Qle_bool_iff in Hle. congruence.
Qed.

(** X11. With unique profile ids, no administrative procedure on wallets
    takes a main wallet below zero: if every main wallet is at least zero
    before approve_withdrawal_request, reject_withdrawal_request,
    admin_add_funds_to_user or admin_deduct_funds_from_user, then so it is
    after, whether the procedure returns or raises. *)
Theorem admin_procedures_keep_wallets_nonnegative
    (auth : option uuid) (rid epoch uid : string) (amount : Q) (d : DB) :
  NoDup (map id (profiles d)) ->
  solvent d ->
  solvent (snd (approve_withdrawal_request auth rid d)) /\
  solvent (snd (reject_withdrawal_request auth rid d)) /\
  solvent (snd (admin_add_funds_to_user auth epoch uid amount d)) /\
  solvent (snd (admin_deduct_funds_from_user auth epoch uid amount d)).
Proof.
  intros Hnd Hsolv. unfold solvent in *. split; [|split; [|split]].
  - unfold approve_withdrawal_request, bind, get, throw, modify, ret.
    destruct (negb (caller_is_admin auth d)); [exact Hsolv|].
    destruct (find _ (withdrawal_requests d)) as [r|]; [|exact Hsolv].
    destruct (is_true _) eqn:Hlt; [exact Hsolv|]. cbn.
    apply Forall_update_rows; [exact Hsolv|].
    intros p Hp Hid. apply String.eqb_eq in Hid. rewrite <- Hid in Hlt.
    rewrite (find_key_unique id (profiles d) p Hnd Hp) in Hlt. cbn in Hlt.
    destruct (Qle_bool (wr_amount r) (main_wallet_balance p)) eqn:Hle;
      [|discriminate].
    apply Qle_bool_iff in Hle. cbn. lra.
  - rewrite reject_withdrawal_profiles. exact Hsolv.
  - unfold admin_add_funds_to_user, book, bind, get, throw, modify, ret.
    destruct (negb (caller_is_admin auth d)); [exact Hsolv|].
    destruct (Qle_bool amount 0) eqn:Hpos; [exact Hsolv|].
    destruct (find _ (profiles d)) as [u|]; [|exact Hsolv]. cbn.
    apply Qle_bool_false_lt in Hpos.
    apply Forall_update_rows; [exact Hsolv|].
    intros p Hp _. rewrite Forall_forall in Hsolv. specialize (Hsolv p Hp).
    cbn. lra.
  - unfold admin_deduct_funds_from_user, book, bind, get, throw, modify, ret.
    destruct (negb (caller_is_admin auth d)); [exact Hsolv|].
    destruct (Qle_bool amount 0) eqn:Hpos; [exact Hsolv|].
    destruct (find _ (profiles d)) as [u|] eqn:Hu; [|exact Hsolv].
    destruct (is_true _) eqn:Hlt; [exact Hsolv|]. cbn.
    apply Forall_update_rows; [exact Hsolv|].
    intros p Hp Hid. apply String.eqb_eq in Hid. rewrite <- Hid in Hu.
    rewrite (find_key_unique id (profiles d) p Hnd Hp) in Hu.
    injection Hu as <-. cbn in Hlt.
    destruct (Qle_bool amount (main_wallet_balance p)) eqn:Hle; [|discriminate].
    apply Qle_bool_iff in Hle. cbn. lra.
Qed.

Lemma covered_ids : NoDup (map id (profiles MoreSamples.covered)).
Proof. vm_compute. repeat constructor; simpl; intuition discriminate. Qed.

Lemma covered_solvent : solvent MoreSamples.covered.
Proof. unfold solvent. vm_compute. repeat constructor; discriminate. Qed.

Lemma admin_procedures_keep_wallets_nonnegative_witness :
  solvent (snd (approve_withdrawal_request (Some "admin") "w2" MoreSamples.covered)) /\
  solvent (snd (admin_deduct_funds_from_user (Some "admin") "0" "bob" 40
                  MoreSamples.covered)).
Proof.
  split.
  - apply (admin_procedures_keep_wallets_nonnegative (Some "admin") "w2" "0" "bob" 40
             MoreSamples.covered covered_ids covered_solvent).
  - apply (admin_procedures_keep_wallets_nonnegative (Some "admin") "w2" "0" "bob" 40
             MoreSamples.covered covered_ids covered_solvent).
Defined.

Lemma caller_is_admin_profiles (auth : option uuid) (d d' : DB) :
  map (fun p => (id p, is_admin p)) (profiles d') =
  map (fun p => (id p, is_admin p)) (profiles d) ->
  caller_is_admin auth d' = caller_is_admin auth d.
Proof.
  unfold caller_is_admin. generalize (profiles d) (profiles d').
  induction l as [|p l IH]; intros [|p' l'] H; simpl in *; try discriminate.
  - reflexivity.
  - injection H as Hid Hadm Hrest. rewrite Hid, Hadm. f_equal. now apply IH.
Qed.

Lemma find_update_rows_key {A} (key : A -> string) (k : string) (f : A -> A)
    (l : list A) :
  (forall a, key (f a) = key a) ->
  find (fun a => String.eqb (key a) k)
       (update_rows (fun a => String.eqb (key a) k) f l) =
  option_map f (find (fun a => String.eqb (key a) k) l).
Proof.
  intros Hkey. induction l as [|a l IH]; simpl; [reflexivity|].
  destruct (String.eqb (key a) k) eqn:Ha.
  - rewrite Hkey, Ha. reflexivity.
  - rewrite Ha. exact IH.
Qed.

(** X12. Adding an amount to a user's main wallet and then deducting the
    same amount, by an administrator, for a user whose main wallet is not
    below zero: both calls return, every main wallet is back at its value,
    no other profile column has changed, and the ledger has gained a
    completed deposit and a completed withdrawal of that amount. *)
Theorem admin_add_then_deduct_restores_wallets
    (auth : option uuid) (e1 e2 : string) (uid : uuid) (amount : Q) (d : DB)
    (user : Profile) :
  caller_is_admin auth d = true ->
  (0 < amount)%Q ->
  find (fun p => String.eqb (id p) uid) (profiles d) = Some user ->
  (0 <= main_wallet_balance user)%Q ->
  exists j1 d1 j2 d2,
    admin_add_funds_to_user auth e1 uid amount d = (Ret j1, d1) /\
    admin_deduct_funds_from_user auth e2 uid amount d1 = (Ret j2, d2) /\
    same_wallets d d2 /\
    map ledger_entry (transactions d2) =
      map ledger_entry (transactions d) ++
      [(uid, deposit, amount, Some amount, completed);
       (uid, withdrawal, amount, Some amount, completed)] /\
    fj_new_balance j1 = Some (main_wallet_balance user + amount)%Q /\
    fj_new_balance j2 = Some (main_wallet_balance user + amount - amount)%Q.
Proof.
  intros Hadmin Hpos Huser Hbal.
  assert (Hpos' : Qle_bool amount 0 = false).
  { destruct (Qle_bool amount 0) eqn:E; [|reflexivity].
    apply Qle_bool_iff in E. lra. }
  set (add := fun p => set_balance (main_wallet_balance p + amount)%Q p).
  set (sub := fun p => set_balance (main_wallet_balance p - amount)%Q p).
  set (mine := fun p => String.eqb (id p) uid).
  set (d1 := set_uuid_seq (S (uuid_seq d))
               (set_transactions
                  (transactions d ++
                   [mkTransaction (uuid_of_nat (uuid_seq d)) uid deposit amount None
                      (Some amount) completed (Some (String.append "ADMIN_ADD_" e1)) None])
                  (set_profiles (update_rows mine add (profiles d)) d))).
  assert (Hfind1 : find mine (profiles d1) = Some (add user)).
  { subst d1 mine. cbn [profiles set_uuid_seq set_transactions set_profiles].
    rewrite (find_update_rows_key id uid add (profiles d)) by reflexivity.
    now rewrite Huser. }
  assert (Hadmin1 : caller_is_admin auth d1 = true).
  { rewrite <- Hadmin. apply caller_is_admin_profiles.
    subst d1. cbn [profiles set_uuid_seq set_transactions set_profiles].
    apply map_update_rows. intros r. reflexivity. }
  assert (Hrun1 : admin_add_funds_to_user auth e1 uid amount d =
                  (Ret (mkFundsJson uid amount (balance_of uid d1)
                          (uuid_of_nat (uuid_seq d))), d1)).
  { unfold admin_add_funds_to_user, book, bind, get, modify, ret.
    rewrite Hadmin, Hpos', Huser. reflexivity. }
  set (d2 := set_uuid_seq (S (uuid_seq d1))
               (set_transactions
                  (transactions d1 ++
                   [mkTransaction (uuid_of_nat (uuid_seq d1)) uid withdrawal amount None
                      (Some amount) completed
                      (Some (String.append "ADMIN_DEDUCT_" e2)) None])
                  (set_profiles (update_rows mine sub (profiles d1)) d1))).
  assert (Hrun2 : admin_deduct_funds_from_user auth e2 uid amount d1 =
                  (Ret (mkFundsJson uid amount (balance_of uid d2)
                          (uuid_of_nat (uuid_seq d1))), d2)).
  { unfold admin_deduct_funds_from_user, book, bind, get, modify, ret.
    rewrite Hadmin1, Hpos'. fold mine. rewrite Hfind1.
    cbn [numeric_lt is_true add set_balance main_wallet_balance].
    assert (Hle : Qle_bool amount (main_wallet_balance user + amount) = true).
    { apply Qle_bool_iff. lra. }
    rewrite Hle. reflexivity. }
  exists (mkFundsJson uid amount (balance_of uid d1) (uuid_of_nat (uuid_seq d))), d1,
         (mkFundsJson uid amount (balance_of uid d2) (uuid_of_nat (uuid_seq d1))), d2.
  split; [exact Hrun1|]. split; [exact Hrun2|]. split; [|split; [|split]].
  - unfold same_wallets. subst d2 d1.
    cbn [profiles set_uuid_seq set_transactions set_profiles].
    unfold update_rows. generalize (profiles d).
    induction l as [|p l IH]; simpl; constructor; [|exact IH].
    destruct (mine p) eqn:Hp.
    + subst mine. cbn in Hp |- *. rewrite Hp. cbn. split; [reflexivity|ring].
    + rewrite Hp. split; reflexivity.
  - subst d2 d1. cbn [transactions set_uuid_seq set_transactions set_profiles].
    rewrite !map_app, <- app_assoc. reflexivity.
  - cbn [fj_new_balance]. unfold balance_of. fold mine. now rewrite Hfind1.
  - cbn [fj_new_balance]. unfold balance_of. fold mine.
    subst d2. cbn [profiles set_uuid_seq set_transactions set_profiles].
    subst mine. rewrite (find_update_rows_key id uid sub (profiles d1)) by reflexivity.
    rewrite Hfind1. reflexivity.
Qed.

Lemma admin_add_then_deduct_restores_wallets_witness :
  exists j1 d1 j2 d2,
    admin_add_funds_to_user (Some "admin") "1" "bob" 25 MoreSamples.covered
      = (Ret j1, d1) /\
    admin_deduct_funds_from_user (Some "admin") "2" "bob" 25 d1 = (Ret j2, d2) /\
    same_wallets MoreSamples.covered d2.
Proof.
  destruct (admin_add_then_deduct_restores_wallets (Some "admin") "1" "2" "bob" 25
              MoreSamples.covered Samples.bob)
    as (j1 & d1 & j2 & d2 & H1 & H2 & H3 & _).
  - reflexivity.
  - reflexivity.
  - reflexivity.
  - discriminate.
  - exists j1, d1, j2, d2. repeat split; assumption.
Defined.

(** X13. A caller who is not an administrator gets "Access denied" from
    each of approve_withdrawal_request, reject_withdrawal_request,
    admin_add_funds_to_user and admin_deduct_funds_from_user, and the store
    is left as it was. *)
Theorem procedures_deny_other_callers
    (auth : option uuid) (rid epoch uid : string) (amount : Q) (d : DB) :
  caller_is_admin auth d = false ->
  let denied := "Access denied. Admin privileges required." in
  approve_withdrawal_request auth rid d = (Throw denied, d) /\
  reject_withdrawal_request auth rid d = (Throw denied, d) /\
  admin_add_funds_to_user auth epoch uid amount d = (Throw denied, d) /\
  admin_deduct_funds_from_user auth epoch uid amount d = (Throw denied, d).
Proof.
  intros H denied.
  unfold approve_withdrawal_request, reject_withdrawal_request,
    admin_add_funds_to_user, admin_deduct_funds_from_user, bind, get, throw.
  rewrite H. repeat split.
Qed.

Lemma procedures_deny_other_callers_witness :
  approve_withdrawal_request (Some "bob") "w2" MoreSamples.covered =
    (Throw "Access denied. Admin privileges required.", MoreSamples.covered) /\
  admin_add_funds_to_user None "0" "bob" 1000 MoreSamples.covered =
    (Throw "Access denied. Admin privileges required.", MoreSamples.covered).
Proof.
  split.
  - apply (procedures_deny_other_callers (Some "bob") "w2" "0" "bob" 1000
             MoreSamples.covered eq_refl).
  - apply (procedures_deny_other_callers None "w2" "0" "bob" 1000
             MoreSamples.covered eq_refl).
Defined.

Lemma set_withdrawal_requests_same (d : DB) :
  set_withdrawal_requests (withdrawal_requests d) d = d.
Proof. now destruct d. Qed.

Lemma set_deposit_requests_same (d : DB) :
  set_deposit_requests (deposit_requests d) d = d.
Proof. now destruct d. Qed.

Lemma withdrawal_not_pending_twice (auth : option uuid) (rid : uuid) (d : DB) :
  (forall r, In r (withdrawal_requests d) ->
     String.eqb (wr_id r) rid && request_status_eqb (wr_status r) req_pending = false) ->
  (exists e, approve_withdrawal_request auth rid d = (Throw e, d)) /\
  (exists e, reject_withdrawal_request auth rid d = (Throw e, d)).
Proof.
  intros Hnone. split.
  - unfold approve_withdrawal_request, bind, get, throw.
    destruct (negb (caller_is_admin auth d)); [eauto|].
    rewrite (find_none_all _ _ Hnone). eauto.
  - unfold reject_withdrawal_request, bind, get, throw, modify.
    destruct (negb (caller_is_admin auth d)); [eauto|].
    rewrite (existsb_none_all _ _ Hnone), (update_rows_none _ _ _ Hnone),
      set_withdrawal_requests_same. cbn. eauto.
Qed.

(** X14. A withdrawal request is settled at most once: in the store left
    by an approval or a rejection that returned, approving or rejecting the
    same request again raises, for every caller, and leaves the store as it
    is. *)
Theorem withdrawal_request_settled_once
    (auth : option uuid) (rid : uuid) (d d' : DB) (b : bool) :
  approve_withdrawal_request auth rid d = (Ret b, d') \/
  reject_withdrawal_request auth rid d = (Ret b, d') ->
  forall auth',
    (exists e, approve_withdrawal_request auth' rid d' = (Throw e, d')) /\
    (exists e, reject_withdrawal_request auth' rid d' = (Throw e, d')).
Proof.
  intros Hrun auth'. apply withdrawal_not_pending_twice.
  destruct Hrun as [Hrun|Hrun].
  - unfold approve_withdrawal_request, bind, get, throw, modify, ret in Hrun.
    destruct (negb (caller_is_admin auth d)); [discriminate|].
    destruct (find _ (withdrawal_requests d)) as [w|]; [|discriminate].
    destruct (is_true _); [discriminate|]. cbn in Hrun.
    injection Hrun as _ <-. cbn. intros r Hr. unfold update_rows in Hr.
    apply in_map_iff in Hr. destruct Hr as (x & <- & _).
    destruct (String.eqb (wr_id x) rid) eqn:Hx; cbn; [|now rewrite Hx].
    rewrite Hx. reflexivity.
  - unfold reject_withdrawal_request, bind, get, throw, modify, ret in Hrun.
    destruct (negb (caller_is_admin auth d)); [discriminate|]. cbn in Hrun.
    destruct (negb (existsb _ (withdrawal_requests d))); [discriminate|].
    cbn in Hrun. injection Hrun as _ <-. cbn. intros r Hr. unfold update_rows in Hr.
    apply in_map_iff in Hr. destruct Hr as (x & <- & _).
    destruct (String.eqb (wr_id x) rid && request_status_eqb (wr_status x) req_pending)
      eqn:Hx; cbn; [apply andb_false_r|exact Hx].
Qed.

Lemma withdrawal_request_settled_once_witness :
  exists d',
    approve_withdrawal_request (Some "admin") "w2" MoreSamples.covered = (Ret true, d') /\
    (exists e, approve_withdrawal_request (Some "admin") "w2" d' = (Throw e, d')) /\
    (exists e, reject_withdrawal_request (Some "admin") "w2" d' = (Throw e, d')).
Proof.
  eexists. split; [vm_compute; reflexivity|].
  apply (withdrawal_request_settled_once (Some "admin") "w2" MoreSamples.covered _ true).
  left. vm_compute. reflexivity.
Defined.

(* ------------------------------------------------------------------ *)
(** ** Manual deposit requests *)
(* ------------------------------------------------------------------ *)

Lemma deposit_not_pending_twice (rid admin_id : uuid) (d : DB) :
  (forall r, In r (deposit_requests d) ->
     String.eqb (dr_id r) rid && request_status_eqb (dr_status r) req_pending = false) ->
  process_manual_deposit_approval rid admin_id d =
    (Ret (approval_failure "Deposit request not found or already processed"), d) /\
  reject_manual_deposit rid admin_id d =
    (Ret (rejection_failure "Deposit request not found or already processed"), d).
Proof.
  intros Hnone. split.
  - unfold process_manual_deposit_approval, exception_when_others, bind, get, ret.
    rewrite (find_none_all _ _ Hnone). reflexivity.
  - unfold reject_manual_deposit, exception_when_others, bind, get, ret, modify.
    rewrite (existsb_none_all _ _ Hnone), (update_rows_none _ _ _ Hnone),
      set_deposit_requests_same. reflexivity.
Qed.

(** Rounding moves a value by at most half a unit. *)
Lemma round_units_close (q : Q) :
  (Qabs (inject_Z (round_units 2 q) / 100 - q) <= 1 # 200)%Q.
Proof.
  apply Qabs_Qle_condition.
  unfold round_units. change (10 ^ 2) with 100.
  destruct q as [num den]. cbn [Qnum Qden].
  set (n := num * 100). set (D := Zpos den).
  assert (HD : 0 < D) by (unfold D; lia).
  pose proof (Z.div_mod (2 * Z.abs n + D) (2 * D) ltac:(lia)) as Hdm.
  pose proof (Z.mod_pos_bound (2 * Z.abs n + D) (2 * D) ltac:(lia)) as Hmod.
  set (r := (2 * Z.abs n + D) / (2 * D)) in *.
  assert (Hu : -D <= 2 * (Z.sgn n * r * D - n) <= D).
  { destruct (Z.sgn_spec n) as [[Hn ->]|[[Hn ->]|[Hn ->]]].
    - rewrite (Z.abs_eq n) in * by lia. nia.
    - lia.
    - rewrite (Z.abs_neq n) in * by lia. nia. }
  clearbody r. clear Hdm Hmod.
  unfold Qle, Qminus, Qplus, Qopp, Qdiv, Qmult, Qinv, inject_Z. cbn.
  fold D. subst n. rewrite ?Pos2Z.inj_mul. fold D. split; nia.
Qed.

(** The approval, when it finds the request and neither rounding
    overflows. *)
Lemma manual_deposit_success (rid admin_id : uuid) (d d' : DB)
    (txid : uuid) (A fee net : Q) (user : uuid) :
  process_manual_deposit_approval rid admin_id d =
    (Ret (approval_success txid A fee net user), d') ->
  exists request,
    find (fun r => String.eqb (dr_id r) rid
                   && request_status_eqb (dr_status r) req_pending)
         (deposit_requests d) = Some request /\
    A = dr_amount request /\ user = dr_user_id request /\
    fee = (inject_Z (round_units 2 (A * 0.01)) / 100)%Q /\
    net = (inject_Z (round_units 2 (A - fee)) / 100)%Q /\
    d' = set_deposit_requests
           (update_rows (fun r => String.eqb (dr_id r) rid)
              (set_dr_status req_approved) (deposit_requests d))
           (set_profiles
              (update_rows (fun p => String.eqb (id p) user)
                 (fun p => set_balance (main_wallet_balance p + net)%Q p)
                 (profiles d))
              (set_uuid_seq (S (uuid_seq d))
                 (set_transactions
                    (transactions d ++
                     [mkTransaction txid user deposit net (Some fee) (Some net)
                        completed (dr_tx_hash request) None]) d))).
Proof.
  unfold process_manual_deposit_approval, exception_when_others, bind, get, ret,
    modify, decimal_15_2, throw.
  destruct (find _ (deposit_requests d)) as [request|]; [|discriminate].
  destruct (10 ^ 15 <=? Z.abs (round_units 2 (dr_amount request * 0.01)));
    [discriminate|].
  cbn -[round_units Z.pow Z.leb].
  destruct (10 ^ 15 <=? Z.abs (round_units 2
              (dr_amount request
               - inject_Z (round_units 2 (dr_amount request * 0.01)) / 100)));
    [discriminate|].
  cbn -[round_units]. intros H. injection H as <- <- <- <- <- <-.
  exists request. repeat split.
Qed.

(** X15. A manual deposit request is settled at most once: in the store
    left by an approval that succeeded or a rejection that succeeded,
    approving or rejecting the same request again answers "Deposit request
    not found or already processed" and changes nothing, so the wallet is
    credited once. *)
Theorem deposit_request_settled_once (rid admin_id : uuid) (d d' : DB) :
  (exists txid A fee net user,
     process_manual_deposit_approval rid admin_id d =
       (Ret (approval_success txid A fee net user), d')) \/
  (exists message,
     reject_manual_deposit rid admin_id d = (Ret (rejection_success message), d')) ->
  forall admin_id',
    process_manual_deposit_approval rid admin_id' d' =
      (Ret (approval_failure "Deposit request not found or already processed"), d') /\
    reject_manual_deposit rid admin_id' d' =
      (Ret (rejection_failure "Deposit request not found or already processed"), d').
Proof.
  intros Hrun admin_id'. apply deposit_not_pending_twice.
  destruct Hrun as [(txid & A & fee & net & user & Hrun)|(message & Hrun)].
  - apply manual_deposit_success in Hrun.
    destruct Hrun as (request & _ & _ & _ & _ & _ & ->). cbn.
    intros r Hr. unfold update_rows in Hr.
    apply in_map_iff in Hr. destruct Hr as (x & <- & _).
    destruct (String.eqb (dr_id x) rid) eqn:Hx; cbn; [|now rewrite Hx].
    rewrite Hx. reflexivity.
  - unfold reject_manual_deposit, exception_when_others, bind, get, ret, modify
      in Hrun.
    destruct (negb (existsb _ (deposit_requests d))); [discriminate|].
    injection Hrun as _ <-. cbn. intros r Hr. unfold update_rows in Hr.
    apply in_map_iff in Hr. destruct Hr as (x & <- & _).
    destruct (String.eqb (dr_id x) rid && request_status_eqb (dr_status x) req_pending)
      eqn:Hx; cbn; [apply andb_false_r|exact Hx].
Qed.

Lemma deposit_request_settled_once_witness :
  exists d',
    (exists fee net,
       process_manual_deposit_approval "dep-2" "admin" Samples.round_deposit =
         (Ret (approval_success "gen-0" 200 fee net "bob"), d')) /\
    process_manual_deposit_approval "dep-2" "admin" d' =
      (Ret (approval_failure "Deposit request not found or already processed"), d').
Proof.
  eexists. split.
  - eexists. eexists. vm_compute. reflexivity.
  - apply (deposit_request_settled_once "dep-2" "admin" Samples.round_deposit).
    left. eexists _, _, _, _, _. vm_compute. reflexivity.
Defined.

(** X16. Neither procedure on manual deposit requests raises to its
    caller.  An approval that answers failure, the overflow of a rounding
    included, leaves the store exactly as it was; a rejection, whatever it
    answers, changes no profile and no ledger row. *)
Theorem manual_deposit_failure_changes_nothing (rid admin_id : uuid) (d : DB) :
  (exists j, fst (process_manual_deposit_approval rid admin_id d) = Ret j /\
             (forall e, j = approval_failure e ->
                snd (process_manual_deposit_approval rid admin_id d) = d)) /\
  (exists j, fst (reject_manual_deposit rid admin_id d) = Ret j) /\
  profiles (snd (reject_manual_deposit rid admin_id d)) = profiles d /\
  transactions (snd (reject_manual_deposit rid admin_id d)) = transactions d.
Proof.
  split; [|split; [|split]].
  - unfold process_manual_deposit_approval, exception_when_others, bind, get, ret,
      modify, decimal_15_2, throw.
    destruct (find _ (deposit_requests d)) as [request|];
      [|eexists; split; [reflexivity|intros; reflexivity]].
    destruct (10 ^ 15 <=? Z.abs (round_units 2 (dr_amount request * 0.01)));
      [eexists; split; [reflexivity|intros; reflexivity]|].
    cbn -[round_units Z.pow Z.leb].
    destruct (10 ^ 15 <=? Z.abs (round_units 2
                (dr_amount request
                 - inject_Z (round_units 2 (dr_amount request * 0.01)) / 100)));
      [eexists; split; [reflexivity|intros; reflexivity]|].
    cbn -[round_units]. eexists. split; [reflexivity|]. intros e He. discriminate.
  - unfold reject_manual_deposit, exception_when_others, bind, get, ret, modify.
    destruct (negb (existsb _ (deposit_requests d))); eexists; reflexivity.
  - unfold reject_manual_deposit, exception_when_others, bind, get, ret, modify.
    destruct (negb (existsb _ (deposit_requests d))); reflexivity.
  - unfold reject_manual_deposit, exception_when_others, bind, get, ret, modify.
    destruct (negb (existsb _ (deposit_requests d))); reflexivity.
Qed.

(** X17. When the requested amount is a whole number of cents, the fee and
    the net amount of a successful approval add up to the requested amount,
    the fee is within half a cent of 1% of it, and every main wallet of the
    user has grown by the net amount. *)
Theorem manual_deposit_fee_and_net_add_up (rid admin_id : uuid) (d d' : DB)
    (txid : uuid) (A fee net : Q) (user : uuid) (cents : Z) :
  process_manual_deposit_approval rid admin_id d =
    (Ret (approval_success txid A fee net user), d') ->
  (A == inject_Z cents / 100)%Q ->
  (fee + net == A)%Q /\
  (Qabs (fee - A * 0.01) <= 1 # 200)%Q /\
  Forall2 (fun p p' => main_wallet_balance p' =
                       if String.eqb (id p) user
                       then (main_wallet_balance p + net)%Q
                       else main_wallet_balance p)
          (profiles d) (profiles d').
Proof.
  intros Hrun Hcents.
  apply manual_deposit_success in Hrun.
  destruct Hrun as (request & _ & _ & _ & Hfee & Hnet & ->).
  set (f := round_units 2 (A * 0.01)) in *.
  assert (Hn : round_units 2 (A - fee) = cents - f).
  { apply round_units_exact. rewrite Hfee, Hcents.
    unfold Zminus. rewrite inject_Z_plus, inject_Z_opp. field. }
  split; [|split].
  - rewrite Hnet, Hn, Hfee, Hcents.
    unfold Zminus. rewrite inject_Z_plus, inject_Z_opp. field.
  - rewrite Hfee. subst f. apply round_units_close.
  - cbn. unfold update_rows. generalize (profiles d).
    induction l as [|p l IH]; simpl; constructor; [|exact IH].
    destruct (String.eqb (id p) user); reflexivity.
Qed.

Lemma manual_deposit_fee_and_net_add_up_witness :
  exists fee net d',
    process_manual_deposit_approval "dep-1" "admin" Samples.manual_deposit =
      (Ret (approval_success "gen-0" 10.55 fee net "bob"), d') /\
    (fee + net == 10.55)%Q.
Proof.
  eexists _, _, _. split; [vm_compute; reflexivity|].
  eapply proj1.
  eapply (manual_deposit_fee_and_net_add_up "dep-1" "admin" Samples.manual_deposit)
    with (cents := 1055) (txid := "gen-0") (user := "bob").
  - vm_compute. reflexivity.
  - reflexivity.
Defined.

(* ------------------------------------------------------------------ *)
(** ** The deposit route *)
(* ------------------------------------------------------------------ *)

(** X18. The deposit submission never throws.  It answers 200 only for a
    request with a user id, a hash and an amount from 10 to 50000, for a
    user with exactly one profile row, and then appends one pending deposit
    row of that amount with no fee and no net amount; with any other status
    the store is exactly as before.  Either way no wallet is written. *)
Theorem deposit_submission_is_validated (request : deposit_request_body) (d : DB) :
  exists r,
    fst (POST request d) = Ret r /\
    profiles (snd (POST request d)) = profiles d /\
    (status r <> 200%nat /\ snd (POST request d) = d \/
     exists userId hash amount user,
       r = ok (deposit_submitted_json amount hash) /\
       truthy (body_userId request) = Some userId /\
       truthy (txHash request) = Some hash /\
       expectedAmount request = Some amount /\
       (10 <= amount)%Q /\ (amount <= 50000)%Q /\
       filter (fun p => String.eqb (id p) userId) (profiles d) = [user] /\
       snd (POST request d) =
         set_uuid_seq (S (uuid_seq d))
           (set_transactions
              (transactions d ++
               [mkTransaction (uuid_of_nat (uuid_seq d)) userId deposit amount
                  None None pending (Some hash) None]) d)).
Proof.
  unfold POST, try_catch, bind, select_single, insert_with_id, ret.
  destruct (truthy (body_userId request)) as [userId|];
    [|eexists; split; [reflexivity|split; [reflexivity|left; split; [discriminate|reflexivity]]]].
  destruct (truthy (txHash request)) as [hash|];
    [|eexists; split; [reflexivity|split; [reflexivity|left; split; [discriminate|reflexivity]]]].
  destruct (expectedAmount request) as [e|];
    [|eexists; split; [reflexivity|split; [reflexivity|left; split; [discriminate|reflexivity]]]].
  destruct (Qeq_bool e 0);
    [eexists; split; [reflexivity|split; [reflexivity|left; split; [discriminate|reflexivity]]]|].
  destruct (Qle_bool 10 e) eqn:Hmin; cbn [negb];
    [|eexists; split; [reflexivity|split; [reflexivity|left; split; [discriminate|reflexivity]]]].
  destruct (Qle_bool e 50000) eqn:Hmax; cbn [negb];
    [|eexists; split; [reflexivity|split; [reflexivity|left; split; [discriminate|reflexivity]]]].
  destruct (filter (fun p => String.eqb (id p) userId) (profiles d))
    as [|user [|user' others]] eqn:Hprofile; cbn [single];
    [eexists; split; [reflexivity|split; [reflexivity|left; split; [discriminate|reflexivity]]]|
    |eexists; split; [reflexivity|split; [reflexivity|left; split; [discriminate|reflexivity]]]].
  destruct (single (filter (fun t => text_is hash (tx_reference_id t)) (transactions d)));
    [eexists; split; [reflexivity|split; [reflexivity|left; split; [discriminate|reflexivity]]]|].
  eexists. split; [reflexivity|]. split; [reflexivity|]. right.
  exists userId, hash, e, user. apply Qle_bool_iff in Hmin. apply Qle_bool_iff in Hmax.
  repeat split; assumption.
Qed.

(** X19. A pending deposit is settled through the route at most once:
    once [PUT] has answered 200 for a transaction id, by approval or by
    rejection and whatever the deposit procedure and the referral service
    did, a further [PUT] for that id answers 404 and changes nothing. *)
Theorem deposit_is_settled_once
    (process_bsc_deposit process_bsc_deposit' :
       uuid -> Q -> Q -> Q -> option string -> M (reply unit))
    (svc svc' : ReferralTransaction -> M unit)
    (request : approval_request_body) (again : bool) (d d' : DB) (r : NextResponse) :
  PUT process_bsc_deposit svc request d = (Ret r, d') ->
  status r = 200%nat ->
  PUT process_bsc_deposit' svc' (mkApprovalBody (transactionId request) (Some again)) d' =
    (Ret (mkResponse 404 (error_json "Deposit transaction not found")), d').
Proof.
  intros Hrun Hok.
  assert (Hgone : exists tid,
            truthy (transactionId request) = Some tid /\
            forall t, In t (transactions d') ->
              String.eqb (tx_id t) tid && transaction_type_eqb (tx_type t) deposit
              && transaction_status_eqb (tx_status t) pending = false).
  { unfold PUT, try_catch, bind, select_single, update, delete, ret in Hrun.
    destruct (truthy (transactionId request)) as [tid|];
      [|injection Hrun as <- _; discriminate].
    destruct (approve request) as [a|]; [|injection Hrun as <- _; discriminate].
    destruct (single _) as [t|msg]; [|injection Hrun as <- _; discriminate].
    exists tid. split; [reflexivity|].
    destruct a.
    - destruct (process_bsc_deposit _ _ _ _ _ d) as [[[[]|msg]|msg] d1];
        [|injection Hrun as <- _; discriminate|injection Hrun as <- _; discriminate].
      destruct (svc _ d1) as [[[]|msg] d2].
      + injection Hrun as _ <-. cbn. intros x Hx. unfold update_rows in Hx.
        apply in_map_iff in Hx. destruct Hx as (y & <- & _).
        destruct (String.eqb (tx_id y) tid) eqn:Hy; cbn; [|now rewrite Hy].
        rewrite Hy. apply andb_false_r.
      + injection Hrun as _ <-. cbn. intros x Hx. unfold update_rows in Hx.
        apply in_map_iff in Hx. destruct Hx as (y & <- & _).
        destruct (String.eqb (tx_id y) tid) eqn:Hy; cbn; [|now rewrite Hy].
        rewrite Hy. apply andb_false_r.
    - injection Hrun as _ <-. cbn. intros x Hx. apply filter_In in Hx.
      destruct Hx as [_ Hx]. apply negb_true_iff in Hx. now rewrite Hx. }
  destruct Hgone as (tid & Htid & Hgone).
  unfold PUT, try_catch, bind, select_single, ret. cbn [transactionId approve].
  rewrite Htid.
  assert (Hnil : filter (fun t => String.eqb (tx_id t) tid
                                  && transaction_type_eqb (tx_type t) deposit
                                  && transaction_status_eqb (tx_status t) pending)
                        (transactions d') = []).
  { destruct (filter_nil_or_In
                (fun t => String.eqb (tx_id t) tid
                          && transaction_type_eqb (tx_type t) deposit
                          && transaction_status_eqb (tx_status t) pending)
                (transactions d')) as [H|(x & Hx & Hfx)]; [exact H|].
    rewrite (Hgone x Hx) in Hfx. discriminate. }
  rewrite Hnil. reflexivity.
Qed.

Lemma deposit_is_settled_once_witness :
  exists d',
    PUT Samples.deposit_procedure_ok processReferralCommissions
      (mkApprovalBody (Some "tx-9") (Some true)) Samples.clash =
      (Ret (ok (message_json "Deposit approved and processed successfully")), d') /\
    PUT Samples.deposit_procedure_ok processReferralCommissions
      (mkApprovalBody (Some "tx-9") (Some true)) d' =
      (Ret (mkResponse 404 (error_json "Deposit transaction not found")), d').
Proof.
  eexists. split; [vm_compute; reflexivity|].
  apply (deposit_is_settled_once Samples.deposit_procedure_ok Samples.deposit_procedure_ok
           processReferralCommissions processReferralCommissions
           (mkApprovalBody (Some "tx-9") (Some true)) true Samples.clash _
           (ok (message_json "Deposit approved and processed successfully"))).
  - vm_compute. reflexivity.
  - reflexivity.
Defined.

(* ------------------------------------------------------------------ *)
(** ** The invest page *)
(* ------------------------------------------------------------------ *)








(* ------------------------------------------------------------------ *)
(** ** The reset script *)
(* ------------------------------------------------------------------ *)

Import ResetScript.

Lemma positive_le (x : Q) : positive x = false -> (x <= 0)%Q.
Proof.
  unfold positive. intros H. apply negb_false_iff in H. now apply Qle_bool_iff.
Qed.


(** X23. The reset and the withdrawal approval, composed: a withdrawal
    request that was pending before the reset is still pending after it, and
    when its amount is above zero and its user has a profile, an
    administrator who approves it after the reset gets "User has
    insufficient balance for withdrawal" and nothing is written. *)
Theorem pending_withdrawal_cannot_be_approved_after_reset
    (auth : option uuid) (rid : uuid) (d : DB)
    (request : WithdrawalRequest) (user : Profile) :
  caller_is_admin auth d = true ->
  find (fun r => String.eqb (wr_id r) rid
                 && request_status_eqb (wr_status r) req_pending)
       (withdrawal_requests d) = Some request ->
  find (fun p => String.eqb (id p) (wr_user_id request)) (profiles d) = Some user ->
  (0 < wr_amount request)%Q ->
  In request (withdrawal_requests (reset d)) /\
  wr_status request = req_pending /\
  approve_withdrawal_request auth rid (reset d) =
    (Throw "User has insufficient balance for withdrawal", reset d).
Proof.
  intros Hadmin Hreq Huser Hpos.
  assert (Hwr : withdrawal_requests (reset d) = withdrawal_requests d)
    by (destruct d; reflexivity).
  assert (Hps : profiles (reset d) =
                update_rows (fun p => positive (main_wallet_balance p))
                  (set_balance 0) (profiles d))
    by (destruct d; reflexivity).
  pose proof (find_some _ _ Hreq) as [Hin Hmatch].
  apply andb_true_iff in Hmatch. destruct Hmatch as [_ Hst].
  split; [now rewrite Hwr|]. split.
  { destruct (wr_status request); try discriminate. reflexivity. }
  assert (Hadmin' : caller_is_admin auth (reset d) = true).
  { rewrite <- Hadmin. apply caller_is_admin_profiles. rewrite Hps.
    apply map_update_rows. intros r. reflexivity. }
  assert (Hfind : exists user',
            find (fun p => String.eqb (id p) (wr_user_id request)) (profiles (reset d))
              = Some user' /\ (main_wallet_balance user' <= 0)%Q).
  { rewrite Hps. clear Hps Hadmin' Hadmin. revert Huser. generalize (profiles d).
    induction l as [|p l IH]; simpl; [discriminate|].
    destruct (positive (main_wallet_balance p)) eqn:Hp; cbn [set_balance id];
      destruct (String.eqb (id p) (wr_user_id request)) eqn:Hid.
    - intros _. eexists. split; [reflexivity|]. cbn. discriminate.
    - exact IH.
    - intros _. eexists. split; [reflexivity|]. now apply positive_le.
    - exact IH. }
  destruct Hfind as (user' & Hfind & Hle).
  unfold approve_withdrawal_request, bind, get, throw.
  rewrite Hadmin'. cbn [negb]. rewrite Hwr, Hreq, Hfind.
  cbn [option_map numeric_lt is_true].
  assert (Hlt : Qle_bool (wr_amount request) (main_wallet_balance user') = false).
  { apply Qlt_Qle_bool_false. lra. }
  rewrite Hlt. reflexivity.
Qed.

Lemma pending_withdrawal_cannot_be_approved_after_reset_witness :
  approve_withdrawal_request (Some "admin") "w2" (reset MoreSamples.before_reset) =
    (Throw "User has insufficient balance for withdrawal", reset MoreSamples.before_reset).
Proof.
  apply (pending_withdrawal_cannot_be_approved_after_reset (Some "admin") "w2"
           MoreSamples.before_reset (mkWithdrawal "w2" "bob" 30 req_pending) Samples.bob).
  - reflexivity.
  - reflexivity.
  - reflexivity.
  - reflexivity.
Defined.
